(** * MedAI: the prescription-analysis and provenance-recording pipeline

    A shallow embedding of the TypeScript sources

    - [lib/types.ts]      the [PrescriptionResult] record,
    - [lib/blockchain.ts] the in-memory ledger stub and its checksum,
    - [lib/neo4j.ts]      the graph adapter with its in-memory fallback,
    - [lib/ai.ts]         the post-processing of the model's answer,
    - [lib/actions.ts]    the orchestrator (server actions),

    in both revisions the repository carries: the first one (ledger only,
    module [V1]) and the second one (ledger plus graph adapter, module
    [V2]).

    Conventions.  A JavaScript string is a [string]; a character is one
    code unit in the range 0..255.  A plain object used as a dictionary is
    an association list kept in the order [Object.keys] enumerates it.
    The list holds the object's own properties.  A member access [o[k]]
    also sees [Object.prototype]: [JsObj.member] says what it resolves
    to, and [JsObj.get], the own property, is what it evaluates to for
    every key that is not one of the twelve names of
    [JsObj.prototypeNames].  The functions that look up an id handed in
    by the caller are modelled for such keys, and the statements about
    them say so; for the twelve names the tests of the source are passed
    and the call goes on with a value that is no record (claim C9).
    Every [await] is sequential, so an [async] function is a state
    transformer that either returns or throws.  Whatever the outside world
    decides during a call (clock readings, the random draw, the remote
    model's answer, the graph database's answers) is an explicit argument
    of type [World]. *)

From Stdlib Require Import String Ascii List ZArith NArith Bool Lia.
From Stdlib Require Import DecimalString HexadecimalString DecimalN.
From Stdlib Require Import HexadecimalN HexadecimalFacts HexadecimalPos.
Import ListNotations.
Open Scope string_scope.
Open Scope list_scope.

(* ================================================================== *)
(** * JavaScript strings *)
(* ================================================================== *)

Module JsString.

(** [s.charCodeAt(i)] for the character [c] at position [i]. *)
Definition charCode (c : ascii) : Z := Z.of_N (N_of_ascii c).

(** White space and line terminators of ECMAScript (what [trim] removes
    and what [\s] matches), restricted to code units below 256:
    TAB, LF, VT, FF, CR, SPACE and NBSP. *)
Definition is_space (c : ascii) : bool :=
  let n := N_of_ascii c in
  ((9 <=? n) && (n <=? 13) || (n =? 32) || (n =? 160))%N.

(** The character class [[A-Za-z]]. *)
Definition is_alpha (c : ascii) : bool :=
  let n := N_of_ascii c in
  ((65 <=? n) && (n <=? 90) || (97 <=? n) && (n <=? 122))%N.

Definition is_digit (c : ascii) : bool :=
  let n := N_of_ascii c in ((48 <=? n) && (n <=? 57))%N.

Definition is_empty (s : string) : bool :=
  match s with EmptyString => true | String _ _ => false end.

Fixpoint trimStart (s : string) : string :=
  match s with
  | EmptyString => EmptyString
  | String c r => if is_space c then trimStart r else s
  end.

Fixpoint trimEnd (s : string) : string :=
  match s with
  | EmptyString => EmptyString
  | String c r =>
      let r' := trimEnd r in
      if is_space c && is_empty r' then EmptyString else String c r'
  end.

(** [s.trim()] *)
Definition trim (s : string) : string := trimEnd (trimStart s).

(** [s.split(/[...]/)] for a one-character class [sep]: the pieces between
    separators, empty pieces included; the empty string gives [[""]]. *)
Fixpoint split (sep : ascii -> bool) (s : string) : list string :=
  match s with
  | EmptyString => [EmptyString]
  | String c r =>
      if sep c then EmptyString :: split sep r
      else match split sep r with
           | h :: t => String c h :: t
           | [] => [String c EmptyString]
           end
  end.

(** The longest prefix whose characters all satisfy [p]: what a greedy
    [^[...]*] matches. *)
Fixpoint takeWhile (p : ascii -> bool) (s : string) : string :=
  match s with
  | EmptyString => EmptyString
  | String c r => if p c then String c (takeWhile p r) else EmptyString
  end.

(** [s.startsWith(pre)] *)
Fixpoint startsWith (pre s : string) : bool :=
  match pre, s with
  | EmptyString, _ => true
  | String a p, String b r => Ascii.eqb a b && startsWith p r
  | String _ _, EmptyString => false
  end.

Fixpoint forallb (p : ascii -> bool) (s : string) : bool :=
  match s with
  | EmptyString => true
  | String c r => p c && forallb p r
  end.

Fixpoint existsb (p : ascii -> bool) (s : string) : bool :=
  match s with
  | EmptyString => false
  | String c r => p c || existsb p r
  end.

Fixpoint last (s : string) : option ascii :=
  match s with
  | EmptyString => None
  | String c EmptyString => Some c
  | String _ r => last r
  end.

Definition head (s : string) : option ascii :=
  match s with EmptyString => None | String c _ => Some c end.

(** [s.replace(re, "")] for a global regular expression [re] that never
    matches the empty string.  [matchAt t] is the length of the match of
    [re] at the start of [t], if there is one.  The scan goes left to
    right; after a match it resumes behind the matched text.  [skip]
    counts the characters of the current match still to be dropped. *)
Fixpoint removeAll (matchAt : string -> option nat) (skip : nat) (s : string)
  : string :=
  match s with
  | EmptyString => EmptyString
  | String c r =>
      match skip with
      | S k => removeAll matchAt k r
      | O =>
          match matchAt s with
          | Some (S k) => removeAll matchAt k r
          | _ => String c (removeAll matchAt 0 r)
          end
      end
  end.

(** [n.toString()] for a non-negative integer. *)
Definition decimal (n : N) : string :=
  DecimalString.NilZero.string_of_uint (N.to_uint n).

(** [n.toString(16)] for a non-negative integer: lower-case digits. *)
Definition hex (n : N) : string :=
  HexadecimalString.NilZero.string_of_uint (N.to_hex_uint n).

Fixpoint repeat0 (n : nat) : string :=
  match n with O => EmptyString | S k => String "0" (repeat0 k) end.

(** [s.padStart(width, "0")] *)
Definition padStart0 (width : nat) (s : string) : string :=
  (repeat0 (width - String.length s) ++ s)%string.

Fixpoint join (sep : string) (l : list string) : string :=
  match l with
  | [] => EmptyString
  | [x] => x
  | x :: r => (x ++ sep ++ join sep r)%string
  end.

End JsString.

(* ================================================================== *)
(** * Plain objects used as dictionaries *)
(* ================================================================== *)

Module JsObj.

(** The own enumerable string-keyed properties of an object, in the order
    [Object.keys] and [Object.values] give them: keys that are array
    indices first, in ascending numeric order, then every other key in
    the order it was first assigned. *)
Definition t (V : Type) : Type := list (string * V).

Fixpoint digitsValue (acc : N) (s : string) : N :=
  match s with
  | EmptyString => acc
  | String c r => digitsValue (acc * 10 + (N_of_ascii c - 48))%N r
  end.

(** A key is an array index when it is the canonical decimal spelling of
    an integer below 2^32 - 1. *)
Definition arrayIndex (k : string) : option N :=
  match k with
  | EmptyString => None
  | String c r =>
      if JsString.forallb JsString.is_digit k
         && (negb (Ascii.eqb c "0") || JsString.is_empty r)
      then let n := digitsValue 0 k in
           if (n <? 4294967295)%N then Some n else None
      else None
  end.

(** The properties of [Object.prototype], which every plain object
    inherits. *)
Definition prototypeNames : list string :=
  ["__proto__"; "constructor"; "hasOwnProperty"; "isPrototypeOf";
   "propertyIsEnumerable"; "toLocaleString"; "toString"; "valueOf";
   "__defineGetter__"; "__defineSetter__"; "__lookupGetter__";
   "__lookupSetter__"].

(** [k] names a property of [Object.prototype]. *)
Definition inherited (k : string) : bool :=
  List.existsb (String.eqb k) prototypeNames.

Section Ops.
Context {V : Type}.

Definition empty : t V := [].

(** The own property [k] of [o], [None] when [o] has no such property:
    what [o[k]] evaluates to for a key that [Object.prototype] does not
    answer (see [member]). *)
Fixpoint get (k : string) (o : t V) : option V :=
  match o with
  | [] => None
  | (k', v) :: r => if String.eqb k k' then Some v else get k r
  end.

Definition has (k : string) (o : t V) : bool :=
  match get k o with Some _ => true | None => false end.

Definition keys (o : t V) : list string := map fst o.
Definition values (o : t V) : list V := map snd o.

(** What the member access [o[k]] resolves to on a plain object [{}]:
    an own property, a property of [Object.prototype] (the prototype
    object itself for ["__proto__"], a function for the other names), or
    [undefined]. *)
Inductive Member : Type :=
| Own (v : V)
| Inherited
| Undefined.

Definition member (k : string) (o : t V) : Member :=
  match get k o with
  | Some v => Own v
  | None => if inherited k then Inherited else Undefined
  end.


(** Assignment to a key the object already has: the value changes, the
    position does not. *)
Fixpoint replace (k : string) (v : V) (o : t V) : t V :=
  match o with
  | [] => []
  | (k', v') :: r =>
      if String.eqb k k' then (k', v) :: r else (k', v') :: replace k v r
  end.

(** A new array-index key [k] = [n] goes behind the smaller indices. *)
Fixpoint insertIndex (n : N) (k : string) (v : V) (o : t V) : t V :=
  match o with
  | [] => [(k, v)]
  | (k', v') :: r =>
      match arrayIndex k' with
      | Some m => if (m <? n)%N then (k', v') :: insertIndex n k v r
                  else (k, v) :: o
      | None => (k, v) :: o
      end
  end.

(** [o[k] = v] *)
Definition set (k : string) (v : V) (o : t V) : t V :=
  if has k o then replace k v o
  else match arrayIndex k with
       | Some n => insertIndex n k v o
       | None => o ++ [(k, v)]
       end.

(** [arr.find(p)] over [Object.values(o)] *)
Definition findValue (p : V -> bool) (o : t V) : option V :=
  List.find p (values o).

End Ops.

End JsObj.

(* ================================================================== *)
(** * The data model ([lib/types.ts]) *)
(* ================================================================== *)

Inductive Status := valid | warning | invalid.
Inductive Severity := low | medium | high.

Record Issue := {
  i_title : string;
  i_description : string;
  i_severity : Severity
}.

Record Suggestion := {
  s_title : string;
  s_description : string
}.

Record DataSources := {
  vectorDbEntries : Z;
  searchQueries : Z
}.

(** [interface PrescriptionResult].  An optional property is an [option];
    [imageAnalysis] and [historyReference] are absent ([None]), [null]
    ([Some None]) or a string.  [imageAnalysis] is not declared by the
    interface but the second revision's analysis carries it into the
    object. *)
Record PrescriptionResult := {
  id : string;
  originalPrescription : string;
  status : Status;
  issues : option (list Issue);
  suggestions : option (list Suggestion);
  dataSources : DataSources;
  timestamp : string;
  blockchainStatus : string;
  lastUpdated : string;
  imageAnalysis : option (option string);
  historyReference : option (option string);
  medications : option (list string)
}.

Definition set_blockchainStatus (v : string) (r : PrescriptionResult) :=
  {| id := id r; originalPrescription := originalPrescription r;
     status := status r; issues := issues r; suggestions := suggestions r;
     dataSources := dataSources r; timestamp := timestamp r;
     blockchainStatus := v; lastUpdated := lastUpdated r;
     imageAnalysis := imageAnalysis r;
     historyReference := historyReference r;
     medications := medications r |}.

Definition set_lastUpdated (v : string) (r : PrescriptionResult) :=
  {| id := id r; originalPrescription := originalPrescription r;
     status := status r; issues := issues r; suggestions := suggestions r;
     dataSources := dataSources r; timestamp := timestamp r;
     blockchainStatus := blockchainStatus r; lastUpdated := v;
     imageAnalysis := imageAnalysis r;
     historyReference := historyReference r;
     medications := medications r |}.

(** What [analysisSchema.parse] returns.  The schema is a [z.object], which
    drops every key it does not list, so the value has these properties
    and no other; the first revision's schema does not list the last two
    ([None]). *)
Record AnalysisResult := {
  a_status : Status;
  a_issues : list Issue;
  a_suggestions : list Suggestion;
  a_dataSources : DataSources;
  a_imageAnalysis : option (option string);
  a_historyReference : option (option string)
}.

(** The form values the presentation layer submits. *)
Record FormData := {
  f_name : string;
  f_age : string;
  f_gender : string;
  f_medications : string;
  f_symptoms : string;
  f_prescription : string
}.

(** The [patientInfo] argument of the graph adapter and of the ledger. *)
Record PatientInfo := {
  p_name : string;
  p_age : string;
  p_gender : string;
  p_medications : option string;
  p_symptoms : option string
}.

(** The record the ledger stub keeps per id. *)
Record LedgerData := {
  d_status : Status;
  issuesCount : nat;
  suggestionsCount : nat
}.

Record LedgerRecord := {
  r_id : string;
  r_timestamp : string;
  r_status : Status;
  r_hash : string;
  r_data : LedgerData
}.

(** The errors the sources construct, by their message. *)
Inductive Error :=
| RecordNotFound              (* "Record not found" *)
| RecordNotFoundOnBlockchain  (* "Record not found on blockchain" *)
| UpdateFailed                (* "Failed to update blockchain record" *)
| AnalysisFailed              (* "Failed to analyze prescription" *)
| InvalidAIResponse           (* "Invalid AI response format" *)
| DriverNotInitialized        (* "Neo4j driver not initialized" *)
| TypeError                   (* a property read on [undefined] *)
| External (msg : string).    (* raised by the model SDK or the driver *)

Definition message (e : Error) : string :=
  match e with
  | RecordNotFound => "Record not found"
  | RecordNotFoundOnBlockchain => "Record not found on blockchain"
  | UpdateFailed => "Failed to update blockchain record"
  | AnalysisFailed => "Failed to analyze prescription"
  | InvalidAIResponse => "Invalid AI response format"
  | DriverNotInitialized => "Neo4j driver not initialized"
  | TypeError => "Cannot read properties of undefined"
  | External msg => msg
  end.

(* ================================================================== *)
(** * Functions that return or throw, over a mutable module state *)
(* ================================================================== *)

Inductive Result (A : Type) :=
| Return (a : A)
| Throw (e : Error).
Arguments Return {A} a.
Arguments Throw {A} e.

(** An [async] function body over the module-level state [S].  The state
    comes back in both cases: what was written before a [throw] stays
    written. *)
Definition M (S A : Type) : Type := S -> Result A * S.

Definition ret {S A} (a : A) : M S A := fun s => (Return a, s).
Definition throw {S A} (e : Error) : M S A := fun s => (Throw e, s).

Definition bind {S A B} (m : M S A) (k : A -> M S B) : M S B :=
  fun s => match m s with
           | (Return a, s') => k a s'
           | (Throw e, s') => (Throw e, s')
           end.

(** [try { m } catch (error) { h error }] *)
Definition tryCatch {S A} (m : M S A) (h : Error -> M S A) : M S A :=
  fun s => match m s with
           | (Return a, s') => (Return a, s')
           | (Throw e, s') => h e s'
           end.

Definition gets {S A} (f : S -> A) : M S A := fun s => (Return (f s), s).
Definition modify {S} (f : S -> S) : M S unit := fun s => (Return tt, f s).

(** A value the world hands in: [await] of a remote call. *)
Definition await {S A} (r : Result A) : M S A := fun s => (r, s).

Declare Scope js_scope.
Delimit Scope js_scope with js.
Notation "x <- m ;; k" := (bind m (fun x => k))
  (at level 61, m at next level, right associativity) : js_scope.
Notation "m ;;; k" := (bind m (fun _ => k))
  (at level 61, right associativity) : js_scope.
Open Scope js_scope.

Definition succeeded {A} (r : Result A) : bool :=
  match r with Return _ => true | Throw _ => false end.

(* ================================================================== *)
(** * [JSON.stringify] *)
(* ================================================================== *)

#[local] Set Warnings "-register-all".

Inductive json :=
| JNull
| JBool (b : bool)
| JNum (n : Z)
| JStr (s : string)
| JArr (items : list json)
| JObj (fields : list (string * json)).

Module Json.

Definition hexDigit (n : N) : ascii :=
  match JsString.hex n with String c _ => c | EmptyString => "0"%char end.

(** One character inside a JSON string literal. *)
Definition escape (c : ascii) : string :=
  let n := N_of_ascii c in
  if (n =? 34)%N then String "\" (String c "")
  else if (n =? 92)%N then "\\"
  else if (n =? 8)%N then "\b"
  else if (n =? 9)%N then "\t"
  else if (n =? 10)%N then "\n"
  else if (n =? 12)%N then "\f"
  else if (n =? 13)%N then "\r"
  else if (n <? 32)%N then
    ("\u00" ++ String (hexDigit (n / 16)) (String (hexDigit (n mod 16)) ""))
      %string
  else String c "".

Fixpoint escapeAll (s : string) : string :=
  match s with
  | EmptyString => EmptyString
  | String c r => (escape c ++ escapeAll r)%string
  end.

Definition dquote : ascii := ascii_of_N 34.

Definition quote (s : string) : string :=
  String dquote (escapeAll s ++ String dquote "")%string.

Definition number (n : Z) : string :=
  match n with
  | Zneg p => ("-" ++ JsString.decimal (Npos p))%string
  | _ => JsString.decimal (Z.to_N n)
  end.

Fixpoint stringify (j : json) : string :=
  match j with
  | JNull => "null"
  | JBool true => "true"
  | JBool false => "false"
  | JNum n => number n
  | JStr s => quote s
  | JArr items =>
      ("[" ++ JsString.join "," (map stringify items) ++ "]")%string
  | JObj fields =>
      ("{" ++ JsString.join ","
                (map (fun '(k, v) => quote k ++ ":" ++ stringify v) fields)
           ++ "}")%string
  end.

Definition ofStatus (s : Status) : json :=
  JStr match s with
       | valid => "valid" | warning => "warning" | invalid => "invalid"
       end.

Definition ofSeverity (s : Severity) : json :=
  JStr match s with low => "low" | medium => "medium" | high => "high" end.

Definition ofIssue (i : Issue) : json :=
  JObj [("title", JStr (i_title i)); ("description", JStr (i_description i));
        ("severity", ofSeverity (i_severity i))].

Definition ofSuggestion (s : Suggestion) : json :=
  JObj [("title", JStr (s_title s)); ("description", JStr (s_description s))].

Definition ofDataSources (d : DataSources) : json :=
  JObj [("vectorDbEntries", JNum (vectorDbEntries d));
        ("searchQueries", JNum (searchQueries d))].

Definition ofNullable (v : option string) : json :=
  match v with Some s => JStr s | None => JNull end.

(** A property whose value is [undefined] is left out. *)
Definition prop {A} (k : string) (f : A -> json) (v : option A)
  : list (string * json) :=
  match v with Some a => [(k, f a)] | None => [] end.

(** The properties of a result in the order [analyzePrescription] creates
    them: [id], [originalPrescription], the spread analysis, then the two
    time stamps around [blockchainStatus].  Only objects built there are
    ever serialized. *)
Definition ofResult (r : PrescriptionResult) : json :=
  JObj ([("id", JStr (id r));
         ("originalPrescription", JStr (originalPrescription r));
         ("status", ofStatus (status r))]
        ++ prop "issues" (fun l => JArr (map ofIssue l)) (issues r)
        ++ prop "suggestions" (fun l => JArr (map ofSuggestion l))
             (suggestions r)
        ++ [("dataSources", ofDataSources (dataSources r))]
        ++ prop "imageAnalysis" ofNullable (imageAnalysis r)
        ++ prop "historyReference" ofNullable (historyReference r)
        ++ [("timestamp", JStr (timestamp r));
            ("blockchainStatus", JStr (blockchainStatus r));
            ("lastUpdated", JStr (lastUpdated r))]
        ++ prop "medications" (fun l => JArr (map JStr l)) (medications r)).

End Json.

(* ================================================================== *)
(** * The checksum ([generateHash], the same in both revisions) *)
(* ================================================================== *)

(** [ToInt32]: the signed 32-bit integer congruent to [z] modulo 2^32. *)
Definition toInt32 (z : Z) : Z := ((z + 2 ^ 31) mod 2 ^ 32 - 2 ^ 31)%Z.

(** One turn of the loop:
    [hash = (hash << 5) - hash + char; hash = hash & hash]. *)
Definition hashStep (hash : Z) (c : ascii) : Z :=
  let char := JsString.charCode c in
  let hash := (toInt32 (Z.shiftl (toInt32 hash) 5) - hash + char)%Z in
  Z.land (toInt32 hash) (toInt32 hash).

Fixpoint hashLoop (hash : Z) (str : string) : Z :=
  match str with
  | EmptyString => hash
  | String c r => hashLoop (hashStep hash c) r
  end.

(** [Math.abs(hash).toString(16).padStart(8, "0")] after the loop. *)
Definition hashString (str : string) : string :=
  JsString.padStart0 8 (JsString.hex (Z.to_N (Z.abs (hashLoop 0 str)))).

Definition serialize (data : PrescriptionResult) : string :=
  Json.stringify (Json.ofResult data).

Definition generateHash (data : PrescriptionResult) : string :=
  hashString (serialize data).

(** [data.issues?.length || 0] *)
Definition lengthOr0 {A} (l : option (list A)) : nat :=
  match l with Some l => List.length l | None => 0 end.

(** The object both revisions write into [blockchainRecords] on a store. *)
Definition blockchainData (data : PrescriptionResult) (hash : string)
  : LedgerRecord :=
  {| r_id := id data;
     r_timestamp := timestamp data;
     r_status := status data;
     r_hash := hash;
     r_data := {| d_status := status data;
                  issuesCount := lengthOr0 (issues data);
                  suggestionsCount := lengthOr0 (suggestions data) |} |}.

(** The object both revisions write on an update:
    [{...blockchainRecords[id], timestamp, status, hash, data}]. *)
Definition updatedData (old : LedgerRecord) (now : string)
  (data : PrescriptionResult) (hash : string) : LedgerRecord :=
  {| r_id := r_id old;
     r_timestamp := now;
     r_status := status data;
     r_hash := hash;
     r_data := {| d_status := status data;
                  issuesCount := lengthOr0 (issues data);
                  suggestionsCount := lengthOr0 (suggestions data) |} |}.

(** [`rx-${Date.now()}-${Math.random().toString(36).substring(2, 9)}`]:
    [now] is the clock in milliseconds, [suffix] the at most seven
    base-36 digits cut out of the random draw. *)
Definition analysisId (now : N) (suffix : string) : string :=
  ("rx-" ++ JsString.decimal now ++ "-" ++ suffix)%string.

(** [{id, originalPrescription, ...analysis, timestamp, blockchainStatus,
    lastUpdated}].  The analysis has no [id] and no [originalPrescription]
    property, so the spread overwrites neither. *)
Definition newResult (analysisId : string) (formData : FormData)
  (analysis : AnalysisResult) (t1 t2 : string) : PrescriptionResult :=
  {| id := analysisId;
     originalPrescription := f_prescription formData;
     status := a_status analysis;
     issues := Some (a_issues analysis);
     suggestions := Some (a_suggestions analysis);
     dataSources := a_dataSources analysis;
     imageAnalysis := a_imageAnalysis analysis;
     historyReference := a_historyReference analysis;
     timestamp := t1;
     blockchainStatus := "Pending";
     lastUpdated := t2;
     medications := None |}.

(** The canned example [getPrescriptionResults] returns while the store is
    empty. *)
Definition mockResult (t1 t2 : string) : PrescriptionResult :=
  {| id := "rx-mock-123456";
     originalPrescription :=
       "Lisinopril 10mg once daily, Metformin 500mg twice daily";
     status := warning;
     issues := Some
       [{| i_title := "Potential Drug Interaction";
           i_description := "Lisinopril and Metformin may interact, causing hypoglycemia in some patients.";
           i_severity := medium |}];
     suggestions := Some
       [{| s_title := "Monitor Blood Sugar";
           s_description := "Regularly monitor blood sugar levels when taking these medications together." |};
        {| s_title := "Consider Alternative";
           s_description := "If hypoglycemia occurs, consider alternative blood pressure medications." |}];
     dataSources := {| vectorDbEntries := 1245; searchQueries := 3 |};
     timestamp := t1;
     blockchainStatus := "Recorded";
     lastUpdated := t2;
     imageAnalysis := None;
     historyReference := None;
     medications := None |}.

(* ================================================================== *)
(** * First revision: ledger stub and orchestrator *)
(* ================================================================== *)

Module V1.

(** The two module-level dictionaries. *)
Record State := {
  resultsStore : JsObj.t PrescriptionResult;   (* actions.ts *)
  blockchainRecords : JsObj.t LedgerRecord     (* blockchain.ts *)
}.

Definition init : State :=
  {| resultsStore := JsObj.empty; blockchainRecords := JsObj.empty |}.

(** What the outside world decides during one call. *)
Record World := {
  dateNow : N;                        (* [Date.now()] *)
  randomSuffix : string;              (* the digits kept of [Math.random()] *)
  clock1 : string;                    (* first [new Date().toISOString()] *)
  clock2 : string;                    (* second one *)
  modelAnswer : Result AnalysisResult (* [analyzePrescriptionWithRAG] *)
}.

Definition with_resultsStore (f : JsObj.t PrescriptionResult ->
                                  JsObj.t PrescriptionResult) (s : State) :=
  {| resultsStore := f (resultsStore s);
     blockchainRecords := blockchainRecords s |}.

Definition with_blockchainRecords (f : JsObj.t LedgerRecord ->
                                       JsObj.t LedgerRecord) (s : State) :=
  {| resultsStore := resultsStore s;
     blockchainRecords := f (blockchainRecords s) |}.

(** ** blockchain.ts *)

Definition storeOnBlockchain (data : PrescriptionResult) : M State string :=
  let blockchainData := blockchainData data (generateHash data) in
  modify (with_blockchainRecords (JsObj.set (id data) blockchainData)) ;;;
  ret (id data).

(** [blockchainRecords[id]] is the own property here and in
    [updateOnBlockchain]: the two functions are modelled for an [id]
    outside [JsObj.prototypeNames]. *)
Definition getBlockchainRecord (id : string) : M State LedgerRecord :=
  rec <- gets (fun s => JsObj.get id (blockchainRecords s)) ;;
  match rec with
  | Some r => ret r
  | None => throw RecordNotFoundOnBlockchain
  end.

Definition updateOnBlockchain (w : World) (id : string)
  (data : PrescriptionResult) : M State unit :=
  rec <- gets (fun s => JsObj.get id (blockchainRecords s)) ;;
  match rec with
  | Some old =>
      modify (with_blockchainRecords
                (JsObj.set id (updatedData old (clock1 w) data
                                 (generateHash data))))
  | None => throw RecordNotFoundOnBlockchain
  end.

(** ** actions.ts *)

(** [resultsStore[id].field = v]: a write through the stored object. *)
Definition mutateResult (id : string)
  (f : PrescriptionResult -> PrescriptionResult) : M State unit :=
  cur <- gets (fun s => JsObj.get id (resultsStore s)) ;;
  match cur with
  | Some r => modify (with_resultsStore (JsObj.set id (f r)))
  | None => throw TypeError
  end.

Definition analyzePrescription (w : World) (formData : FormData)
  : M State unit :=
  tryCatch
    (let analysisId := analysisId (dateNow w) (randomSuffix w) in
     analysis <- await (modelAnswer w) ;;
     let result := newResult analysisId formData analysis
                     (clock1 w) (clock2 w) in
     modify (with_resultsStore (JsObj.set analysisId result)) ;;;
     _ <- storeOnBlockchain result ;;
     mutateResult analysisId (set_blockchainStatus "Recorded"))
    (fun _ => throw AnalysisFailed).

(** [resultsStore[keys[keys.length - 1]]]: the key was just enumerated,
    so the lookup finds it. *)
Definition getPrescriptionResults (w : World) : M State PrescriptionResult :=
  keys <- gets (fun s => JsObj.keys (resultsStore s)) ;;
  match keys with
  | [] => ret (mockResult (clock1 w) (clock2 w))
  | _ :: _ =>
      r <- gets (fun s => JsObj.get (List.last keys EmptyString)
                            (resultsStore s)) ;;
      match r with
      | Some r => ret r
      | None => throw TypeError
      end
  end.

(** The [try] block of [updateBlockchainRecord], for an [id] outside
    [JsObj.prototypeNames]: [resultsStore[id]] is the own property. *)
Definition updateBlockchainRecord_try (w : World) (id : string)
  : M State unit :=
  cur <- gets (fun s => JsObj.get id (resultsStore s)) ;;
  match cur with
  | None => throw RecordNotFound
  | Some data =>
      updateOnBlockchain w id data ;;;
      mutateResult id (set_lastUpdated (clock2 w)) ;;;
      mutateResult id (set_blockchainStatus "Updated")
  end.

(** The [catch] clause logs the error and throws a new one. *)
Definition updateBlockchainRecord (w : World) (id : string) : M State unit :=
  tryCatch (updateBlockchainRecord_try w id) (fun _ => throw UpdateFailed).

End V1.

(* ================================================================== *)
(** * Medication names ([extractMedicationsFromPrescription], neo4j.ts) *)
(* ================================================================== *)

Definition newline : ascii := ascii_of_N 10.

(** The class [[,\n]] the prescription is split on. *)
Definition isCommaOrNewline (c : ascii) : bool :=
  Ascii.eqb c "," || Ascii.eqb c newline.

(** The class [[A-Za-z\s]] of the name pattern. *)
Definition isNameChar (c : ascii) : bool :=
  JsString.is_alpha c || JsString.is_space c.

(** The callback of [.map]: [med.trim().match(/^([A-Za-z\s]+)/)], then
    [match ? match[0].trim() : med.trim()].  The pattern needs one
    character at least, so there is no match when the run is empty. *)
Definition medicationName (med : string) : string :=
  let trimmed := JsString.trim med in
  let run := JsString.takeWhile isNameChar trimmed in
  if JsString.is_empty run then trimmed else JsString.trim run.

Definition extractMedicationsFromPrescription (prescription : string)
  : list string :=
  filter (fun med => negb (JsString.is_empty med))
    (map medicationName (JsString.split isCommaOrNewline prescription)).

(** The reading of the specification: the name is the leading alphabetic
    run of the trimmed piece. *)
Definition leadingAlphabeticRun (med : string) : string :=
  JsString.takeWhile JsString.is_alpha (JsString.trim med).

Definition extractMedications_spec (prescription : string) : list string :=
  filter (fun med => negb (JsString.is_empty med))
    (map leadingAlphabeticRun (JsString.split isCommaOrNewline prescription)).

(* ================================================================== *)
(** * Post-processing of the model's answer ([lib/ai.ts]) *)
(* ================================================================== *)

Module AI.

Definition fence : string := "```".
Definition fenceJson : string := "```json".

(** [/```json\n?/] at the start of [s] (first revision, first pass). *)
Definition matchFenceJsonNl (s : string) : option nat :=
  if JsString.startsWith fenceJson s then
    if JsString.startsWith (String newline EmptyString)
         (String.substring 7 1 s)
    then Some 8 else Some 7
  else None.

(** [/```\n?/] at the start of [s] (first revision, second pass). *)
Definition matchFenceNl (s : string) : option nat :=
  if JsString.startsWith fence s then
    if JsString.startsWith (String newline EmptyString)
         (String.substring 3 1 s)
    then Some 4 else Some 3
  else None.

(** [/```json|```/] at the start of [s] (second revision): the first
    alternative is tried first. *)
Definition matchFenceJsonOrFence (s : string) : option nat :=
  if JsString.startsWith fenceJson s then Some 7
  else if JsString.startsWith fence s then Some 3
  else None.

(** [analysisText.replace(/```json\n?/g, '').replace(/```\n?/g, '').trim()] *)
Definition cleanV1 (analysisText : string) : string :=
  JsString.trim
    (JsString.removeAll matchFenceNl 0
       (JsString.removeAll matchFenceJsonNl 0 analysisText)).

(** [analysisText.replace(/```json|```/g, "").trim()] *)
Definition cleanV2 (analysisText : string) : string :=
  JsString.trim (JsString.removeAll matchFenceJsonOrFence 0 analysisText).

(** ** The zod schemas *)

Fixpoint lookup (k : string) (fields : list (string * json)) : option json :=
  match fields with
  | [] => None
  | (k', v) :: r => if String.eqb k k' then Some v else lookup k r
  end.

Definition optBind {A B} (o : option A) (k : A -> option B) : option B :=
  match o with Some a => k a | None => None end.

Fixpoint traverse {A B} (f : A -> option B) (l : list A) : option (list B) :=
  match l with
  | [] => Some []
  | x :: r =>
      optBind (f x) (fun y => optBind (traverse f r) (fun ys => Some (y :: ys)))
  end.

(** [z.string()] *)
Definition zString (j : option json) : option string :=
  match j with Some (JStr s) => Some s | _ => None end.

(** [z.number()] *)
Definition zNumber (j : option json) : option Z :=
  match j with Some (JNum n) => Some n | _ => None end.

(** [z.string().nullable()]: a string or [null], not [undefined]. *)
Definition zNullableString (j : option json) : option (option string) :=
  match j with
  | Some (JStr s) => Some (Some s)
  | Some JNull => Some None
  | _ => None
  end.

(** [z.enum(["valid", "warning", "invalid"])] *)
Definition zStatus (j : option json) : option Status :=
  optBind (zString j) (fun s =>
    if String.eqb s "valid" then Some valid
    else if String.eqb s "warning" then Some warning
    else if String.eqb s "invalid" then Some invalid
    else None).

(** [z.enum(["low", "medium", "high"])] *)
Definition zSeverity (j : option json) : option Severity :=
  optBind (zString j) (fun s =>
    if String.eqb s "low" then Some low
    else if String.eqb s "medium" then Some medium
    else if String.eqb s "high" then Some high
    else None).

(** [z.array(item)] *)
Definition zArray {A} (item : json -> option A) (j : option json)
  : option (list A) :=
  match j with Some (JArr l) => traverse item l | _ => None end.

Definition zIssue (j : json) : option Issue :=
  match j with
  | JObj f =>
      optBind (zString (lookup "title" f)) (fun t =>
      optBind (zString (lookup "description" f)) (fun d =>
      optBind (zSeverity (lookup "severity" f)) (fun s =>
      Some {| i_title := t; i_description := d; i_severity := s |})))
  | _ => None
  end.

Definition zSuggestion (j : json) : option Suggestion :=
  match j with
  | JObj f =>
      optBind (zString (lookup "title" f)) (fun t =>
      optBind (zString (lookup "description" f)) (fun d =>
      Some {| s_title := t; s_description := d |}))
  | _ => None
  end.

Definition zDataSources (j : option json) : option DataSources :=
  match j with
  | Some (JObj f) =>
      optBind (zNumber (lookup "vectorDbEntries" f)) (fun v =>
      optBind (zNumber (lookup "searchQueries" f)) (fun q =>
      Some {| vectorDbEntries := v; searchQueries := q |}))
  | _ => None
  end.

(** [analysisSchema.parse] of the first revision ([None]: it throws). *)
Definition analysisSchemaV1 (j : json) : option AnalysisResult :=
  match j with
  | JObj f =>
      optBind (zStatus (lookup "status" f)) (fun st =>
      optBind (zArray zIssue (lookup "issues" f)) (fun iss =>
      optBind (zArray zSuggestion (lookup "suggestions" f)) (fun su =>
      optBind (zDataSources (lookup "dataSources" f)) (fun ds =>
      Some {| a_status := st; a_issues := iss; a_suggestions := su;
              a_dataSources := ds; a_imageAnalysis := None;
              a_historyReference := None |}))))
  | _ => None
  end.

(** [analysisSchema.parse] of the second revision. *)
Definition analysisSchemaV2 (j : json) : option AnalysisResult :=
  match j with
  | JObj f =>
      optBind (zStatus (lookup "status" f)) (fun st =>
      optBind (zArray zIssue (lookup "issues" f)) (fun iss =>
      optBind (zArray zSuggestion (lookup "suggestions" f)) (fun su =>
      optBind (zDataSources (lookup "dataSources" f)) (fun ds =>
      optBind (zNullableString (lookup "imageAnalysis" f)) (fun ia =>
      optBind (zNullableString (lookup "historyReference" f)) (fun hr =>
      Some {| a_status := st; a_issues := iss; a_suggestions := su;
              a_dataSources := ds; a_imageAnalysis := Some ia;
              a_historyReference := Some hr |}))))))
  | _ => None
  end.

Section Pipeline.

(** [JSON.parse], [None] when it throws a [SyntaxError]. *)
Variable JSON_parse : string -> option json.

(** The inner [try]: parse, validate, and turn any failure into
    ["Invalid AI response format"]. *)
Definition parseAndValidate (schema : json -> option AnalysisResult)
  (analysisText : string) : Result AnalysisResult :=
  match optBind (JSON_parse analysisText) schema with
  | Some analysis => Return analysis
  | None => Throw InvalidAIResponse
  end.

(** Everything after [response.text()], first revision. *)
Definition postProcessV1 (responseText : string) : Result AnalysisResult :=
  parseAndValidate analysisSchemaV1 (cleanV1 responseText).

(** Everything after [response.text()], second revision. *)
Definition postProcessV2 (responseText : string) : Result AnalysisResult :=
  parseAndValidate analysisSchemaV2 (cleanV2 responseText).

(** [analyzePrescriptionWithRAG], given what the remote call did; the
    outer [catch] logs and throws the same error again. *)
Definition analyzePrescriptionWithRAG
  (post : string -> Result AnalysisResult) (response : Result string)
  : Result AnalysisResult :=
  match response with
  | Return text => post text
  | Throw e => Throw e
  end.

End Pipeline.

(** The payload between code-fence markers, as the model tends to send
    it. *)
Definition wrapJson (p : string) : string :=
  (fenceJson ++ String newline p ++ String newline fence)%string.

Definition wrapPlain (p : string) : string :=
  (fence ++ String newline p ++ String newline fence)%string.

(** The same with a language tag behind the opening marker. *)
Definition wrapTagged (tag p : string) : string :=
  (fence ++ tag ++ String newline p ++ String newline fence)%string.

(** [s] contains a code-fence marker. *)
Fixpoint hasFence (s : string) : bool :=
  JsString.startsWith fence s ||
  match s with
  | EmptyString => false
  | String _ r => hasFence r
  end.

End AI.

(* ================================================================== *)
(** * Second revision: graph adapter, ledger stub and orchestrator *)
(* ================================================================== *)

Module V2.

(** A handle made by [neo4j.driver(uri, auth)]. *)
Inductive Driver := TheDriver.

(** One record of a query answer: the [rx] node's properties and the
    three collected lists. *)
Record GraphRow := {
  rx_id : string;
  rx_blockchainHash : string;
  rx_originalPrescription : string;
  rx_status : Status;
  rx_timestamp : string;
  rx_lastUpdated : string;
  row_issues : list Issue;
  row_suggestions : list Suggestion;
  row_medications : list string
}.

(** How far [initNeo4j] gets inside its [try]. *)
Inductive ConnectOutcome :=
| DriverRejected   (* [neo4j.driver(...)] throws *)
| Unreachable      (* the driver is made, [verifyConnectivity] throws *)
| Connected.       (* both succeed *)

(** What the outside world decides during one call. *)
Record World := {
  dateNow : N;
  randomSuffix : string;
  clock1 : string;
  clock2 : string;
  (** the model's answer, given the history put into the request *)
  modelAnswer : list PrescriptionResult -> Result AnalysisResult;
  connect : ConnectOutcome;
  (** the answer to the history query for a patient name *)
  historyQuery : string -> Result (list GraphRow);
  (** the answer to the query for a fingerprint *)
  hashQuery : string -> Result (list GraphRow);
  (** the outcome of the write transaction, given the medication names *)
  storeTransaction : list string -> Result unit;
  (** the outcome of the update statement *)
  updateStatement : Result unit
}.

(** A result object is shared between the dictionaries that hold it, so
    the state has a heap of objects and the dictionaries hold references
    (positions in the heap). *)
Definition Ref := nat.

Record State := {
  heap : list PrescriptionResult;
  resultsStore : JsObj.t Ref;                    (* actions.ts *)
  blockchainRecords : JsObj.t LedgerRecord;      (* blockchain.ts *)
  neo4jInitialized : bool;                       (* blockchain.ts *)
  driver : option Driver;                        (* neo4j.ts *)
  mockGraphData : JsObj.t (Ref * PatientInfo)    (* neo4j.ts *)
}.

Definition init : State :=
  {| heap := []; resultsStore := JsObj.empty;
     blockchainRecords := JsObj.empty; neo4jInitialized := false;
     driver := None; mockGraphData := JsObj.empty |}.

Definition with_heap (f : list PrescriptionResult -> list PrescriptionResult)
  (s : State) : State :=
  {| heap := f (heap s); resultsStore := resultsStore s;
     blockchainRecords := blockchainRecords s;
     neo4jInitialized := neo4jInitialized s; driver := driver s;
     mockGraphData := mockGraphData s |}.

Definition with_resultsStore (f : JsObj.t Ref -> JsObj.t Ref) (s : State)
  : State :=
  {| heap := heap s; resultsStore := f (resultsStore s);
     blockchainRecords := blockchainRecords s;
     neo4jInitialized := neo4jInitialized s; driver := driver s;
     mockGraphData := mockGraphData s |}.

Definition with_blockchainRecords
  (f : JsObj.t LedgerRecord -> JsObj.t LedgerRecord) (s : State) : State :=
  {| heap := heap s; resultsStore := resultsStore s;
     blockchainRecords := f (blockchainRecords s);
     neo4jInitialized := neo4jInitialized s; driver := driver s;
     mockGraphData := mockGraphData s |}.

Definition with_neo4jInitialized (b : bool) (s : State) : State :=
  {| heap := heap s; resultsStore := resultsStore s;
     blockchainRecords := blockchainRecords s;
     neo4jInitialized := b; driver := driver s;
     mockGraphData := mockGraphData s |}.

Definition with_driver (d : option Driver) (s : State) : State :=
  {| heap := heap s; resultsStore := resultsStore s;
     blockchainRecords := blockchainRecords s;
     neo4jInitialized := neo4jInitialized s; driver := d;
     mockGraphData := mockGraphData s |}.

Definition with_mockGraphData
  (f : JsObj.t (Ref * PatientInfo) -> JsObj.t (Ref * PatientInfo))
  (s : State) : State :=
  {| heap := heap s; resultsStore := resultsStore s;
     blockchainRecords := blockchainRecords s;
     neo4jInitialized := neo4jInitialized s; driver := driver s;
     mockGraphData := f (mockGraphData s) |}.

(** The object a reference points to.  References come from [alloc]
    only, so they point into the heap; the placeholder is for the others. *)
Definition deref (h : list PrescriptionResult) (r : Ref) : PrescriptionResult :=
  nth r h (mockResult EmptyString EmptyString).

Fixpoint updateAt {A} (n : nat) (f : A -> A) (l : list A) : list A :=
  match l, n with
  | [], _ => []
  | x :: r, O => f x :: r
  | x :: r, S k => x :: updateAt k f r
  end.

(** A new object. *)
Definition alloc (r : PrescriptionResult) : M State Ref :=
  fun s => (Return (List.length (heap s)), with_heap (fun h => h ++ [r]) s).

(** A write to a property of the object behind a reference. *)
Definition mutate (r : Ref) (f : PrescriptionResult -> PrescriptionResult)
  : M State unit :=
  modify (with_heap (updateAt r f)).

Definition read (r : Ref) : M State PrescriptionResult :=
  gets (fun s => deref (heap s) r).

(** ** neo4j.ts *)

Definition initNeo4j (w : World) : M State (option Driver) :=
  match connect w with
  | DriverRejected => ret None
  | Unreachable => modify (with_driver (Some TheDriver)) ;;; ret None
  | Connected =>
      modify (with_driver (Some TheDriver)) ;;; ret (Some TheDriver)
  end.

Definition getSession : M State Driver :=
  d <- gets driver ;;
  match d with
  | Some d => ret d
  | None => throw DriverNotInitialized
  end.

Definition storePrescriptionInGraph (w : World) (result : Ref)
  (patientInfo : PatientInfo) (blockchainHash : string) : M State unit :=
  d <- gets driver ;;
  match d with
  | None =>
      modify (with_mockGraphData
                (JsObj.set blockchainHash (result, patientInfo)))
  | Some _ =>
      _ <- getSession ;;
      data <- read result ;;
      let medications :=
        extractMedicationsFromPrescription (originalPrescription data) in
      await (storeTransaction w medications)
  end.

(** The object built from one record of a query answer. *)
Definition rowToResult (row : GraphRow) : PrescriptionResult :=
  {| id := rx_id row;
     originalPrescription := rx_originalPrescription row;
     status := rx_status row;
     issues := match row_issues row with [] => None | l => Some l end;
     suggestions :=
       match row_suggestions row with [] => None | l => Some l end;
     dataSources := {| vectorDbEntries := 0; searchQueries := 0 |};
     timestamp := rx_timestamp row;
     blockchainStatus := "Recorded";
     lastUpdated := rx_lastUpdated row;
     imageAnalysis := None;
     historyReference := None;
     medications := Some (row_medications row) |}.

Definition getPatientPrescriptionHistory (w : World)
  (patientInfo : PatientInfo) : M State (list PrescriptionResult) :=
  d <- gets driver ;;
  match d with
  | None =>
      gets (fun s => map (fun data => deref (heap s) (fst data))
                       (JsObj.values (mockGraphData s)))
  | Some _ =>
      _ <- getSession ;;
      rows <- await (historyQuery w (p_name patientInfo)) ;;
      ret (map rowToResult rows)
  end.

Definition getPrescriptionByHash (w : World) (blockchainHash : string)
  : M State (option PrescriptionResult) :=
  d <- gets driver ;;
  match d with
  | None =>
      gets (fun s =>
              match JsObj.get blockchainHash (mockGraphData s) with
              | Some (result, _) => Some (deref (heap s) result)
              | None => None
              end)
  | Some _ =>
      _ <- getSession ;;
      rows <- await (hashQuery w blockchainHash) ;;
      match rows with
      | [] => ret None
      | record :: _ => ret (Some (rowToResult record))
      end
  end.

Definition updatePrescriptionInGraph (w : World) (result : Ref)
  (blockchainHash : string) : M State unit :=
  d <- gets driver ;;
  match d with
  | None =>
      cur <- gets (fun s => JsObj.get blockchainHash (mockGraphData s)) ;;
      match cur with
      | Some (_, patientInfo) =>
          modify (with_mockGraphData
                    (JsObj.set blockchainHash (result, patientInfo)))
      | None => ret tt
      end
  | Some _ =>
      _ <- getSession ;;
      await (updateStatement w)
  end.

(** ** blockchain.ts *)

Definition ensureNeo4jInitialized (w : World) : M State unit :=
  b <- gets neo4jInitialized ;;
  if b then ret tt
  else _ <- initNeo4j w ;; modify (with_neo4jInitialized true).

(** [promise.catch((err) => console.error(...))] *)
Definition catchAndLog (m : M State unit) : M State unit :=
  tryCatch m (fun _ => ret tt).

Definition storeOnBlockchain (w : World) (data : Ref)
  (patientInfo : PatientInfo) : M State string :=
  ensureNeo4jInitialized w ;;;
  d <- read data ;;
  let hash := generateHash d in
  modify (with_blockchainRecords (JsObj.set (id d) (blockchainData d hash))) ;;;
  catchAndLog (storePrescriptionInGraph w data patientInfo hash) ;;;
  ret (id d).

(** As in the first revision, [blockchainRecords[id]] is the own
    property here and in [updateOnBlockchain]. *)
Definition getBlockchainRecord (w : World) (id : string)
  : M State LedgerRecord :=
  ensureNeo4jInitialized w ;;;
  rec <- gets (fun s => JsObj.get id (blockchainRecords s)) ;;
  match rec with
  | Some r => ret r
  | None => throw RecordNotFoundOnBlockchain
  end.

Definition updateOnBlockchain (w : World) (id : string) (data : Ref)
  : M State unit :=
  ensureNeo4jInitialized w ;;;
  rec <- gets (fun s => JsObj.get id (blockchainRecords s)) ;;
  match rec with
  | Some old =>
      d <- read data ;;
      let hash := generateHash d in
      modify (with_blockchainRecords
                (JsObj.set id (updatedData old (clock1 w) d hash))) ;;;
      catchAndLog (updatePrescriptionInGraph w data hash)
  | None => throw RecordNotFoundOnBlockchain
  end.

Definition getPrescriptionFromHash (w : World) (hash : string)
  : M State (option PrescriptionResult) :=
  ensureNeo4jInitialized w ;;;
  record <- gets (fun s =>
              JsObj.findValue (fun r => String.eqb (r_hash r) hash)
                (blockchainRecords s)) ;;
  match record with
  | Some _ => getPrescriptionByHash w hash
  | None => ret None
  end.

(** ** actions.ts *)

(** [{name, age, gender}], the argument of the history query. *)
Definition patientKey (formData : FormData) : PatientInfo :=
  {| p_name := f_name formData; p_age := f_age formData;
     p_gender := f_gender formData;
     p_medications := None; p_symptoms := None |}.

(** [{name, age, gender, medications, symptoms}], stored with the
    result. *)
Definition patientInfoOf (formData : FormData) : PatientInfo :=
  {| p_name := f_name formData; p_age := f_age formData;
     p_gender := f_gender formData;
     p_medications := Some (f_medications formData);
     p_symptoms := Some (f_symptoms formData) |}.

Definition analyzePrescription (w : World) (formData : FormData)
  : M State unit :=
  tryCatch
    (let analysisId := analysisId (dateNow w) (randomSuffix w) in
     patientHistory <-
       getPatientPrescriptionHistory w (patientKey formData) ;;
     analysis <- await (modelAnswer w patientHistory) ;;
     result <- alloc (newResult analysisId formData analysis
                        (clock1 w) (clock2 w)) ;;
     modify (with_resultsStore (JsObj.set analysisId result)) ;;;
     _ <- storeOnBlockchain w result (patientInfoOf formData) ;;
     cur <- gets (fun s => JsObj.get analysisId (resultsStore s)) ;;
     match cur with
     | Some r => mutate r (set_blockchainStatus "Recorded")
     | None => throw TypeError
     end)
    (fun _ => throw AnalysisFailed).

Definition getPrescriptionResults (w : World) : M State PrescriptionResult :=
  keys <- gets (fun s => JsObj.keys (resultsStore s)) ;;
  match keys with
  | [] => ret (mockResult (clock1 w) (clock2 w))
  | _ :: _ =>
      r <- gets (fun s => JsObj.get (List.last keys EmptyString)
                            (resultsStore s)) ;;
      match r with
      | Some r => read r
      | None => throw TypeError
      end
  end.

(** The [try] block of [updateBlockchainRecord], for an [id] outside
    [JsObj.prototypeNames]; [resultsStore[id]] is the same reference at
    each of its three reads. *)
Definition updateBlockchainRecord_try (w : World) (id : string)
  : M State unit :=
  cur <- gets (fun s => JsObj.get id (resultsStore s)) ;;
  match cur with
  | None => throw RecordNotFound
  | Some data =>
      updateOnBlockchain w id data ;;;
      mutate data (set_lastUpdated (clock2 w)) ;;;
      mutate data (set_blockchainStatus "Updated")
  end.

(** The [catch] clause logs the error and throws a new one. *)
Definition updateBlockchainRecord (w : World) (id : string) : M State unit :=
  tryCatch (updateBlockchainRecord_try w id) (fun _ => throw UpdateFailed).

Definition searchPrescriptionByHash (w : World) (hash : string)
  : M State (option PrescriptionResult) :=
  tryCatch (getPrescriptionFromHash w hash) (fun _ => ret None).

Definition getPatientHistory (w : World) (patientInfo : PatientInfo)
  : M State (list PrescriptionResult) :=
  tryCatch (getPatientPrescriptionHistory w patientInfo) (fun _ => ret []).

End V2.

(* ================================================================== *)
(** * The medicine lookup and the request parts ([lib/ai.ts]) *)
(* ================================================================== *)

Module Tools.

(** [c.toLowerCase()] on one code unit below 256: the letters A-Z and the
    Latin-1 capitals (all of 192..222 but the multiplication sign). *)
Definition toLowerChar (c : ascii) : ascii :=
  let n := N_of_ascii c in
  if ((65 <=? n) && (n <=? 90)
      || (192 <=? n) && (n <=? 222) && negb (n =? 215))%N
  then ascii_of_N (n + 32) else c.

Fixpoint toLowerCase (s : string) : string :=
  match s with
  | EmptyString => EmptyString
  | String c r => String (toLowerChar c) (toLowerCase r)
  end.

(** [s.includes(sub)] *)
Fixpoint includes (sub s : string) : bool :=
  JsString.startsWith sub s ||
  match s with
  | EmptyString => false
  | String _ r => includes sub r
  end.

Record Medicine := {
  m_name : string;
  m_dosage : string;
  m_interactions : list string;
  m_sideEffects : list string;
  m_contraindications : list string
}.

(** The [medicines] object of [searchVectorDatabase], in the order
    [for ... in] visits its keys. *)
Definition medicines : list (string * Medicine) :=
  [("lisinopril",
    {| m_name := "Lisinopril";
       m_dosage := "10-40mg daily";
       m_interactions := ["Potassium supplements"; "Lithium"; "NSAIDs"];
       m_sideEffects := ["Dry cough"; "Dizziness"; "Headache"];
       m_contraindications := ["Pregnancy"; "History of angioedema"] |});
   ("metformin",
    {| m_name := "Metformin";
       m_dosage := "500-2000mg daily in divided doses";
       m_interactions := ["Alcohol"; "Contrast dyes"; "Certain diuretics"];
       m_sideEffects := ["Nausea"; "Diarrhea"; "Vitamin B12 deficiency"];
       m_contraindications :=
         ["Kidney disease"; "Liver disease"; "Heart failure"] |});
   ("atorvastatin",
    {| m_name := "Atorvastatin";
       m_dosage := "10-80mg daily";
       m_interactions :=
         ["Grapefruit juice"; "Certain antibiotics"; "Cyclosporine"];
       m_sideEffects :=
         ["Muscle pain"; "Liver problems"; "Increased blood sugar"];
       m_contraindications :=
         ["Liver disease"; "Pregnancy"; "Breastfeeding"] |})].

(** [medicineName.toLowerCase().trim()] *)
Definition normalize (medicineName : string) : string :=
  JsString.trim (toLowerCase medicineName).

(** [key.includes(normalizedName) || normalizedName.includes(key)] *)
Definition matches (normalizedName key : string) : bool :=
  includes normalizedName key || includes key normalizedName.

(** [searchVectorDatabase.execute({ medicineName })]: the first key of the
    table that matches, [None] for [null]. *)
Definition searchVectorDatabase (medicineName : string) : option Medicine :=
  let normalizedName := normalize medicineName in
  option_map snd
    (List.find (fun entry => matches normalizedName (fst entry)) medicines).

(** [prescription.split(/[,\n]/).map((med) => med.trim())] *)
Definition medicationsOf (prescription : string) : list string :=
  map JsString.trim (JsString.split isCommaOrNewline prescription).

(** [medicineData] of [analyzePrescriptionWithRAG]: one lookup per
    piece. *)
Definition medicineData (prescription : string) : list (option Medicine) :=
  map searchVectorDatabase (medicationsOf prescription).

(** [s.replace(/\s+/g, "-")]: each run of white space becomes one hyphen;
    [inRun] says that the character before was white space. *)
Fixpoint dashSpaces (inRun : bool) (s : string) : string :=
  match s with
  | EmptyString => EmptyString
  | String c r =>
      if JsString.is_space c
      then if inRun then dashSpaces true r
           else String "-" (dashSpaces true r)
      else String c (dashSpaces false r)
  end.

(** [query.toLowerCase().replace(/\s+/g, "-")] *)
Definition slug (query : string) : string :=
  dashSpaces false (toLowerCase query).

Record SearchHit := {
  h_title : string;
  h_snippet : string;
  h_url : string
}.

(** [searchOnline.execute({ query }).results] *)
Definition searchOnline (query : string) : list SearchHit :=
  [{| h_title := "Information about " ++ query;
      h_snippet := query ++ " is commonly prescribed for various conditions. Always consult with your healthcare provider for specific advice.";
      h_url := "https://example.com/medicine/" ++ slug query |};
   {| h_title := query ++ " Side Effects and Interactions";
      h_snippet := "Common side effects of " ++ query ++ " include headache, nausea, and dizziness. It may interact with other medications.";
      h_url := "https://example.com/side-effects/" ++ slug query |};
   {| h_title := query ++ " Dosage Guidelines";
      h_snippet := "Typical dosage for " ++ query ++ " varies based on condition, age, and other factors. Follow your doctor's recommendations.";
      h_url := "https://example.com/dosage/" ++ slug query |}]%string.

(** The alternatives of [/^data:image\/(png|jpg|jpeg|webp);base64,/], in
    the order the pattern tries them. *)
Definition imageTypes : list string := ["png"; "jpg"; "jpeg"; "webp"].

Definition dataUrlHeader (type : string) : string :=
  ("data:image/" ++ type ++ ";base64,")%string.

(** [prescriptionImage.match(...)]: the captured type. *)
Definition matchImageType (prescriptionImage : string) : option string :=
  List.find (fun type => JsString.startsWith (dataUrlHeader type)
                           prescriptionImage)
    imageTypes.

Fixpoint drop (n : nat) (s : string) : string :=
  match n, s with
  | O, _ => s
  | S _, EmptyString => EmptyString
  | S k, String _ r => drop k r
  end.

(** The [inline_data] part of the request. *)
Record InlineData := {
  data : string;
  mime_type : string
}.

(** [mimeTypeMatch ? `image/${mimeTypeMatch[1]}` : "image/jpeg"] and
    [prescriptionImage.replace(/^data:image\/...;base64,/, "")]. *)
Definition inlineData (prescriptionImage : string) : InlineData :=
  match matchImageType prescriptionImage with
  | Some type =>
      {| data := drop (String.length (dataUrlHeader type)) prescriptionImage;
         mime_type := ("image/" ++ type)%string |}
  | None =>
      {| data := prescriptionImage; mime_type := "image/jpeg" |}
  end.

(** [if (prescriptionImage) { parts.push(...) }]: the empty string and
    [undefined] add no part. *)
Definition imagePart (prescriptionImage : option string) : option InlineData :=
  match prescriptionImage with
  | None | Some EmptyString => None
  | Some image => Some (inlineData image)
  end.

End Tools.

(* ================================================================== *)
(** * The registration form ([app/register/page.tsx]) *)
(* ================================================================== *)

Module Register.

Definition digitValue (radix : N) (c : ascii) : option N :=
  let n := N_of_ascii c in
  let v := if ((48 <=? n) && (n <=? 57))%N then Some (n - 48)%N
           else if ((97 <=? n) && (n <=? 102))%N then Some (n - 87)%N
           else if ((65 <=? n) && (n <=? 70))%N then Some (n - 55)%N
           else None in
  match v with
  | Some d => if (d <? radix)%N then Some d else None
  | None => None
  end.

(** The digits at the front of [s], read in [radix]; [None] when there is
    not one digit. *)
Fixpoint readDigits (radix : N) (acc : option N) (s : string) : option N :=
  match s with
  | EmptyString => acc
  | String c r =>
      match digitValue radix c with
      | Some d =>
          readDigits radix
            (Some (match acc with Some a => a * radix + d | None => d end)%N)
            r
      | None => acc
      end
  end.

(** [Number.parseInt(val)] without a radix, [None] for [NaN]: leading
    white space, a sign, [0x] or [0X] for base sixteen, then digits. *)
Definition parseInt (val : string) : option Z :=
  let s := JsString.trimStart val in
  let '(negative, s) :=
    match s with
    | String c r =>
        if Ascii.eqb c "-" then (true, r)
        else if Ascii.eqb c "+" then (false, r)
        else (false, s)
    | EmptyString => (false, s)
    end in
  let '(radix, s) :=
    if JsString.startsWith "0x" s || JsString.startsWith "0X" s
    then (16%N, Tools.drop 2 s) else (10%N, s) in
  match readDigits radix None s with
  | Some n => Some (if negative then (- Z.of_N n)%Z else Z.of_N n)
  | None => None
  end.

(** The refinement of [age]:
    [!isNaN(Number.parseInt(val)) && Number.parseInt(val) > 0]. *)
Definition ageIsPositive (val : string) : bool :=
  match parseInt val with
  | Some n => (0 <? n)%Z
  | None => false
  end.

(** [z.string().min(n)] *)
Definition minLength (n : nat) (s : string) : bool :=
  Nat.leb n (String.length s).

(** [formSchema] of the first revision accepts the values. *)
Definition formSchemaV1 (values : FormData) : bool :=
  minLength 2 (f_name values) &&
  ageIsPositive (f_age values) &&
  minLength 1 (f_gender values) &&
  minLength 10 (f_symptoms values) &&
  minLength 3 (f_medications values) &&
  minLength 10 (f_prescription values).

(** [formSchema] of the second revision: the three text fields are any
    strings, and the object-level refinement asks for them only when
    there is no image. *)
Definition formSchemaV2 (values : FormData) (hasImage : bool) : bool :=
  minLength 2 (f_name values) &&
  ageIsPositive (f_age values) &&
  minLength 1 (f_gender values) &&
  (if negb hasImage
   then minLength 10 (f_symptoms values) &&
        minLength 3 (f_medications values) &&
        minLength 10 (f_prescription values)
   else true).

(** Where the page is after [form.handleSubmit(onSubmit)]. *)
Inductive Navigation := ToDashboard | Stays.

(** [onSubmit].  [setItem] is the outcome of
    [sessionStorage.setItem("formData", ...)], which throws when the
    storage is full or not available; the action is called after it.
    Whatever throws is logged, not shown, and the page stays. *)
Definition onSubmit {S} (setItem : Result unit)
  (analyze : FormData -> M S unit) (values : FormData)
  : S -> Navigation * S :=
  fun s =>
    match setItem with
    | Throw _ => (Stays, s)
    | Return _ =>
        match analyze values s with
        | (Return _, s') => (ToDashboard, s')
        | (Throw _, s') => (Stays, s')
        end
    end.

(** [form.handleSubmit(onSubmit)]: [onSubmit] runs for accepted values
    only. *)
Definition handleSubmit {S} (accepted : bool) (setItem : Result unit)
  (analyze : FormData -> M S unit) (values : FormData)
  : S -> Navigation * S :=
  fun s =>
    if accepted then onSubmit setItem analyze values s else (Stays, s).

End Register.

(* ================================================================== *)
(** * The dashboard pages ([app/dashboard/page.tsx]) *)
(* ================================================================== *)

Module Dashboard.





(** What the hash search page shows. *)
Inductive SearchView :=
| ShowResult (result : PrescriptionResult)
| ShowError (error : string).

Definition enterHash : string := "Please enter a valid blockchain hash".
Definition notFound : string := "No prescription record found with this hash".

(** [handleSearch] *)
Definition handleSearch {S}
  (searchPrescriptionByHash : string -> M S (option PrescriptionResult))
  (searchHash : string) : S -> SearchView * S :=
  fun s =>
    if JsString.is_empty (JsString.trim searchHash)
    then (ShowError enterHash, s)
    else
      match searchPrescriptionByHash (JsString.trim searchHash) s with
      | (Return (Some prescription), s') => (ShowResult prescription, s')
      | (Return None, s') => (ShowError notFound, s')
      | (Throw e, s') => (ShowError (message e), s')
      end.

End Dashboard.

(* ================================================================== *)
(** * Predicates used in the statements *)
(* ================================================================== *)

(** The state [ensureNeo4jInitialized] leaves. *)
Definition ensured (w : V2.World) (s : V2.State) : V2.State :=
  snd (V2.ensureNeo4jInitialized w s).

(** An entry of the fall-back dictionary belongs to the patient [name]:
    the [patientInfo] stored next to the result says so. *)
Definition ownedBy (name : string) (entry : V2.Ref * PatientInfo) : bool :=
  String.eqb (p_name (snd entry)) name.

(** A character of lower-case hexadecimal notation. *)
Definition isHexDigit (c : ascii) : bool :=
  let n := N_of_ascii c in
  ((48 <=? n) && (n <=? 57) || (97 <=? n) && (n <=? 102))%N.

(** [s] holds no hyphen. *)
Definition noDash (s : string) : bool :=
  JsString.forallb (fun c => negb (Ascii.eqb c "-")) s.

(** A pattern that begins with the fence marker. *)
Definition fenceAnchored (m : string -> option nat) : Prop :=
  forall s, JsString.startsWith AI.fence s = false -> m s = None.

(** A pattern that matches wherever the fence marker begins. *)
Definition fenceComplete (m : string -> option nat) : Prop :=
  forall s, JsString.startsWith AI.fence s = true ->
            exists k, m s = Some (S k).

(** The analysis without the two properties only the second revision's
    schema lists. *)
Definition withoutExtras (a : AnalysisResult) : AnalysisResult :=
  {| a_status := a_status a; a_issues := a_issues a;
     a_suggestions := a_suggestions a; a_dataSources := a_dataSources a;
     a_imageAnalysis := None; a_historyReference := None |}.

(** The keys the second revision's schema reads. *)
Definition schemaKeys : list string :=
  ["status"; "issues"; "suggestions"; "dataSources"; "imageAnalysis";
   "historyReference"].

(** How many characters of [s] satisfy [p]. *)
Fixpoint countChars (p : ascii -> bool) (s : string) : nat :=
  match s with
  | EmptyString => 0
  | String c r => (if p c then 1 else 0) + countChars p r
  end.

(** The lookup answers with the entry of the table's first key. *)
Definition findsLisinopril (d : option Tools.Medicine) : Prop :=
  exists m, d = Some m /\ Tools.m_name m = "Lisinopril".

(** No white space in front: the empty string, or a first character that
    is not white space. *)
Definition noLeadingSpace (s : string) : Prop :=
  match s with
  | EmptyString => True
  | String c _ => JsString.is_space c = false
  end.

(** The name taken from one piece, in words: trim the piece; when it
    starts with a letter, the name is its leading run of letters and white
    space, trimmed; otherwise the name is the whole trimmed piece. *)
Definition nameOfPiece (piece : string) : string :=
  let trimmed := JsString.trim piece in
  match trimmed with
  | EmptyString => EmptyString
  | String c _ =>
      if JsString.is_alpha c
      then JsString.trim (JsString.takeWhile isNameChar trimmed)
      else trimmed
  end.

(** What a name looks like: it is not empty, has no white space around
    it, holds no comma and no line break, and either consists of letters
    and white space only or does not start with a letter. *)
Definition wellFormedName (med : string) : Prop :=
  med <> EmptyString /\
  JsString.trim med = med /\
  JsString.existsb isCommaOrNewline med = false /\
  (JsString.forallb isNameChar med = true \/
   exists c, JsString.head med = Some c /\ JsString.is_alpha c = false).

(* ================================================================== *)
(** * Sequences of server actions *)
(* ================================================================== *)

(** A call of one of the server actions of [actions.ts], with what the
    outside world decides during the call.  The calls of a sequence run
    one after the other: each has returned before the next one starts. *)
Inductive Action1 :=
| Analyze1 (w : V1.World) (formData : FormData)
| Results1 (w : V1.World)
| Update1 (w : V1.World) (id : string).

Definition act1 (a : Action1) (s : V1.State) : V1.State :=
  match a with
  | Analyze1 w formData => snd (V1.analyzePrescription w formData s)
  | Results1 w => snd (V1.getPrescriptionResults w s)
  | Update1 w id => snd (V1.updateBlockchainRecord w id s)
  end.

(** The state of a freshly loaded server after the calls [l]. *)
Definition after1 (l : list Action1) : V1.State :=
  fold_left (fun s a => act1 a s) l V1.init.

(** The id the call hands in, if it does, is not a property name of
    [Object.prototype]: the call stays within what the model follows. *)
Definition plain1 (a : Action1) : bool :=
  match a with
  | Update1 _ id => negb (JsObj.inherited id)
  | _ => true
  end.

Inductive Action2 :=
| Analyze2 (w : V2.World) (formData : FormData)
| Results2 (w : V2.World)
| Update2 (w : V2.World) (id : string)
| Search2 (w : V2.World) (hash : string)
| History2 (w : V2.World) (patientInfo : PatientInfo).

Definition act2 (a : Action2) (s : V2.State) : V2.State :=
  match a with
  | Analyze2 w formData => snd (V2.analyzePrescription w formData s)
  | Results2 w => snd (V2.getPrescriptionResults w s)
  | Update2 w id => snd (V2.updateBlockchainRecord w id s)
  | Search2 w hash => snd (V2.searchPrescriptionByHash w hash s)
  | History2 w patientInfo => snd (V2.getPatientHistory w patientInfo s)
  end.

Definition after2 (l : list Action2) : V2.State :=
  fold_left (fun s a => act2 a s) l V2.init.

Definition plain2 (a : Action2) : bool :=
  match a with
  | Update2 _ id => negb (JsObj.inherited id)
  | _ => true
  end.

(** The ledger has written the result down. *)
Definition recorded (r : PrescriptionResult) : Prop :=
  blockchainStatus r = "Recorded" \/ blockchainStatus r = "Updated".

(** The ledger record under [k] is the one of the result [r]: same id,
    same status, and the counts of its issues and suggestions. *)
Definition ledgerAgrees (k : string) (r : PrescriptionResult)
  (ledger : JsObj.t LedgerRecord) : Prop :=
  exists rec,
    JsObj.get k ledger = Some rec /\
    r_id rec = k /\
    r_status rec = status r /\
    r_data rec =
      {| d_status := status r;
         issuesCount :=
           match issues r with Some l => List.length l | None => 0 end;
         suggestionsCount :=
           match suggestions r with Some l => List.length l | None => 0 end
      |}.

(** The properties the ledger copies are the same in both results. *)
Definition sameCore (a b : PrescriptionResult) : Prop :=
  id a = id b /\ status a = status b /\
  issues a = issues b /\ suggestions a = suggestions b.

(** The state [s'] differs from [s] in the graph adapter's part at
    most. *)
Definition sameStores (s s' : V2.State) : Prop :=
  V2.heap s' = V2.heap s /\
  V2.resultsStore s' = V2.resultsStore s /\
  V2.blockchainRecords s' = V2.blockchainRecords s.

(** The graph adapter works without a database and the call made in the
    world [w] leaves it so: [driver] is null, and either the connection
    was tried before or the attempt of this call gets no driver. *)
Definition staysDegraded (w : V2.World) (s : V2.State) : Prop :=
  V2.driver s = None /\
  (V2.neo4jInitialized s = true \/ V2.connect w = V2.DriverRejected).

(** The two dictionaries of the first revision fit together. *)
Definition consistent1 (s : V1.State) : Prop :=
  JsObj.keys (V1.resultsStore s) = JsObj.keys (V1.blockchainRecords s) /\
  forall k r,
    JsObj.get k (V1.resultsStore s) = Some r ->
    id r = k /\ recorded r /\ ledgerAgrees k r (V1.blockchainRecords s).

(** The same in the second revision, through the references. *)
Definition consistent2 (s : V2.State) : Prop :=
  JsObj.keys (V2.resultsStore s) = JsObj.keys (V2.blockchainRecords s) /\
  forall k ref,
    JsObj.get k (V2.resultsStore s) = Some ref ->
    ref < List.length (V2.heap s) /\
    id (V2.deref (V2.heap s) ref) = k /\
    recorded (V2.deref (V2.heap s) ref) /\
    ledgerAgrees k (V2.deref (V2.heap s) ref) (V2.blockchainRecords s).

(* ================================================================== *)
(** * Sample inputs and states *)
(* ================================================================== *)

(** An analysis as the first revision's schema returns it. *)
Definition sampleAnalysis : AnalysisResult :=
  {| a_status := warning;
     a_issues := [{| i_title := "Potential Drug Interaction";
                     i_description := "Lisinopril and Metformin may interact.";
                     i_severity := medium |}];
     a_suggestions := [{| s_title := "Monitor Blood Sugar";
                          s_description := "Monitor blood sugar levels." |}];
     a_dataSources := {| vectorDbEntries := 3; searchQueries := 1 |};
     a_imageAnalysis := None;
     a_historyReference := None |}.

Definition formAlice : FormData :=
  {| f_name := "Alice"; f_age := "54"; f_gender := "female";
     f_medications := "Lisinopril"; f_symptoms := "thirst";
     f_prescription := "Lisinopril 10mg, Metformin 500mg" |}.

Definition formBob : FormData :=
  {| f_name := "Bob"; f_age := "61"; f_gender := "male";
     f_medications := "none"; f_symptoms := "cough";
     f_prescription := "Atorvastatin 20mg" |}.

Definition formCarol : FormData :=
  {| f_name := "Carol"; f_age := "47"; f_gender := "female";
     f_medications := "none"; f_symptoms := "headache";
     f_prescription := "Ibuprofen 400mg" |}.

Definition formAliceLater : FormData :=
  {| f_name := "Alice"; f_age := "54"; f_gender := "female";
     f_medications := "Lisinopril, Metformin"; f_symptoms := "cough";
     f_prescription := "Losartan 50mg" |}.

(** Three inputs the registration form accepts. *)
Definition formErin : FormData :=
  {| f_name := "Erin"; f_age := "54"; f_gender := "female";
     f_medications := "Lisinopril"; f_symptoms := "thirst and tiredness";
     f_prescription := "Lisinopril 10mg, Metformin 500mg" |}.

Definition formFinn : FormData :=
  {| f_name := "Finn"; f_age := "61"; f_gender := "male";
     f_medications := "none"; f_symptoms := "persistent dry cough";
     f_prescription := "Atorvastatin 20mg" |}.

Definition formGwen : FormData :=
  {| f_name := "Gwen"; f_age := "47"; f_gender := "female";
     f_medications := "none"; f_symptoms := "recurring headache";
     f_prescription := "Ibuprofen 400mg" |}.

Definition patientAlice : PatientInfo :=
  {| p_name := "Alice"; p_age := "54"; p_gender := "female";
     p_medications := None; p_symptoms := None |}.

Definition patientBob : PatientInfo :=
  {| p_name := "Bob"; p_age := "61"; p_gender := "male";
     p_medications := None; p_symptoms := None |}.

(** A world of the first revision in which the model answers. *)
Definition world1 (now : N) (suffix : string) : V1.World :=
  {| V1.dateNow := now; V1.randomSuffix := suffix;
     V1.clock1 := "2025-01-01T10:00:00.000Z";
     V1.clock2 := "2025-01-01T10:00:00.001Z";
     V1.modelAnswer := Return sampleAnalysis |}.

(** The id Alice's submission is given. *)
Definition aliceId : string := analysisId 1735725600000 "k3j9x2a".

(** The id of the canned example, which the dashboard passes on when no
    prescription has been submitted yet. *)
Definition mockId : string := "rx-mock-123456".

(** The first revision's state after Alice's submission. *)
Definition afterAlice1 : V1.State :=
  snd (V1.analyzePrescription (world1 1735725600000 "k3j9x2a") formAlice
         V1.init).

(** The first revision's state between the two writes of Alice's
    submission: the result is in the results store, the ledger write is
    still pending. *)
Definition pendingAlice1 : V1.State :=
  {| V1.resultsStore :=
       JsObj.set aliceId
         (newResult aliceId formAlice sampleAnalysis "t1" "t2") JsObj.empty;
     V1.blockchainRecords := JsObj.empty |}.

(** The second revision's state at the same point. *)
Definition pendingAlice2 : V2.State :=
  V2.with_resultsStore (JsObj.set aliceId 0)
    (V2.with_heap
       (fun _ => [newResult aliceId formAlice sampleAnalysis "t1" "t2"])
       V2.init).

(** A world of the second revision: the model answers, the graph
    database behaves as [c] says and fails every statement when it is
    not connected. *)
Definition world2 (now : N) (suffix : string) (c : V2.ConnectOutcome)
  : V2.World :=
  let down {A} : Result A :=
    match c with
    | V2.Connected => Throw (External "not modelled")
    | _ => Throw (External "ServiceUnavailable")
    end in
  {| V2.dateNow := now; V2.randomSuffix := suffix;
     V2.clock1 := "2025-01-01T10:00:00.000Z";
     V2.clock2 := "2025-01-01T10:00:00.001Z";
     V2.modelAnswer := fun _ => Return sampleAnalysis;
     V2.connect := c;
     V2.historyQuery := fun _ => down;
     V2.hashQuery := fun _ => down;
     V2.storeTransaction := fun _ => down;
     V2.updateStatement := down |}.

(** A world of the second revision whose clock reads [iso]; the graph
    database is out of reach in the way that leaves [driver] null. *)
Definition world2At (now : N) (suffix iso : string) : V2.World :=
  {| V2.dateNow := now; V2.randomSuffix := suffix;
     V2.clock1 := iso; V2.clock2 := iso;
     V2.modelAnswer := fun _ => Return sampleAnalysis;
     V2.connect := V2.DriverRejected;
     V2.historyQuery := fun _ => Throw (External "ServiceUnavailable");
     V2.hashQuery := fun _ => Throw (External "ServiceUnavailable");
     V2.storeTransaction := fun _ => Throw (External "ServiceUnavailable");
     V2.updateStatement := Throw (External "ServiceUnavailable") |}.

(** The second revision's state after Alice's submission at 10:00, and
    after a second submission of hers one hour later. *)
Definition afterAlice2 : V2.State :=
  snd (V2.analyzePrescription
         (world2At 1735725600000 "k3j9x2a" "2025-01-01T10:00:00.000Z")
         formAlice V2.init).

(** An analysis as the second revision's schema returns it, with its
    two further properties. *)
Definition sampleAnalysis2 : AnalysisResult :=
  {| a_status := a_status sampleAnalysis;
     a_issues := a_issues sampleAnalysis;
     a_suggestions := a_suggestions sampleAnalysis;
     a_dataSources := a_dataSources sampleAnalysis;
     a_imageAnalysis := Some None;
     a_historyReference := Some (Some "First prescription on record.") |}.

(** The world of [world2At] with that answer of the model. *)
Definition world2Answering (now : N) (suffix iso : string) : V2.World :=
  {| V2.dateNow := now; V2.randomSuffix := suffix;
     V2.clock1 := iso; V2.clock2 := iso;
     V2.modelAnswer := fun _ => Return sampleAnalysis2;
     V2.connect := V2.DriverRejected;
     V2.historyQuery := fun _ => Throw (External "ServiceUnavailable");
     V2.hashQuery := fun _ => Throw (External "ServiceUnavailable");
     V2.storeTransaction := fun _ => Throw (External "ServiceUnavailable");
     V2.updateStatement := Throw (External "ServiceUnavailable") |}.

(** The second revision's state after Erin's submission at 10:00. *)
Definition afterErin2 : V2.State :=
  snd (V2.analyzePrescription
         (world2Answering 1735725600000 "k3j9x2a" "2025-01-01T10:00:00.000Z")
         formErin V2.init).

Definition afterAliceTwice2 : V2.State :=
  snd (V2.analyzePrescription
         (world2At 1735729200000 "p0q8r7s" "2025-01-01T11:00:00.000Z")
         formAliceLater afterAlice2).

(** The answer the model is asked for, and a parser that knows this one
    document. *)
Definition sampleAnswer : json :=
  JObj [("status", JStr "warning");
        ("issues", JArr (map Json.ofIssue (a_issues sampleAnalysis)));
        ("suggestions",
         JArr (map Json.ofSuggestion (a_suggestions sampleAnalysis)));
        ("dataSources", Json.ofDataSources (a_dataSources sampleAnalysis));
        ("imageAnalysis", JNull);
        ("historyReference", JStr "First prescription on record.")].

Definition sampleAnswerText : string := Json.stringify sampleAnswer.

Definition parseSample (s : string) : option json :=
  if String.eqb s sampleAnswerText then Some sampleAnswer else None.

(* ================================================================== *)
(** * Properties of the dictionaries *)
(* ================================================================== *)

Section JsObjFacts.
Context {V : Type}.
Implicit Types (o : JsObj.t V) (k : string) (v : V).

Lemma get_app_absent k o o' :
  JsObj.get k o = None -> JsObj.get k (o ++ o') = JsObj.get k o'.
Proof.
  induction o as [|[k' v'] o IH]; simpl; [reflexivity|].
  destruct (String.eqb k k'); [discriminate | exact IH].
Qed.

Lemma get_replace_same k v o :
  JsObj.has k o = true -> JsObj.get k (JsObj.replace k v o) = Some v.
Proof.
  unfold JsObj.has.
  induction o as [|[k' v'] o IH]; simpl; [discriminate|].
  destruct (String.eqb k k') eqn:E; simpl; rewrite E; auto.
Qed.

Lemma get_replace_other k k' v o :
  k' <> k -> JsObj.get k' (JsObj.replace k v o) = JsObj.get k' o.
Proof.
  intros N.
  induction o as [|[k0 v0] o IH]; simpl; [reflexivity|].
  destruct (String.eqb k k0) eqn:E; simpl.
  - apply String.eqb_eq in E; subst k0.
    destruct (String.eqb k' k) eqn:E'; [|reflexivity].
    apply String.eqb_eq in E'; contradiction.
  - destruct (String.eqb k' k0); [reflexivity | exact IH].
Qed.

Lemma get_insertIndex_same n k v o :
  JsObj.get k (JsObj.insertIndex n k v o) = Some v \/
  JsObj.get k o <> None.
Proof.
  induction o as [|[k' v'] o IH]; simpl.
  - rewrite String.eqb_refl; auto.
  - destruct (JsObj.arrayIndex k') as [m|].
    + destruct (m <? n)%N; simpl.
      * destruct (String.eqb k k'); [right; discriminate | exact IH].
      * rewrite String.eqb_refl; auto.
    + simpl; rewrite String.eqb_refl; auto.
Qed.

Lemma get_insertIndex_other n k k' v o :
  k' <> k -> JsObj.get k' (JsObj.insertIndex n k v o) = JsObj.get k' o.
Proof.
  intros N.
  assert (E : String.eqb k' k = false) by (apply String.eqb_neq; exact N).
  induction o as [|[k0 v0] o IH]; simpl.
  - rewrite E; reflexivity.
  - destruct (JsObj.arrayIndex k0) as [m|].
    + destruct (m <? n)%N; simpl.
      * destruct (String.eqb k' k0); [reflexivity | exact IH].
      * rewrite E; reflexivity.
    + simpl; rewrite E; reflexivity.
Qed.

(** Reading back what was just assigned. *)
Lemma get_set_same k v o : JsObj.get k (JsObj.set k v o) = Some v.
Proof.
  unfold JsObj.set.
  destruct (JsObj.has k o) eqn:H.
  - apply get_replace_same; exact H.
  - assert (G : JsObj.get k o = None).
    { unfold JsObj.has in H. destruct (JsObj.get k o); [discriminate|reflexivity]. }
    destruct (JsObj.arrayIndex k) as [n|].
    + destruct (get_insertIndex_same n k v o) as [E|E]; [exact E|].
      contradiction.
    + rewrite get_app_absent by exact G. simpl.
      rewrite String.eqb_refl; reflexivity.
Qed.

(** An assignment leaves every other key alone. *)
Lemma get_set_other k k' v o :
  k' <> k -> JsObj.get k' (JsObj.set k v o) = JsObj.get k' o.
Proof.
  intros N. unfold JsObj.set.
  destruct (JsObj.has k o).
  - apply get_replace_other; exact N.
  - destruct (JsObj.arrayIndex k) as [n|].
    + apply get_insertIndex_other; exact N.
    + assert (E : String.eqb k' k = false) by (apply String.eqb_neq; exact N).
      induction o as [|[k0 v0] o IH]; simpl.
      * rewrite E; reflexivity.
      * destruct (String.eqb k' k0); [reflexivity | exact IH].
Qed.

Lemma keys_replace k v o : JsObj.keys (JsObj.replace k v o) = JsObj.keys o.
Proof.
  induction o as [|[k' v'] o IH]; simpl; [reflexivity|].
  destruct (String.eqb k k'); simpl; [reflexivity|].
  f_equal; exact IH.
Qed.

(** Assigning to a present key keeps the enumeration order. *)
Lemma keys_set_present k v o :
  JsObj.has k o = true -> JsObj.keys (JsObj.set k v o) = JsObj.keys o.
Proof.
  intros H. unfold JsObj.set. rewrite H. apply keys_replace.
Qed.

(** A new key that is not an array index goes last. *)
Lemma set_fresh k v o :
  JsObj.has k o = false -> JsObj.arrayIndex k = None ->
  JsObj.set k v o = o ++ [(k, v)].
Proof.
  intros H A. unfold JsObj.set. rewrite H, A. reflexivity.
Qed.

Lemma has_get_none k o : JsObj.has k o = false <-> JsObj.get k o = None.
Proof.
  unfold JsObj.has. destruct (JsObj.get k o); split; congruence.
Qed.

(** [o[k]] is [undefined] exactly when [k] is neither an own key nor a
    name of [Object.prototype]. *)
Lemma member_undefined k o :
  JsObj.member k o = JsObj.Undefined <->
  JsObj.get k o = None /\ JsObj.inherited k = false.
Proof.
  unfold JsObj.member.
  destruct (JsObj.get k o);
    [split; [discriminate|intros [H _]; discriminate H]|].
  destruct (JsObj.inherited k); split; try discriminate; auto.
  intros [_ H]. discriminate H.
Qed.

(** For a key that is no name of [Object.prototype], the member access
    is the own property. *)
Lemma member_plain k o :
  JsObj.inherited k = false ->
  JsObj.member k o
  = match JsObj.get k o with
    | Some v => JsObj.Own v
    | None => JsObj.Undefined
    end.
Proof. intros H. unfold JsObj.member. rewrite H. reflexivity. Qed.

(** An own property hides the inherited one. *)
Lemma member_own k v o :
  JsObj.member k o = JsObj.Own v <-> JsObj.get k o = Some v.
Proof.
  unfold JsObj.member. destruct (JsObj.get k o).
  - split; intros [= ->]; reflexivity.
  - destruct (JsObj.inherited k); split; discriminate.
Qed.

End JsObjFacts.

(* ================================================================== *)
(** * The ledger stub and the ledger refresh *)
(* ================================================================== *)

(** Unfold the sequencing combinators of a function body. *)
Ltac run :=
  cbv beta iota zeta delta
    [bind tryCatch gets modify ret throw await V2.catchAndLog V2.read
     V2.mutate V2.alloc V2.getSession] in *;
  simpl in *.

Lemma V1_updateOnBlockchain_absent w id data s :
  JsObj.get id (V1.blockchainRecords s) = None ->
  V1.updateOnBlockchain w id data s = (Throw RecordNotFoundOnBlockchain, s).
Proof.
  intros H. unfold V1.updateOnBlockchain. run. rewrite H. reflexivity.
Qed.

Lemma V1_updateOnBlockchain_present w id data s old :
  JsObj.get id (V1.blockchainRecords s) = Some old ->
  V1.updateOnBlockchain w id data s =
  (Return tt,
   V1.with_blockchainRecords
     (JsObj.set id (updatedData old (V1.clock1 w) data (generateHash data))) s).
Proof.
  intros H. unfold V1.updateOnBlockchain. run. rewrite H. reflexivity.
Qed.

(** ** [ensureNeo4jInitialized] touches the adapter's flags only *)

Lemma ensure_returns w s :
  V2.ensureNeo4jInitialized w s = (Return tt, ensured w s).
Proof.
  unfold ensured, V2.ensureNeo4jInitialized, V2.initNeo4j. run.
  destruct (V2.neo4jInitialized s); [reflexivity|].
  destruct (V2.connect w); reflexivity.
Qed.

Lemma ensured_frame w s :
  V2.heap (ensured w s) = V2.heap s /\
  V2.resultsStore (ensured w s) = V2.resultsStore s /\
  V2.blockchainRecords (ensured w s) = V2.blockchainRecords s /\
  V2.mockGraphData (ensured w s) = V2.mockGraphData s.
Proof.
  unfold ensured, V2.ensureNeo4jInitialized, V2.initNeo4j. run.
  destruct (V2.neo4jInitialized s); [auto|].
  destruct (V2.connect w); simpl; auto.
Qed.

Lemma V2_updateOnBlockchain_absent w id data s :
  JsObj.get id (V2.blockchainRecords s) = None ->
  V2.updateOnBlockchain w id data s
    = (Throw RecordNotFoundOnBlockchain, ensured w s).
Proof.
  intros H. unfold V2.updateOnBlockchain.
  unfold bind at 1. rewrite ensure_returns.
  destruct (ensured_frame w s) as (_ & _ & L & _).
  run. rewrite L, H. reflexivity.
Qed.

(** The graph update behind [.catch] returns whatever the adapter does,
    and leaves the heap, the results store and the ledger alone. *)
Lemma updateInGraph_caught w data hash s :
  exists s',
    V2.catchAndLog (V2.updatePrescriptionInGraph w data hash) s
      = (Return tt, s') /\
    V2.heap s' = V2.heap s /\
    V2.resultsStore s' = V2.resultsStore s /\
    V2.blockchainRecords s' = V2.blockchainRecords s.
Proof.
  unfold V2.updatePrescriptionInGraph. run.
  destruct (V2.driver s) as [d|] eqn:D; run; rewrite ?D.
  - destruct (V2.updateStatement w) as [[]|e]; eexists; split;
      try reflexivity; auto.
  - destruct (JsObj.get hash (V2.mockGraphData s)) as [[r p]|];
      eexists; split; try reflexivity; simpl; auto.
Qed.

(** The same for the graph store behind [.catch]. *)
Lemma storeInGraph_caught w data p hash s :
  exists s',
    V2.catchAndLog (V2.storePrescriptionInGraph w data p hash) s
      = (Return tt, s') /\
    V2.heap s' = V2.heap s /\
    V2.resultsStore s' = V2.resultsStore s /\
    V2.blockchainRecords s' = V2.blockchainRecords s.
Proof.
  unfold V2.storePrescriptionInGraph. run.
  destruct (V2.driver s) as [d|] eqn:D; run; rewrite ?D.
  - destruct (V2.storeTransaction w _) as [[]|e]; eexists; split;
      try reflexivity; auto.
  - eexists; split; try reflexivity; simpl; auto.
Qed.

Lemma V2_updateOnBlockchain_present w id data s old :
  JsObj.get id (V2.blockchainRecords s) = Some old ->
  exists s',
    V2.updateOnBlockchain w id data s = (Return tt, s') /\
    V2.heap s' = V2.heap s /\
    V2.resultsStore s' = V2.resultsStore s /\
    V2.blockchainRecords s' =
      JsObj.set id
        (updatedData old (V2.clock1 w) (V2.deref (V2.heap s) data)
           (generateHash (V2.deref (V2.heap s) data)))
        (V2.blockchainRecords s).
Proof.
  intros H. unfold V2.updateOnBlockchain.
  unfold bind at 1. rewrite ensure_returns.
  destruct (ensured_frame w s) as (Hh & Hr & L & _).
  unfold bind at 1. unfold gets at 1. rewrite L, H.
  unfold bind at 1. unfold V2.read at 1, gets at 1.
  unfold bind at 1. unfold modify at 1.
  match goal with
  | |- context [V2.catchAndLog ?m ?st] =>
      destruct (updateInGraph_caught w data
                  (generateHash (V2.deref (V2.heap (ensured w s)) data)) st)
        as (s' & E & Hh' & Hr' & Hl')
  end.
  exists s'. rewrite E. simpl in *. rewrite Hh in *.
  repeat split; congruence.
Qed.


(** X18.  The ledger stub on the ids a member access does not find in
    [Object.prototype].  When [blockchainRecords[id]] is [undefined],
    [getBlockchainRecord] and [updateOnBlockchain] both throw "Record
    not found on blockchain" and leave the ledger as it is.  On an id the
    ledger holds, [updateOnBlockchain] returns, and the record then
    stored under the id has the status and the checksum of the result
    passed in, a data block with that status, the number of its issues
    and the number of its suggestions (zero where the list is missing),
    and a new time stamp; the id field stays and every other key keeps
    its record.  First revision, and second revision (where the result
    is read through its reference). *)
Theorem ledger_contract_for_plain_ids :
  (forall (w : V1.World) (s : V1.State) (id : string)
          (data : PrescriptionResult),
     (JsObj.member id (V1.blockchainRecords s) = JsObj.Undefined ->
        V1.getBlockchainRecord id s = (Throw RecordNotFoundOnBlockchain, s) /\
        V1.updateOnBlockchain w id data s
          = (Throw RecordNotFoundOnBlockchain, s))
     /\
     (forall old,
        JsObj.member id (V1.blockchainRecords s) = JsObj.Own old ->
        V1.getBlockchainRecord id s = (Return old, s) /\
        exists s',
          V1.updateOnBlockchain w id data s = (Return tt, s') /\
          JsObj.get id (V1.blockchainRecords s') =
            Some {| r_id := r_id old;
                    r_timestamp := V1.clock1 w;
                    r_status := status data;
                    r_hash := generateHash data;
                    r_data :=
                      {| d_status := status data;
                         issuesCount :=
                           match issues data with
                           | Some l => List.length l
                           | None => 0
                           end;
                         suggestionsCount :=
                           match suggestions data with
                           | Some l => List.length l
                           | None => 0
                           end |} |} /\
          (forall k, k <> id ->
             JsObj.get k (V1.blockchainRecords s')
               = JsObj.get k (V1.blockchainRecords s)) /\
          JsObj.keys (V1.blockchainRecords s')
            = JsObj.keys (V1.blockchainRecords s) /\
          V1.resultsStore s' = V1.resultsStore s))
  /\
  (forall (w : V2.World) (s : V2.State) (id : string) (ref : V2.Ref),
     let data := V2.deref (V2.heap s) ref in
     (JsObj.member id (V2.blockchainRecords s) = JsObj.Undefined ->
        exists s',
          V2.getBlockchainRecord w id s
            = (Throw RecordNotFoundOnBlockchain, s') /\
          V2.updateOnBlockchain w id ref s
            = (Throw RecordNotFoundOnBlockchain, s') /\
          V2.blockchainRecords s' = V2.blockchainRecords s)
     /\
     (forall old,
        JsObj.member id (V2.blockchainRecords s) = JsObj.Own old ->
        fst (V2.getBlockchainRecord w id s) = Return old /\
        exists s',
          V2.updateOnBlockchain w id ref s = (Return tt, s') /\
          JsObj.get id (V2.blockchainRecords s') =
            Some {| r_id := r_id old;
                    r_timestamp := V2.clock1 w;
                    r_status := status data;
                    r_hash := generateHash data;
                    r_data :=
                      {| d_status := status data;
                         issuesCount :=
                           match issues data with
                           | Some l => List.length l
                           | None => 0
                           end;
                         suggestionsCount :=
                           match suggestions data with
                           | Some l => List.length l
                           | None => 0
                           end |} |} /\
          (forall k, k <> id ->
             JsObj.get k (V2.blockchainRecords s')
               = JsObj.get k (V2.blockchainRecords s)) /\
          JsObj.keys (V2.blockchainRecords s')
            = JsObj.keys (V2.blockchainRecords s) /\
          V2.resultsStore s' = V2.resultsStore s /\
          V2.heap s' = V2.heap s)).
Proof.
  split.
  - intros w s id data. split.
    + intros U. apply member_undefined in U. destruct U as [H _]. split.
      * unfold V1.getBlockchainRecord. run. rewrite H. reflexivity.
      * apply V1_updateOnBlockchain_absent; exact H.
    + intros old O. apply member_own in O. rename O into H. split.
      * unfold V1.getBlockchainRecord. run. rewrite H. reflexivity.
      * eexists. split; [apply V1_updateOnBlockchain_present; exact H|].
        simpl. repeat split.
        -- apply get_set_same.
        -- intros k N. apply get_set_other; exact N.
        -- apply keys_set_present. unfold JsObj.has. rewrite H. reflexivity.
  - intros w s id ref data.
    destruct (ensured_frame w s) as (Hh & Hr & L & _).
    assert (G : forall o,
              JsObj.get id (V2.blockchainRecords s) = o ->
              V2.getBlockchainRecord w id s
              = (match o with
                 | Some r => Return r
                 | None => Throw RecordNotFoundOnBlockchain
                 end, ensured w s)).
    { intros o H. unfold V2.getBlockchainRecord.
      unfold bind at 1. rewrite ensure_returns.
      run. rewrite L, H. destruct o; reflexivity. }
    split.
    + intros U. apply member_undefined in U. destruct U as [H _].
      exists (ensured w s). split; [exact (G None H)|].
      split; [apply V2_updateOnBlockchain_absent; exact H | exact L].
    + intros old O. apply member_own in O. rename O into H.
      split; [rewrite (G (Some old) H); reflexivity|].
      destruct (V2_updateOnBlockchain_present w id ref s old H)
        as (s' & U & Hh' & Hr' & L').
      exists s'. split; [exact U|]. rewrite L'. repeat split.
      * apply get_set_same.
      * intros k N. apply get_set_other; exact N.
      * apply keys_set_present. unfold JsObj.has. rewrite H. reflexivity.
      * exact Hr'.
      * exact Hh'.
Qed.

(** The contract at a concrete ledger: an id the ledger lacks, and the id
    of Alice's stored record. *)
Lemma ledger_contract_for_plain_ids_witness :
  (V1.getBlockchainRecord "rx-0-nobody" afterAlice1
     = (Throw RecordNotFoundOnBlockchain, afterAlice1) /\
   V1.updateOnBlockchain (world1 1 "a") "rx-0-nobody"
     (mockResult "t" "t") afterAlice1
     = (Throw RecordNotFoundOnBlockchain, afterAlice1)) /\
  (exists old,
     JsObj.get aliceId (V1.blockchainRecords afterAlice1) = Some old /\
     fst (V1.updateOnBlockchain (world1 1 "a") aliceId (mockResult "t" "t")
            afterAlice1) = Return tt) /\
  fst (V2.getBlockchainRecord
         (world2At 1735725700000 "aaaaaaa" "2025-01-01T10:01:40.000Z")
         "rx-0-nobody" afterAlice2) = Throw RecordNotFoundOnBlockchain.
Proof.
  split; [|split].
  - apply (proj1 (proj1 ledger_contract_for_plain_ids (world1 1 "a")
                    afterAlice1 "rx-0-nobody" (mockResult "t" "t"))).
    vm_compute. reflexivity.
  - destruct (JsObj.get aliceId (V1.blockchainRecords afterAlice1))
      as [old|] eqn:E; [|vm_compute in E; discriminate].
    exists old. split; [reflexivity|].
    destruct (proj2 (proj1 ledger_contract_for_plain_ids (world1 1 "a")
                       afterAlice1 aliceId (mockResult "t" "t")) old
                (proj2 (member_own _ _ _) E))
      as [_ [s' [U _]]].
    rewrite U. reflexivity.
  - destruct (proj1 (proj2 ledger_contract_for_plain_ids
                       (world2At 1735725700000 "aaaaaaa"
                          "2025-01-01T10:01:40.000Z")
                       afterAlice2 "rx-0-nobody" 0))
      as (s' & G & _).
    + vm_compute. reflexivity.
    + rewrite G. reflexivity.
Defined.

Lemma V1_updateOnBlockchain_fails_iff w id data s :
  succeeded (fst (V1.updateOnBlockchain w id data s)) = false <->
  JsObj.get id (V1.blockchainRecords s) = None.
Proof.
  destruct (JsObj.get id (V1.blockchainRecords s)) as [old|] eqn:E.
  - rewrite (V1_updateOnBlockchain_present w id data s old E). simpl.
    split; discriminate.
  - rewrite (V1_updateOnBlockchain_absent w id data s E). simpl.
    split; reflexivity.
Qed.

Lemma V2_updateOnBlockchain_fails_iff w id data s :
  succeeded (fst (V2.updateOnBlockchain w id data s)) = false <->
  JsObj.get id (V2.blockchainRecords s) = None.
Proof.
  destruct (JsObj.get id (V2.blockchainRecords s)) as [old|] eqn:E.
  - destruct (V2_updateOnBlockchain_present w id data s old E)
      as (s' & U & _).
    rewrite U. simpl. split; discriminate.
  - rewrite (V2_updateOnBlockchain_absent w id data s E). simpl.
    split; reflexivity.
Qed.

(** C2, as the code has it.  For an id that [resultsStore[id]] answers
    with [undefined], which is an id that is neither a key of the results
    store nor a property name of [Object.prototype], the [try] block of
    [updateBlockchainRecord] throws "Record not found" before anything is
    written; the [catch] clause replaces that error, so what the caller
    receives is the generic "Failed to update blockchain record", and the
    state is the one before the call.  Both revisions. *)
Theorem refresh_unknown_id_fails_with_generic_error :
  forall (id : string),
    (forall (w : V1.World) (s : V1.State),
       JsObj.member id (V1.resultsStore s) = JsObj.Undefined ->
       V1.updateBlockchainRecord_try w id s = (Throw RecordNotFound, s) /\
       V1.updateBlockchainRecord w id s = (Throw UpdateFailed, s))
    /\
    (forall (w : V2.World) (s : V2.State),
       JsObj.member id (V2.resultsStore s) = JsObj.Undefined ->
       V2.updateBlockchainRecord_try w id s = (Throw RecordNotFound, s) /\
       V2.updateBlockchainRecord w id s = (Throw UpdateFailed, s)).
Proof.
  intros id. split; intros w s U;
    apply member_undefined in U; destruct U as [H _].
  - assert (T : V1.updateBlockchainRecord_try w id s
                = (Throw RecordNotFound, s)).
    { unfold V1.updateBlockchainRecord_try. run. rewrite H. reflexivity. }
    split; [exact T|].
    unfold V1.updateBlockchainRecord, tryCatch. rewrite T. reflexivity.
  - assert (T : V2.updateBlockchainRecord_try w id s
                = (Throw RecordNotFound, s)).
    { unfold V2.updateBlockchainRecord_try. run. rewrite H. reflexivity. }
    split; [exact T|].
    unfold V2.updateBlockchainRecord, tryCatch. rewrite T. reflexivity.
Qed.

Lemma refresh_unknown_id_fails_with_generic_error_witness :
  V1.updateBlockchainRecord (world1 1 "a") mockId afterAlice1
    = (Throw UpdateFailed, afterAlice1) /\
  V2.updateBlockchainRecord (world2 1 "a" V2.DriverRejected) mockId V2.init
    = (Throw UpdateFailed, V2.init).
Proof.
  split.
  - apply (proj1 (refresh_unknown_id_fails_with_generic_error mockId)).
    vm_compute; reflexivity.
  - apply (proj2 (refresh_unknown_id_fails_with_generic_error mockId)).
    vm_compute; reflexivity.
Defined.

(** C2 as stated fails: with no submission yet, the id of the canned
    example is not a key of the results store, and the error the caller
    gets is not "Record not found". *)
Lemma refresh_unknown_id_is_not_RecordNotFound :
  JsObj.get mockId (V1.resultsStore V1.init) = None /\
  JsObj.get mockId (V2.resultsStore V2.init) = None /\
  fst (V1.updateBlockchainRecord (world1 1 "a") mockId V1.init)
    <> Throw RecordNotFound /\
  fst (V2.updateBlockchainRecord (world2 1 "a" V2.DriverRejected) mockId
         V2.init)
    <> Throw RecordNotFound.
Proof.
  repeat split; try reflexivity; vm_compute; discriminate.
Qed.

Lemma length_updateAt {A} n (f : A -> A) l :
  List.length (V2.updateAt n f l) = List.length l.
Proof.
  revert n. induction l as [|x l IH]; intros [|n]; simpl; auto.
Qed.

(** A write through a reference is seen by every holder of it. *)
Lemma deref_updateAt_same r f h :
  r < List.length h ->
  V2.deref (V2.updateAt r f h) r = f (V2.deref h r).
Proof.
  unfold V2.deref. revert r.
  induction h as [|x h IH]; intros [|r] L; simpl in *; try lia.
  - reflexivity.
  - apply IH. lia.
Qed.

Lemma deref_updateAt_other r r' f h :
  r' <> r -> V2.deref (V2.updateAt r f h) r' = V2.deref h r'.
Proof.
  unfold V2.deref. revert r r'.
  induction h as [|x h IH]; intros [|r] [|r'] N; simpl; try reflexivity.
  - contradiction.
  - apply IH. congruence.
Qed.

(** C10.  When the ledger update throws for an id the results store
    holds (it does exactly when the ledger has no record under the id),
    [updateBlockchainRecord] throws and the stored result is what it was:
    the first revision's results store is unchanged, and so are the second
    revision's results store and heap of result objects.  When the ledger
    update returns, the stored result gets the new [lastUpdated] and
    [blockchainStatus = "Updated"], and no other result object changes. *)
Theorem refresh_mutates_local_result_only_after_ledger_update :
  forall (id : string),
    (forall (w : V1.World) (s : V1.State) (data : PrescriptionResult),
       JsObj.get id (V1.resultsStore s) = Some data ->
       (succeeded (fst (V1.updateOnBlockchain w id data s)) = false ->
        exists s',
          V1.updateBlockchainRecord w id s = (Throw UpdateFailed, s') /\
          V1.resultsStore s' = V1.resultsStore s)
       /\
       (succeeded (fst (V1.updateOnBlockchain w id data s)) = true ->
        exists s',
          V1.updateBlockchainRecord w id s = (Return tt, s') /\
          JsObj.get id (V1.resultsStore s')
            = Some (set_blockchainStatus "Updated"
                      (set_lastUpdated (V1.clock2 w) data))))
    /\
    (forall (w : V2.World) (s : V2.State) (data : V2.Ref),
       JsObj.get id (V2.resultsStore s) = Some data ->
       (succeeded (fst (V2.updateOnBlockchain w id data s)) = false ->
        exists s',
          V2.updateBlockchainRecord w id s = (Throw UpdateFailed, s') /\
          V2.resultsStore s' = V2.resultsStore s /\
          V2.heap s' = V2.heap s)
       /\
       (succeeded (fst (V2.updateOnBlockchain w id data s)) = true ->
        data < List.length (V2.heap s) ->
        exists s',
          V2.updateBlockchainRecord w id s = (Return tt, s') /\
          JsObj.get id (V2.resultsStore s') = Some data /\
          V2.deref (V2.heap s') data
            = set_blockchainStatus "Updated"
                (set_lastUpdated (V2.clock2 w)
                   (V2.deref (V2.heap s) data)) /\
          (forall other, other <> data ->
             V2.deref (V2.heap s') other = V2.deref (V2.heap s) other))).
Proof.
  intros id. split.
  - intros w s data G. split; intros F.
    + apply V1_updateOnBlockchain_fails_iff in F.
      exists s. split; [|reflexivity].
      unfold V1.updateBlockchainRecord, V1.updateBlockchainRecord_try.
      run. rewrite G.
      rewrite (V1_updateOnBlockchain_absent w id data s F). reflexivity.
    + destruct (JsObj.get id (V1.blockchainRecords s)) as [old|] eqn:E.
      2:{ apply (proj2 (V1_updateOnBlockchain_fails_iff w id data s)) in E.
          congruence. }
      unfold V1.updateBlockchainRecord, V1.updateBlockchainRecord_try,
        V1.mutateResult.
      run. rewrite G.
      rewrite (V1_updateOnBlockchain_present w id data s old E).
      simpl. rewrite G. simpl. rewrite get_set_same. simpl.
      eexists. split; [reflexivity|]. simpl. apply get_set_same.
  - intros w s data G. split.
    + intros F. apply V2_updateOnBlockchain_fails_iff in F.
      exists (ensured w s).
      destruct (ensured_frame w s) as (Hh & Hr & _).
      split; [|auto].
      unfold V2.updateBlockchainRecord, V2.updateBlockchainRecord_try.
      run. rewrite G.
      rewrite (V2_updateOnBlockchain_absent w id data s F). reflexivity.
    + intros F Hlt.
      destruct (JsObj.get id (V2.blockchainRecords s)) as [old|] eqn:E.
      2:{ apply (proj2 (V2_updateOnBlockchain_fails_iff w id data s)) in E.
          congruence. }
      destruct (V2_updateOnBlockchain_present w id data s old E)
        as (s1 & U & Hh & Hr & _).
      unfold V2.updateBlockchainRecord, V2.updateBlockchainRecord_try.
      run. rewrite G, U. simpl.
      eexists. split; [reflexivity|]. simpl. split; [congruence|].
      rewrite Hh. split.
      * rewrite deref_updateAt_same by (rewrite length_updateAt; exact Hlt).
        rewrite deref_updateAt_same by exact Hlt.
        reflexivity.
      * intros other N. rewrite !deref_updateAt_other by exact N.
        reflexivity.
Qed.

Lemma refresh_mutates_local_result_only_after_ledger_update_witness :
  (exists s',
     V1.updateBlockchainRecord (world1 7 "b") aliceId pendingAlice1
       = (Throw UpdateFailed, s') /\
     V1.resultsStore s' = V1.resultsStore pendingAlice1) /\
  (exists s',
     V1.updateBlockchainRecord (world1 7 "b") aliceId afterAlice1
       = (Return tt, s') /\
     option_map blockchainStatus (JsObj.get aliceId (V1.resultsStore s'))
       = Some "Updated") /\
  (exists s',
     V2.updateBlockchainRecord (world2 7 "b" V2.Unreachable) aliceId
       pendingAlice2 = (Throw UpdateFailed, s') /\
     V2.resultsStore s' = V2.resultsStore pendingAlice2 /\
     V2.heap s' = V2.heap pendingAlice2).
Proof.
  pose proof (proj1 (refresh_mutates_local_result_only_after_ledger_update
                       aliceId)) as T.
  pose proof (proj2 (refresh_mutates_local_result_only_after_ledger_update
                       aliceId)) as T2.
  split; [|split].
  - apply (proj1 (T (world1 7 "b") pendingAlice1 _ eq_refl)).
    vm_compute; reflexivity.
  - destruct (JsObj.get aliceId (V1.resultsStore afterAlice1))
      as [data|] eqn:G; [|vm_compute in G; discriminate].
    destruct (proj2 (T (world1 7 "b") afterAlice1 data G)) as (s' & U & R).
    + vm_compute in G. injection G as <-. vm_compute; reflexivity.
    + exists s'. split; [exact U|]. rewrite R. reflexivity.
  - apply (proj1 (T2 (world2 7 "b" V2.Unreachable) pendingAlice2 0 eq_refl)).
    vm_compute; reflexivity.
Defined.

(* ================================================================== *)
(** * Submission ids and the latest result *)
(* ================================================================== *)

Lemma noDash_uint d : noDash (DecimalString.NilEmpty.string_of_uint d) = true.
Proof.
  induction d; simpl; auto.
Qed.

Lemma noDash_decimal n : noDash (JsString.decimal n) = true.
Proof.
  unfold JsString.decimal, DecimalString.NilZero.string_of_uint.
  destruct (N.to_uint n); try apply noDash_uint. reflexivity.
Qed.

Lemma decimal_inj n m : JsString.decimal n = JsString.decimal m -> n = m.
Proof.
  intros E.
  assert (R : forall k,
    option_map N.of_uint
      (DecimalString.NilZero.uint_of_string (JsString.decimal k)) = Some k).
  { intros k. unfold JsString.decimal.
    rewrite <- (DecimalN.Unsigned.of_to k) at 2.
    destruct (N.to_uint k); [reflexivity|..];
      rewrite DecimalString.NilZero.usu by discriminate; reflexivity. }
  pose proof (R n) as Rn. rewrite E, R in Rn. congruence.
Qed.

Lemma app_dash_inj a b x y :
  noDash a = true -> noDash b = true ->
  (a ++ String "-" x)%string = (b ++ String "-" y)%string ->
  a = b /\ x = y.
Proof.
  revert b. induction a as [|c a IH]; intros [|d b] Ha Hb E; simpl in *.
  - injection E as ->. auto.
  - injection E as <- _. simpl in Hb. discriminate.
  - injection E as -> _. simpl in Ha. discriminate.
  - injection E as -> E.
    apply andb_prop in Ha as [_ Ha]. apply andb_prop in Hb as [_ Hb].
    destruct (IH b Ha Hb E) as [-> ->]. auto.
Qed.

(** The id is an injective function of the clock reading and the random
    suffix. *)
Lemma analysisId_inj n x m y :
  analysisId n x = analysisId m y -> n = m /\ x = y.
Proof.
  unfold analysisId. simpl. intros E. injection E as E.
  apply app_dash_inj in E; try apply noDash_decimal.
  destruct E as [E ->]. apply decimal_inj in E. auto.
Qed.

(** A generated id is never an array index, so a new one is enumerated
    last. *)
Lemma analysisId_not_index n x : JsObj.arrayIndex (analysisId n x) = None.
Proof. reflexivity. Qed.

Lemma replace_last {V} k (v v' : V) o :
  JsObj.get k o = None ->
  JsObj.replace k v' (o ++ [(k, v)]) = o ++ [(k, v')].
Proof.
  induction o as [|[k0 v0] o IH]; simpl.
  - rewrite String.eqb_refl. reflexivity.
  - destruct (String.eqb k k0); [discriminate|].
    intros G. f_equal. apply IH. exact G.
Qed.

(** Two assignments to a new key that is not an array index. *)
Lemma set_set_fresh {V} k (v v' : V) o :
  JsObj.has k o = false -> JsObj.arrayIndex k = None ->
  JsObj.set k v' (JsObj.set k v o) = o ++ [(k, v')].
Proof.
  intros F A. rewrite (set_fresh k v o F A).
  apply has_get_none in F.
  unfold JsObj.set, JsObj.has.
  rewrite get_app_absent by exact F. simpl. rewrite String.eqb_refl.
  apply replace_last. exact F.
Qed.

Lemma V1_submit_fresh w formData analysis s :
  V1.modelAnswer w = Return analysis ->
  JsObj.has (analysisId (V1.dateNow w) (V1.randomSuffix w))
    (V1.resultsStore s) = false ->
  let aid := analysisId (V1.dateNow w) (V1.randomSuffix w) in
  let result := newResult aid formData analysis (V1.clock1 w) (V1.clock2 w) in
  V1.analyzePrescription w formData s =
  (Return tt,
   {| V1.resultsStore :=
        V1.resultsStore s ++ [(aid, set_blockchainStatus "Recorded" result)];
      V1.blockchainRecords :=
        JsObj.set aid (blockchainData result (generateHash result))
          (V1.blockchainRecords s) |}).
Proof.
  intros A F aid result.
  unfold V1.analyzePrescription, V1.storeOnBlockchain, V1.mutateResult.
  run. rewrite A. simpl. fold aid. fold result.
  rewrite get_set_same. simpl.
  f_equal. unfold V1.with_resultsStore, V1.with_blockchainRecords. simpl.
  f_equal.
  apply set_set_fresh; [exact F | apply analysisId_not_index].
Qed.

Lemma V1_latest_of_appended w' o aid r bc :
  JsObj.get aid o = None ->
  V1.getPrescriptionResults w'
    {| V1.resultsStore := o ++ [(aid, r)]; V1.blockchainRecords := bc |}
  = (Return r,
     {| V1.resultsStore := o ++ [(aid, r)]; V1.blockchainRecords := bc |}).
Proof.
  intros G. unfold V1.getPrescriptionResults. run.
  unfold JsObj.keys. rewrite map_app. simpl.
  destruct (map fst o ++ [aid]) as [|k ks] eqn:K.
  - destruct (map fst o); discriminate K.
  - rewrite <- K. rewrite List.last_last. simpl.
    rewrite get_app_absent by exact G. simpl.
    rewrite String.eqb_refl. reflexivity.
Qed.

Lemma V2_storeOnBlockchain_returns w data p s :
  let d := V2.deref (V2.heap s) data in
  exists s',
    V2.storeOnBlockchain w data p s = (Return (id d), s') /\
    V2.heap s' = V2.heap s /\
    V2.resultsStore s' = V2.resultsStore s /\
    V2.blockchainRecords s' =
      JsObj.set (id d) (blockchainData d (generateHash d))
        (V2.blockchainRecords s).
Proof.
  intros d. unfold V2.storeOnBlockchain.
  unfold bind at 1. rewrite ensure_returns.
  destruct (ensured_frame w s) as (Hh & Hr & L & _).
  unfold bind at 1. unfold V2.read at 1, gets at 1.
  unfold bind at 1. unfold modify at 1.
  unfold bind at 1.
  match goal with
  | |- context [V2.catchAndLog ?m ?st] =>
      destruct (storeInGraph_caught w data p
                  (generateHash (V2.deref (V2.heap (ensured w s)) data)) st)
        as (s' & E & Hh' & Hr' & Hl')
  end.
  exists s'. rewrite E. unfold ret. simpl in *. rewrite Hh in *.
  fold d in Hl' |- *.
  repeat split; congruence.
Qed.

Lemma deref_alloc h r : V2.deref (h ++ [r]) (List.length h) = r.
Proof.
  unfold V2.deref. rewrite app_nth2 by lia.
  rewrite Nat.sub_diag. reflexivity.
Qed.

Lemma updateAt_alloc {A} (h : list A) (r : A) (f : A -> A) :
  V2.updateAt (List.length h) f (h ++ [r]) = h ++ [f r].
Proof.
  induction h as [|x h IH]; simpl; [reflexivity|].
  rewrite IH. reflexivity.
Qed.

(** With [driver] null, the history is read from the fall-back
    dictionary and nothing throws. *)
Lemma V2_history_fallback w p s :
  V2.driver s = None ->
  V2.getPatientPrescriptionHistory w p s
  = (Return (map (fun data => V2.deref (V2.heap s) (fst data))
               (JsObj.values (V2.mockGraphData s))), s).
Proof.
  intros D. unfold V2.getPatientPrescriptionHistory. run.
  rewrite D. reflexivity.
Qed.

(** A submission whose history fetch and model call both return goes
    through, whatever the graph adapter does afterwards. *)
Lemma V2_submit_after_history w formData s history analysis :
  V2.getPatientPrescriptionHistory w (V2.patientKey formData) s
    = (Return history, s) ->
  V2.modelAnswer w history = Return analysis ->
  let aid := analysisId (V2.dateNow w) (V2.randomSuffix w) in
  let result :=
    newResult aid formData analysis (V2.clock1 w) (V2.clock2 w) in
  let ref := List.length (V2.heap s) in
  exists s',
    V2.analyzePrescription w formData s = (Return tt, s') /\
    V2.resultsStore s' = JsObj.set aid ref (V2.resultsStore s) /\
    V2.heap s' = V2.heap s ++ [set_blockchainStatus "Recorded" result] /\
    V2.blockchainRecords s'
      = JsObj.set aid (blockchainData result (generateHash result))
          (V2.blockchainRecords s).
Proof.
  intros Hh Ha aid result ref.
  unfold V2.analyzePrescription.
  unfold tryCatch. unfold bind at 1. rewrite Hh.
  unfold bind at 1. unfold await at 1. rewrite Ha.
  unfold bind at 1. unfold V2.alloc at 1.
  unfold bind at 1. unfold modify at 1.
  fold aid. fold result. fold ref.
  unfold bind at 1.
  match goal with
  | |- context [V2.storeOnBlockchain w ref ?p ?st] =>
      destruct (V2_storeOnBlockchain_returns w ref p st)
        as (s1 & E & H1 & H2 & H3)
  end.
  rewrite E. simpl in H1, H2, H3.
  unfold ref in H3 at 1 2 3. rewrite deref_alloc in H3.
  change (id result) with aid in H3.
  unfold bind at 1. unfold gets at 1. rewrite H2, get_set_same.
  unfold V2.mutate, modify.
  eexists. split; [reflexivity|]. simpl.
  rewrite H1, H2, H3. unfold ref. rewrite updateAt_alloc. auto.
Qed.

Lemma V2_latest_of_appended w' s o aid ref :
  V2.resultsStore s = o ++ [(aid, ref)] ->
  JsObj.get aid o = None ->
  V2.getPrescriptionResults w' s = (Return (V2.deref (V2.heap s) ref), s).
Proof.
  intros R G. unfold V2.getPrescriptionResults. run. rewrite R.
  unfold JsObj.keys. rewrite map_app. simpl.
  destruct (map fst o ++ [aid]) as [|k ks] eqn:K.
  - destruct (map fst o); discriminate K.
  - rewrite <- K. rewrite List.last_last. rewrite R.
    rewrite get_app_absent by exact G. simpl.
    rewrite String.eqb_refl. reflexivity.
Qed.

(** C1, as the code has it.  When the model answers and the generated id
    is not yet a key of the results store, [analyzePrescription] returns
    and [getPrescriptionResults] then returns the record of this
    submission: its [originalPrescription] is the submitted text and its
    [id] is the generated one, which is now a key of the store.  The same
    holds in the second revision when, in addition, the history fetch
    returns.  The id is ["rx-" + clock + "-" + suffix]: two ids are equal
    exactly when both the clock reading and the random suffix are. *)
Theorem submit_then_latest_with_fresh_id :
  (forall (w w' : V1.World) (s : V1.State) (formData : FormData)
          (analysis : AnalysisResult),
     V1.modelAnswer w = Return analysis ->
     JsObj.has (analysisId (V1.dateNow w) (V1.randomSuffix w))
       (V1.resultsStore s) = false ->
     exists s' r,
       V1.analyzePrescription w formData s = (Return tt, s') /\
       V1.getPrescriptionResults w' s' = (Return r, s') /\
       originalPrescription r = f_prescription formData /\
       id r = analysisId (V1.dateNow w) (V1.randomSuffix w) /\
       JsObj.has (id r) (V1.resultsStore s') = true)
  /\
  (forall (w w' : V2.World) (s : V2.State) (formData : FormData)
          (history : list PrescriptionResult) (analysis : AnalysisResult),
     V2.getPatientPrescriptionHistory w (V2.patientKey formData) s
       = (Return history, s) ->
     V2.modelAnswer w history = Return analysis ->
     JsObj.has (analysisId (V2.dateNow w) (V2.randomSuffix w))
       (V2.resultsStore s) = false ->
     exists s' r,
       V2.analyzePrescription w formData s = (Return tt, s') /\
       V2.getPrescriptionResults w' s' = (Return r, s') /\
       originalPrescription r = f_prescription formData /\
       id r = analysisId (V2.dateNow w) (V2.randomSuffix w) /\
       JsObj.has (id r) (V2.resultsStore s') = true)
  /\
  (forall n x m y, analysisId n x = analysisId m y <-> n = m /\ x = y).
Proof.
  split; [|split].
  - intros w w' s formData analysis A F.
    pose proof (V1_submit_fresh w formData analysis s A F) as S.
    simpl in S.
    eexists. eexists. split; [exact S|].
    apply has_get_none in F.
    split; [apply V1_latest_of_appended; exact F|].
    simpl. repeat split.
    unfold JsObj.has. rewrite get_app_absent by exact F. simpl.
    rewrite String.eqb_refl. reflexivity.
  - intros w w' s formData history analysis Hh Ha F.
    destruct (V2_submit_after_history w formData s history analysis Hh Ha)
      as (s' & E & R & H & _).
    rewrite (set_fresh _ _ _ F (analysisId_not_index _ _)) in R.
    apply has_get_none in F.
    exists s'. eexists. split; [exact E|].
    split; [apply (V2_latest_of_appended w' s' _ _ _ R F)|].
    rewrite H, deref_alloc. simpl. repeat split.
    unfold JsObj.has. rewrite R, get_app_absent by exact F. simpl.
    rewrite String.eqb_refl. reflexivity.
  - intros n x m y. split.
    + apply analysisId_inj.
    + intros [-> ->]. reflexivity.
Qed.

Lemma submit_then_latest_with_fresh_id_witness :
  Register.formSchemaV1 formErin = true /\
  Register.formSchemaV1 formFinn = true /\
  (exists s' r,
     V1.analyzePrescription (world1 1735725600000 "k3j9x2a") formErin
       V1.init = (Return tt, s') /\
     V1.getPrescriptionResults (world1 1735725601000 "zzzzzzz") s'
       = (Return r, s') /\
     originalPrescription r = "Lisinopril 10mg, Metformin 500mg" /\
     id r = "rx-1735725600000-k3j9x2a" /\
     JsObj.has (id r) (V1.resultsStore s') = true) /\
  (exists s' r,
     V2.analyzePrescription
       (world2Answering 1735729200000 "p0q8r7s" "2025-01-01T11:00:00.000Z")
       formFinn afterErin2 = (Return tt, s') /\
     V2.getPrescriptionResults
       (world2Answering 1735729300000 "bbbbbbb" "2025-01-01T11:01:40.000Z") s'
       = (Return r, s') /\
     originalPrescription r = "Atorvastatin 20mg" /\
     id r = "rx-1735729200000-p0q8r7s" /\
     JsObj.has (id r) (V2.resultsStore s') = true).
Proof.
  split; [vm_compute; reflexivity|].
  split; [vm_compute; reflexivity|].
  split.
  - exact (proj1 submit_then_latest_with_fresh_id
             (world1 1735725600000 "k3j9x2a")
             (world1 1735725601000 "zzzzzzz")
             V1.init formErin sampleAnalysis eq_refl eq_refl).
  - apply (proj1 (proj2 submit_then_latest_with_fresh_id)
             (world2Answering 1735729200000 "p0q8r7s"
                "2025-01-01T11:00:00.000Z")
             (world2Answering 1735729300000 "bbbbbbb"
                "2025-01-01T11:01:40.000Z")
             afterErin2 formFinn
             (map (fun data => V2.deref (V2.heap afterErin2) (fst data))
                (JsObj.values (V2.mockGraphData afterErin2)))
             sampleAnalysis2).
    + apply V2_history_fallback. reflexivity.
    + reflexivity.
    + vm_compute. reflexivity.
Defined.

(** C1 as stated fails.  Three submissions of values the form accepts,
    all successful.  The second reads the clock two seconds after the
    first.  The third reads the clock value the first one read
    ([Date.now()] is the wall clock, which can be set back) and draws the
    same suffix, so it is given the id of the first: two distinct
    submissions, one id.  The store then has two keys, the third
    submission has overwritten the first one's record in place, and
    [getPrescriptionResults] returns the second submission's record, not
    the one just submitted. *)
Lemma submit_then_latest_colliding_id :
  let w1 := world1 1735725600000 "k3j9x2a" in
  let w2 := world1 1735725602000 "p0q8r7s" in
  let s1 := snd (V1.analyzePrescription w1 formErin V1.init) in
  let s2 := snd (V1.analyzePrescription w2 formFinn s1) in
  let s3 := snd (V1.analyzePrescription w1 formGwen s2) in
  (Register.formSchemaV1 formErin = true /\
   Register.formSchemaV1 formFinn = true /\
   Register.formSchemaV1 formGwen = true) /\
  fst (V1.analyzePrescription w1 formErin V1.init) = Return tt /\
  fst (V1.analyzePrescription w2 formFinn s1) = Return tt /\
  fst (V1.analyzePrescription w1 formGwen s2) = Return tt /\
  JsObj.keys (V1.resultsStore s3)
    = ["rx-1735725600000-k3j9x2a"; "rx-1735725602000-p0q8r7s"] /\
  option_map originalPrescription
    (JsObj.get "rx-1735725600000-k3j9x2a" (V1.resultsStore s3))
    = Some (f_prescription formGwen) /\
  (exists r,
     fst (V1.getPrescriptionResults w2 s3) = Return r /\
     originalPrescription r = f_prescription formFinn /\
     originalPrescription r <> f_prescription formGwen).
Proof.
  vm_compute. repeat split.
  eexists. repeat split. intros X. discriminate X.
Qed.

(* ================================================================== *)
(** * The checksum is a function of the serialized text *)
(* ================================================================== *)

(** C6.  Two results with the same serialized form have the same
    fingerprint.  [generateHash] reads nothing but its argument: no clock,
    no random draw, no module state. *)
Theorem generateHash_deterministic :
  forall d1 d2 : PrescriptionResult,
    serialize d1 = serialize d2 -> generateHash d1 = generateHash d2.
Proof.
  intros d1 d2 E. unfold generateHash. rewrite E. reflexivity.
Qed.

Lemma generateHash_deterministic_witness :
  generateHash (set_lastUpdated "t2" (mockResult "t1" "t0"))
    = generateHash (mockResult "t1" "t2").
Proof.
  apply generateHash_deterministic. reflexivity.
Defined.

(* ================================================================== *)
(** * Code fences around the model's answer *)
(* ================================================================== *)

Section Fences.

Import AI.

Lemma startsWith_fence_before_newline s t :
  JsString.startsWith fence (s ++ String newline t)
    = JsString.startsWith fence s.
Proof.
  destruct s as [|a [|b [|c r]]];
    cbn [JsString.startsWith fence append];
    change (Ascii.eqb "`" newline) with false;
    cbn [andb]; rewrite ?andb_false_r; reflexivity.
Qed.

Lemma startsWith_fenceJson_fence s :
  JsString.startsWith fence s = false ->
  JsString.startsWith fenceJson s = false.
Proof.
  destruct s as [|a [|b [|c r]]];
    cbn [JsString.startsWith fence fenceJson]; try reflexivity.
  - rewrite andb_false_r; reflexivity.
  - rewrite !andb_false_r; reflexivity.
  - destruct (Ascii.eqb "`" a), (Ascii.eqb "`" b), (Ascii.eqb "`" c);
      cbn [andb]; intros H; try discriminate H; reflexivity.
Qed.

Lemma matchFenceJsonNl_anchored : fenceAnchored matchFenceJsonNl.
Proof.
  intros s H. unfold matchFenceJsonNl.
  rewrite (startsWith_fenceJson_fence s H). reflexivity.
Qed.

Lemma matchFenceNl_anchored : fenceAnchored matchFenceNl.
Proof.
  intros s H. unfold matchFenceNl. rewrite H. reflexivity.
Qed.

Lemma matchFenceJsonOrFence_anchored : fenceAnchored matchFenceJsonOrFence.
Proof.
  intros s H. unfold matchFenceJsonOrFence.
  rewrite (startsWith_fenceJson_fence s H), H. reflexivity.
Qed.

(** Removing an anchored pattern from a text without fence marker leaves
    the text as it is. *)
Lemma removeAll_no_fence m s :
  fenceAnchored m -> hasFence s = false -> JsString.removeAll m 0 s = s.
Proof.
  intros A. induction s as [|c r IH]; intros H; [reflexivity|].
  cbn [hasFence] in H. apply orb_false_elim in H as [H1 H2].
  change (JsString.removeAll m 0 (String c r))
    with (match m (String c r) with
          | Some (S k) => JsString.removeAll m k r
          | _ => String c (JsString.removeAll m 0 r)
          end).
  rewrite (A _ H1), (IH H2). reflexivity.
Qed.

(** The same in front of a line break: a marker cannot straddle it. *)
Lemma removeAll_no_fence_before_newline m s t :
  fenceAnchored m -> hasFence s = false ->
  JsString.removeAll m 0 (s ++ String newline t)
    = (s ++ JsString.removeAll m 0 (String newline t))%string.
Proof.
  intros A. induction s as [|c r IH]; intros H; [reflexivity|].
  cbn [hasFence] in H. apply orb_false_elim in H as [H1 H2].
  change ((String c r ++ String newline t)%string)
    with (String c (r ++ String newline t)).
  change (JsString.removeAll m 0 (String c (r ++ String newline t)))
    with (match m (String c (r ++ String newline t)) with
          | Some (S k) => JsString.removeAll m k (r ++ String newline t)
          | _ => String c (JsString.removeAll m 0 (r ++ String newline t))
          end).
  assert (N : m (String c (r ++ String newline t)) = None).
  { apply A.
    change (String c (r ++ String newline t))
      with ((String c r ++ String newline t)%string).
    rewrite startsWith_fence_before_newline. exact H1. }
  rewrite N, (IH H2). reflexivity.
Qed.

Lemma trimEnd_newline s :
  JsString.trimEnd (s ++ String newline EmptyString) = JsString.trimEnd s.
Proof.
  induction s as [|c r IH]; [reflexivity|].
  simpl. rewrite IH. reflexivity.
Qed.

(** [trim] drops a trailing line break. *)
Lemma trim_newline_after s :
  JsString.trim (s ++ String newline EmptyString) = JsString.trim s.
Proof.
  unfold JsString.trim.
  induction s as [|c r IH]; [reflexivity|].
  simpl. destruct (JsString.is_space c); [exact IH|].
  change (String c (r ++ String newline EmptyString))
    with ((String c r ++ String newline EmptyString)%string).
  apply trimEnd_newline.
Qed.

End Fences.

Section FencedAnswers.

Import AI.

Variable p : string.
Hypothesis p_plain : hasFence p = false.

Let nl_p_plain : hasFence (String newline p) = false.
Proof.
  cbn [hasFence]. rewrite p_plain. reflexivity.
Qed.

Lemma cleanV2_plain : cleanV2 p = JsString.trim p.
Proof.
  unfold cleanV2.
  rewrite removeAll_no_fence
    by (exact matchFenceJsonOrFence_anchored || exact p_plain).
  reflexivity.
Qed.

Lemma cleanV1_plain : cleanV1 p = JsString.trim p.
Proof.
  unfold cleanV1.
  rewrite (removeAll_no_fence matchFenceJsonNl)
    by (exact matchFenceJsonNl_anchored || exact p_plain).
  rewrite removeAll_no_fence
    by (exact matchFenceNl_anchored || exact p_plain).
  reflexivity.
Qed.

Lemma cleanV2_wrapJson : cleanV2 (wrapJson p) = JsString.trim p.
Proof.
  unfold cleanV2, wrapJson.
  change (JsString.removeAll matchFenceJsonOrFence 0
            (fenceJson ++ String newline p ++ String newline fence))
    with (JsString.removeAll matchFenceJsonOrFence 0
            (String newline p ++ String newline fence)).
  rewrite removeAll_no_fence_before_newline
    by (exact matchFenceJsonOrFence_anchored || exact nl_p_plain).
  change (JsString.removeAll matchFenceJsonOrFence 0 (String newline fence))
    with (String newline EmptyString).
  change (JsString.trim (String newline p ++ String newline EmptyString))
    with (JsString.trim (p ++ String newline EmptyString)).
  apply trim_newline_after.
Qed.

Lemma cleanV2_wrapPlain : cleanV2 (wrapPlain p) = JsString.trim p.
Proof.
  unfold cleanV2, wrapPlain.
  change (JsString.removeAll matchFenceJsonOrFence 0
            (fence ++ String newline p ++ String newline fence))
    with (JsString.removeAll matchFenceJsonOrFence 0
            (String newline p ++ String newline fence)).
  rewrite removeAll_no_fence_before_newline
    by (exact matchFenceJsonOrFence_anchored || exact nl_p_plain).
  change (JsString.removeAll matchFenceJsonOrFence 0 (String newline fence))
    with (String newline EmptyString).
  change (JsString.trim (String newline p ++ String newline EmptyString))
    with (JsString.trim (p ++ String newline EmptyString)).
  apply trim_newline_after.
Qed.

Lemma cleanV1_wrapJson : cleanV1 (wrapJson p) = JsString.trim p.
Proof.
  unfold cleanV1, wrapJson.
  change (JsString.removeAll matchFenceJsonNl 0
            (fenceJson ++ String newline p ++ String newline fence))
    with (JsString.removeAll matchFenceJsonNl 0 (p ++ String newline fence)).
  rewrite removeAll_no_fence_before_newline
    by (exact matchFenceJsonNl_anchored || exact p_plain).
  change (JsString.removeAll matchFenceJsonNl 0 (String newline fence))
    with (String newline fence).
  rewrite removeAll_no_fence_before_newline
    by (exact matchFenceNl_anchored || exact p_plain).
  change (JsString.removeAll matchFenceNl 0 (String newline fence))
    with (String newline EmptyString).
  apply trim_newline_after.
Qed.

Lemma cleanV1_wrapPlain : cleanV1 (wrapPlain p) = JsString.trim p.
Proof.
  unfold cleanV1, wrapPlain.
  change (JsString.removeAll matchFenceJsonNl 0
            (fence ++ String newline p ++ String newline fence))
    with (fence ++ JsString.removeAll matchFenceJsonNl 0
                     (String newline p ++ String newline fence))%string.
  rewrite removeAll_no_fence_before_newline
    by (exact matchFenceJsonNl_anchored || exact nl_p_plain).
  change (JsString.removeAll matchFenceJsonNl 0 (String newline fence))
    with (String newline fence).
  change (JsString.removeAll matchFenceNl 0
            (fence ++ String newline p ++ String newline fence))
    with (JsString.removeAll matchFenceNl 0 (p ++ String newline fence)).
  rewrite removeAll_no_fence_before_newline
    by (exact matchFenceNl_anchored || exact p_plain).
  change (JsString.removeAll matchFenceNl 0 (String newline fence))
    with (String newline EmptyString).
  apply trim_newline_after.
Qed.

End FencedAnswers.

(** C7.  For a payload without code-fence marker, both revisions'
    post-processing (remove the markers, trim, [JSON.parse], validate
    against the schema) gives the same outcome, the parsed analysis or the
    "Invalid AI response format" error, on the payload between
    [```json] and [```] lines (or between two [```] lines) as on the
    payload alone.  [JSON_parse] is any function. *)
Theorem fenced_answer_parses_like_plain :
  forall (JSON_parse : string -> option json) (p : string),
    AI.hasFence p = false ->
    AI.postProcessV1 JSON_parse (AI.wrapJson p)
      = AI.postProcessV1 JSON_parse p /\
    AI.postProcessV2 JSON_parse (AI.wrapJson p)
      = AI.postProcessV2 JSON_parse p /\
    AI.postProcessV1 JSON_parse (AI.wrapPlain p)
      = AI.postProcessV1 JSON_parse p /\
    AI.postProcessV2 JSON_parse (AI.wrapPlain p)
      = AI.postProcessV2 JSON_parse p.
Proof.
  intros JSON_parse p H.
  unfold AI.postProcessV1, AI.postProcessV2.
  rewrite (cleanV1_wrapJson p H), (cleanV2_wrapJson p H),
    (cleanV1_wrapPlain p H), (cleanV2_wrapPlain p H),
    (cleanV1_plain p H), (cleanV2_plain p H).
  repeat split.
Qed.

Lemma fenced_answer_parses_like_plain_witness :
  AI.hasFence sampleAnswerText = false /\
  AI.postProcessV1 parseSample (AI.wrapJson sampleAnswerText)
    = AI.postProcessV1 parseSample sampleAnswerText /\
  AI.postProcessV2 parseSample (AI.wrapJson sampleAnswerText)
    = AI.postProcessV2 parseSample sampleAnswerText /\
  AI.postProcessV1 parseSample (AI.wrapPlain sampleAnswerText)
    = AI.postProcessV1 parseSample sampleAnswerText /\
  AI.postProcessV2 parseSample (AI.wrapPlain sampleAnswerText)
    = AI.postProcessV2 parseSample sampleAnswerText.
Proof.
  split; [vm_compute; reflexivity|].
  apply (fenced_answer_parses_like_plain parseSample sampleAnswerText).
  vm_compute; reflexivity.
Defined.

(** C7 as stated fails for code-fence markup in general.  The patterns
    remove the marker and the lower-case tag [json] only.  Behind an
    opening marker with the tag [JSON] the marker goes and the tag stays
    in front of the payload, so the text is no JSON document any more:
    the payload both revisions accept when it comes alone is refused
    with "Invalid AI response format" when it comes in this fence. *)
Lemma fenced_answer_with_other_tag_is_refused :
  AI.hasFence sampleAnswerText = false /\
  AI.cleanV1 (AI.wrapTagged "JSON" sampleAnswerText)
    = ("JSON" ++ String newline sampleAnswerText)%string /\
  AI.cleanV2 (AI.wrapTagged "JSON" sampleAnswerText)
    = ("JSON" ++ String newline sampleAnswerText)%string /\
  succeeded (AI.postProcessV1 parseSample sampleAnswerText) = true /\
  AI.postProcessV1 parseSample (AI.wrapTagged "JSON" sampleAnswerText)
    = Throw InvalidAIResponse /\
  succeeded (AI.postProcessV2 parseSample sampleAnswerText) = true /\
  AI.postProcessV2 parseSample (AI.wrapTagged "JSON" sampleAnswerText)
    = Throw InvalidAIResponse.
Proof.
  vm_compute. repeat split.
Qed.

(** The fenced sample is accepted, with the analysis it spells out. *)
Example fenced_sample_is_accepted :
  AI.postProcessV2 parseSample (AI.wrapJson sampleAnswerText)
    = Return {| a_status := warning;
                a_issues := a_issues sampleAnalysis;
                a_suggestions := a_suggestions sampleAnalysis;
                a_dataSources := a_dataSources sampleAnalysis;
                a_imageAnalysis := Some None;
                a_historyReference :=
                  Some (Some "First prescription on record.") |} /\
  AI.postProcessV1 parseSample (AI.wrapJson sampleAnswerText)
    = Return sampleAnalysis.
Proof. split; vm_compute; reflexivity. Qed.

(* ================================================================== *)
(** * Medication names *)
(* ================================================================== *)

Section Trimming.

Import JsString.

Lemma trimStart_noLeadingSpace s : noLeadingSpace (trimStart s).
Proof.
  induction s as [|c r IH]; simpl; [exact I|].
  destruct (is_space c) eqn:E; [exact IH | exact E].
Qed.

Lemma trimStart_fixed s : noLeadingSpace s -> trimStart s = s.
Proof.
  destruct s as [|c r]; simpl; [reflexivity|].
  intros ->. reflexivity.
Qed.

Lemma trimEnd_noLeadingSpace s : noLeadingSpace s -> noLeadingSpace (trimEnd s).
Proof.
  destruct s as [|c r]; simpl; [exact (fun H => H)|].
  intros E. rewrite E. simpl. exact E.
Qed.

Lemma trimEnd_idempotent s : trimEnd (trimEnd s) = trimEnd s.
Proof.
  induction s as [|c r IH]; simpl; [reflexivity|].
  destruct (is_space c && is_empty (trimEnd r)) eqn:E; [reflexivity|].
  simpl. rewrite IH, E. reflexivity.
Qed.

Lemma trim_noLeadingSpace s : noLeadingSpace (trim s).
Proof.
  apply trimEnd_noLeadingSpace, trimStart_noLeadingSpace.
Qed.

(** Trimming twice is trimming once. *)
Lemma trim_idempotent s : trim (trim s) = trim s.
Proof.
  unfold trim at 1.
  rewrite (trimStart_fixed (trim s)) by apply trim_noLeadingSpace.
  unfold trim. apply trimEnd_idempotent.
Qed.

Variable P : ascii -> bool.

Lemma forallb_trimStart s : forallb P s = true -> forallb P (trimStart s) = true.
Proof.
  induction s as [|c r IH]; simpl; [reflexivity|].
  intros H. apply andb_prop in H as [Hc Hr].
  destruct (is_space c); [exact (IH Hr)|].
  simpl. rewrite Hc, Hr. reflexivity.
Qed.

Lemma forallb_trimEnd s : forallb P s = true -> forallb P (trimEnd s) = true.
Proof.
  induction s as [|c r IH]; simpl; [reflexivity|].
  intros H. apply andb_prop in H as [Hc Hr].
  destruct (is_space c && is_empty (trimEnd r)); [reflexivity|].
  simpl. rewrite Hc, (IH Hr). reflexivity.
Qed.

Lemma forallb_trim s : forallb P s = true -> forallb P (trim s) = true.
Proof.
  intros H. apply forallb_trimEnd, forallb_trimStart, H.
Qed.

Lemma forallb_takeWhile_self s : forallb P (takeWhile P s) = true.
Proof.
  induction s as [|c r IH]; simpl; [reflexivity|].
  destruct (P c) eqn:E; simpl; [rewrite E, IH|]; reflexivity.
Qed.

Lemma forallb_takeWhile Q s :
  forallb P s = true -> forallb P (takeWhile Q s) = true.
Proof.
  induction s as [|c r IH]; simpl; [reflexivity|].
  intros H. apply andb_prop in H as [Hc Hr].
  destruct (Q c); simpl; [rewrite Hc, (IH Hr)|]; reflexivity.
Qed.

(** The pieces of [split] hold no separator. *)
Lemma split_pieces_clean s :
  Forall (fun piece => forallb (fun c => negb (P c)) piece = true)
    (split P s).
Proof.
  induction s as [|c r IH]; simpl.
  - constructor; [reflexivity | constructor].
  - destruct (P c) eqn:E.
    + constructor; [reflexivity | exact IH].
    + destruct (split P r) as [|h t]; inversion IH; subst.
      * constructor; [simpl; rewrite E; reflexivity | constructor].
      * constructor; [simpl; rewrite E; simpl; assumption | assumption].
Qed.

Lemma forallb_negb_existsb s :
  forallb (fun c => negb (P c)) s = true -> existsb P s = false.
Proof.
  induction s as [|c r IH]; simpl; [reflexivity|].
  intros H. apply andb_prop in H as [Hc Hr].
  apply negb_true_iff in Hc. rewrite Hc, (IH Hr). reflexivity.
Qed.

End Trimming.

Lemma medicationName_nameOfPiece piece :
  medicationName piece = nameOfPiece piece.
Proof.
  unfold medicationName, nameOfPiece.
  pose proof (trim_noLeadingSpace piece) as L.
  destruct (JsString.trim piece) as [|c r]; [reflexivity|].
  simpl in L. cbn [JsString.takeWhile]. unfold isNameChar at 1.
  rewrite L, orb_false_r.
  destruct (JsString.is_alpha c); reflexivity.
Qed.

Lemma medicationName_wellFormed piece :
  JsString.forallb (fun c => negb (isCommaOrNewline c)) piece = true ->
  medicationName piece <> EmptyString ->
  wellFormedName (medicationName piece).
Proof.
  intros Clean NE. split; [exact NE|].
  rewrite medicationName_nameOfPiece in *. unfold nameOfPiece in *.
  pose proof (trim_idempotent piece) as I.
  pose proof (forallb_trim _ piece Clean) as C.
  destruct (JsString.trim piece) as [|c r] eqn:T; [congruence|].
  destruct (JsString.is_alpha c) eqn:A.
  - split; [apply trim_idempotent|]. split.
    + apply forallb_negb_existsb, forallb_trim, forallb_takeWhile, C.
    + left. apply forallb_trim, forallb_takeWhile_self.
  - split; [exact I|]. split.
    + apply forallb_negb_existsb, C.
    + right. exists c. split; [reflexivity | exact A].
Qed.

(** C5, as the code has it.  The prescription is split on commas and line
    breaks and each piece is trimmed; the name of a piece that starts with
    a letter is its leading run of letters and white space, trimmed, and
    the name of any other piece is the whole trimmed piece; empty names
    are dropped.  Every name returned is well formed in the sense above.
    On "Lisinopril 10mg, Metformin 500mg" the result is
    ["Lisinopril", "Metformin"]. *)
Theorem extractMedications_contract :
  extractMedicationsFromPrescription "Lisinopril 10mg, Metformin 500mg"
    = ["Lisinopril"; "Metformin"]
  /\
  forall prescription : string,
    extractMedicationsFromPrescription prescription
      = filter (fun med => negb (JsString.is_empty med))
          (map nameOfPiece (JsString.split isCommaOrNewline prescription))
    /\
    Forall wellFormedName (extractMedicationsFromPrescription prescription).
Proof.
  split; [reflexivity|].
  intros prescription. split.
  - unfold extractMedicationsFromPrescription. f_equal.
    apply map_ext. exact medicationName_nameOfPiece.
  - unfold extractMedicationsFromPrescription.
    pose proof (split_pieces_clean isCommaOrNewline prescription) as C.
    induction C as [|piece l Hp _ IH]; simpl; [constructor|].
    destruct (medicationName piece) as [|c r] eqn:E; simpl; [exact IH|].
    constructor; [|exact IH].
    rewrite <- E. apply medicationName_wellFormed; [exact Hp|].
    rewrite E. discriminate.
Qed.

(** C5 as stated fails: the name kept is not the leading alphabetic run.
    A second word belongs to the name, and a piece that starts with a
    digit is kept whole. *)
Lemma extractMedications_not_alphabetic_run :
  extractMedicationsFromPrescription "Aspirin daily 10mg, 10mg Ibuprofen"
    = ["Aspirin daily"; "10mg Ibuprofen"] /\
  extractMedications_spec "Aspirin daily 10mg, 10mg Ibuprofen"
    = ["Aspirin"] /\
  extractMedicationsFromPrescription "Aspirin daily 10mg, 10mg Ibuprofen"
    <> extractMedications_spec "Aspirin daily 10mg, 10mg Ibuprofen".
Proof.
  repeat split. vm_compute. discriminate.
Qed.

(* ================================================================== *)
(** * The graph adapter's fall-back and the second revision's orchestrator *)
(* ================================================================== *)

Lemma find_absent {A} (f : A -> bool) l :
  (forall x, In x l -> f x = false) -> List.find f l = None.
Proof.
  induction l as [|x l IH]; simpl; [reflexivity|].
  intros H. rewrite (H x (or_introl eq_refl)).
  apply IH. intros y Hy. apply H. right; exact Hy.
Qed.

(** C8.  [searchPrescriptionByHash] never throws.  For a fingerprint that
    no ledger record carries (every fingerprint in the ledger was put
    there by [storeOnBlockchain] or [updateOnBlockchain], so this covers
    any fingerprint those never produced) it returns [null], whatever the
    state of the graph adapter; the dictionaries and the result objects
    stay as they are. *)
Theorem search_unknown_fingerprint_returns_null :
  forall (w : V2.World) (s : V2.State) (hash : string),
    succeeded (fst (V2.searchPrescriptionByHash w hash s)) = true
    /\
    ((forall r, In r (JsObj.values (V2.blockchainRecords s)) ->
                r_hash r <> hash) ->
     exists s',
       V2.searchPrescriptionByHash w hash s = (Return None, s') /\
       V2.heap s' = V2.heap s /\
       V2.resultsStore s' = V2.resultsStore s /\
       V2.blockchainRecords s' = V2.blockchainRecords s /\
       V2.mockGraphData s' = V2.mockGraphData s).
Proof.
  intros w s hash. split.
  - unfold V2.searchPrescriptionByHash, tryCatch.
    destruct (V2.getPrescriptionFromHash w hash s) as [[v|e] s'];
      reflexivity.
  - intros H.
    exists (ensured w s).
    destruct (ensured_frame w s) as (Hh & Hr & L & Hm).
    split; [|auto].
    unfold V2.searchPrescriptionByHash, V2.getPrescriptionFromHash, tryCatch.
    unfold bind at 1. rewrite ensure_returns.
    unfold bind, gets. unfold JsObj.findValue. rewrite L.
    rewrite find_absent; [reflexivity|].
    intros r Hr'. apply String.eqb_neq. apply H. exact Hr'.
Qed.

Lemma search_unknown_fingerprint_returns_null_witness :
  fst (V2.searchPrescriptionByHash
         (world2At 1735725700000 "aaaaaaa" "2025-01-01T10:01:40.000Z")
         "0badcafe" afterAlice2)
  = Return None.
Proof.
  destruct (proj2 (search_unknown_fingerprint_returns_null
                     (world2At 1735725700000 "aaaaaaa"
                        "2025-01-01T10:01:40.000Z")
                     afterAlice2 "0badcafe")) as (s' & E & _).
  - intros r H. vm_compute in H. destruct H as [<-|[]].
    vm_compute. discriminate.
  - rewrite E. reflexivity.
Defined.

(** The fingerprint Alice's record was stored under is found again. *)
Example search_stored_fingerprint_finds_record :
  exists r,
    option_map r_hash (JsObj.get aliceId (V2.blockchainRecords afterAlice2))
      = Some (generateHash r) /\
    fst (V2.searchPrescriptionByHash
           (world2At 1735725700000 "aaaaaaa" "2025-01-01T10:01:40.000Z")
           (generateHash r) afterAlice2)
    = Return (Some (set_blockchainStatus "Recorded" r)).
Proof.
  exists (newResult aliceId formAlice sampleAnalysis
            "2025-01-01T10:00:00.000Z" "2025-01-01T10:00:00.000Z").
  split; vm_compute; reflexivity.
Qed.

(** C3 does not hold in the fall-back.  With [driver] null the history
    query for Bob returns Alice's prescription: the fall-back ignores
    [patientInfo], although the entry it reads records whose it is and the
    connected branch asks for the patient's name.  And Alice's own
    history comes oldest first, in the order of the dictionary, where the
    connected branch orders by time stamp, latest first. *)
Example history_fallback_ignores_patient_and_order :
  V2.driver afterAliceTwice2 = None /\
  map (fun e => p_name (snd e)) (JsObj.values (V2.mockGraphData afterAlice2))
    = ["Alice"] /\
  List.existsb (ownedBy "Bob") (JsObj.values (V2.mockGraphData afterAlice2))
    = false /\
  (exists l,
     fst (V2.getPatientPrescriptionHistory
            (world2At 1735725700000 "aaaaaaa" "2025-01-01T10:01:40.000Z")
            patientBob afterAlice2) = Return l /\
     map originalPrescription l = ["Lisinopril 10mg, Metformin 500mg"]) /\
  (exists l,
     fst (V2.getPatientPrescriptionHistory
            (world2At 1735729300000 "bbbbbbb" "2025-01-01T11:01:40.000Z")
            patientAlice afterAliceTwice2) = Return l /\
     map timestamp l
       = ["2025-01-01T10:00:00.000Z"; "2025-01-01T11:00:00.000Z"]).
Proof.
  split; [reflexivity|]. split; [vm_compute; reflexivity|].
  split; [vm_compute; reflexivity|].
  split; eexists; split; vm_compute; reflexivity.
Qed.

(** C4, as the code has it.  [getPatientHistory] never throws: when the
    adapter's query throws it returns the empty sequence.  With [driver]
    null no query is made: it returns results held in the in-memory
    fall-back dictionary, the empty sequence when that dictionary is
    empty.  With [driver] null a submission returns whenever the model
    answers, whatever the connection attempt made during it does: the
    result is in the results store with [blockchainStatus = "Recorded"]
    and the submitted text, and the ledger has a record under its id. *)
Theorem degraded_graph_history_and_submit :
  forall (w : V2.World) (s : V2.State),
    (forall p, succeeded (fst (V2.getPatientHistory w p s)) = true)
    /\
    (forall p e,
       V2.driver s <> None ->
       V2.historyQuery w (p_name p) = Throw e ->
       V2.getPatientHistory w p s = (Return [], s))
    /\
    (V2.driver s = None ->
     (forall p,
        exists l,
          V2.getPatientHistory w p s = (Return l, s) /\
          incl l (map (fun data => V2.deref (V2.heap s) (fst data))
                    (JsObj.values (V2.mockGraphData s))) /\
          (V2.mockGraphData s = [] -> l = []))
     /\
     (forall formData,
        (forall history, succeeded (V2.modelAnswer w history) = true) ->
        let aid := analysisId (V2.dateNow w) (V2.randomSuffix w) in
        exists s' ref,
          V2.analyzePrescription w formData s = (Return tt, s') /\
          JsObj.get aid (V2.resultsStore s') = Some ref /\
          blockchainStatus (V2.deref (V2.heap s') ref) = "Recorded" /\
          originalPrescription (V2.deref (V2.heap s') ref)
            = f_prescription formData /\
          JsObj.has aid (V2.blockchainRecords s') = true)).
Proof.
  intros w s. split; [|split].
  - intros p. unfold V2.getPatientHistory, tryCatch.
    destruct (V2.getPatientPrescriptionHistory w p s) as [[l|e] s'];
      reflexivity.
  - intros p e D Q.
    unfold V2.getPatientHistory, V2.getPatientPrescriptionHistory. run.
    destruct (V2.driver s) as [d|] eqn:E; [|contradiction].
    run. rewrite E, Q. reflexivity.
  - intros D. split.
    + intros p. eexists. split.
      * unfold V2.getPatientHistory, tryCatch.
        rewrite (V2_history_fallback w p s D). reflexivity.
      * split; [apply incl_refl|]. intros ->. reflexivity.
    + intros formData A aid.
      pose proof (V2_history_fallback w (V2.patientKey formData) s D) as Hh.
      specialize (A (map (fun data => V2.deref (V2.heap s) (fst data))
                       (JsObj.values (V2.mockGraphData s)))).
      destruct (V2.modelAnswer w _) as [analysis|e] eqn:Ha;
        [|discriminate A].
      destruct (V2_submit_after_history w formData s _ analysis Hh Ha)
        as (s' & E & G & R & L).
      exists s', (List.length (V2.heap s)).
      split; [exact E|].
      rewrite G, R, L, deref_alloc. unfold JsObj.has.
      rewrite !get_set_same. simpl. repeat split.
Qed.

Lemma degraded_graph_history_and_submit_witness :
  (exists l,
     V2.getPatientHistory
       (world2At 1735725700000 "aaaaaaa" "2025-01-01T10:01:40.000Z")
       patientAlice V2.init = (Return l, V2.init) /\ l = []) /\
  (exists s',
     V2.analyzePrescription
       (world2At 1735725600000 "k3j9x2a" "2025-01-01T10:00:00.000Z")
       formAlice V2.init = (Return tt, s')).
Proof.
  split.
  - destruct (proj1 (proj2 (proj2 (degraded_graph_history_and_submit
                (world2At 1735725700000 "aaaaaaa" "2025-01-01T10:01:40.000Z")
                V2.init)) eq_refl) patientAlice) as (l & E & _ & N).
    exists l. split; [exact E | apply N; reflexivity].
  - destruct (proj2 (proj2 (proj2 (degraded_graph_history_and_submit
                (world2At 1735725600000 "k3j9x2a" "2025-01-01T10:00:00.000Z")
                V2.init)) eq_refl) formAlice (fun _ => eq_refl))
      as (s' & ref & E & _).
    exists s'. exact E.
Defined.

(** C4 as stated fails: with [driver] null, once Alice's prescription is
    in the fall-back dictionary her history is not empty. *)
Lemma degraded_history_is_not_empty :
  V2.driver afterAlice2 = None /\
  fst (V2.getPatientHistory
         (world2At 1735725700000 "aaaaaaa" "2025-01-01T10:01:40.000Z")
         patientAlice afterAlice2)
    <> Return [].
Proof.
  split; [reflexivity|]. vm_compute. discriminate.
Qed.

(** With the driver made but the database out of reach, [driver] is not
    null after the first connection attempt; the next submission's history
    query throws and the submission fails. *)
Example unreachable_database_after_first_attempt :
  let w := world2 1735725600000 "k3j9x2a" V2.Unreachable in
  let s1 := snd (V2.analyzePrescription w formAlice V2.init) in
  fst (V2.analyzePrescription w formAlice V2.init) = Return tt /\
  V2.driver s1 = Some V2.TheDriver /\
  fst (V2.getPatientHistory w patientAlice s1) = Return [] /\
  fst (V2.analyzePrescription
         (world2 1735725700000 "zzzzzzz" V2.Unreachable) formBob s1)
    = Throw AnalysisFailed.
Proof. vm_compute. repeat split. Qed.

(* ================================================================== *)
(** * Further properties *)
(* ================================================================== *)

Lemma toInt32_shift z k : toInt32 (z + k * 2 ^ 32) = toInt32 z.
Proof.
  unfold toInt32.
  replace (z + k * 2 ^ 32 + 2 ^ 31)%Z with (z + 2 ^ 31 + k * 2 ^ 32)%Z by lia.
  rewrite Z.mod_add by lia. reflexivity.
Qed.

Lemma toInt32_decompose z : exists k, toInt32 z = (z + k * 2 ^ 32)%Z.
Proof.
  exists (- ((z + 2 ^ 31) / 2 ^ 32))%Z. unfold toInt32.
  rewrite Z.mod_eq by lia. lia.
Qed.

(** One turn of the checksum loop is [acc * 31 + charCode] cut to a signed
    32-bit integer, as the design document words it. *)
Theorem hashStep_is_times31_plus_char :
  forall (hash : Z) (c : ascii),
    hashStep hash c = toInt32 (hash * 31 + JsString.charCode c) /\
    (- 2 ^ 31 <= hashStep hash c < 2 ^ 31)%Z.
Proof.
  intros hash c.
  assert (E : hashStep hash c = toInt32 (hash * 31 + JsString.charCode c)).
  { unfold hashStep. rewrite Z.land_diag.
    destruct (toInt32_decompose hash) as [k1 E1].
    rewrite E1, Z.shiftl_mul_pow2 by lia.
    destruct (toInt32_decompose ((hash + k1 * 2 ^ 32) * 2 ^ 5)) as [k2 E2].
    rewrite E2.
    replace ((hash + k1 * 2 ^ 32) * 2 ^ 5 + k2 * 2 ^ 32 - hash
             + JsString.charCode c)%Z
      with (hash * 31 + JsString.charCode c + (k1 * 32 + k2) * 2 ^ 32)%Z
      by lia.
    apply toInt32_shift. }
  split; [exact E|].
  rewrite E. unfold toInt32.
  pose proof (Z.mod_pos_bound (hash * 31 + JsString.charCode c + 2 ^ 31)
                (2 ^ 32) ltac:(lia)).
  lia.
Qed.

(** When the driver object is made but [verifyConnectivity] throws,
    [initNeo4j] returns [null] and leaves [driver] set.  From then on the
    adapter takes the connected branch: a submission whose history query
    throws fails with "Failed to analyze prescription" before anything is
    stored. *)
Theorem unreachable_database_leaves_driver_set :
  forall (w : V2.World) (s : V2.State),
    (V2.connect w = V2.Unreachable ->
     V2.initNeo4j w s = (Return None, V2.with_driver (Some V2.TheDriver) s))
    /\
    (forall formData e,
       V2.driver s <> None ->
       V2.historyQuery w (f_name formData) = Throw e ->
       V2.analyzePrescription w formData s = (Throw AnalysisFailed, s)).
Proof.
  intros w s. split.
  - intros C. unfold V2.initNeo4j. rewrite C. reflexivity.
  - intros formData e D Q.
    unfold V2.analyzePrescription, V2.getPatientPrescriptionHistory. run.
    destruct (V2.driver s) as [d|] eqn:E; [|contradiction].
    run. rewrite E. simpl. rewrite Q. reflexivity.
Qed.

Lemma unreachable_database_leaves_driver_set_witness :
  let w := world2 1735725700000 "zzzzzzz" V2.Unreachable in
  let s1 := V2.with_driver (Some V2.TheDriver) V2.init in
  V2.initNeo4j w V2.init = (Return None, s1) /\
  V2.analyzePrescription w formBob s1 = (Throw AnalysisFailed, s1).
Proof.
  split.
  - apply (proj1 (unreachable_database_leaves_driver_set
                    (world2 1735725700000 "zzzzzzz" V2.Unreachable)
                    V2.init)).
    reflexivity.
  - apply (proj2 (unreachable_database_leaves_driver_set
                    (world2 1735725700000 "zzzzzzz" V2.Unreachable)
                    (V2.with_driver (Some V2.TheDriver) V2.init))
             formBob (External "ServiceUnavailable")).
    + discriminate.
    + reflexivity.
Defined.

(* ================================================================== *)
(** * The shape of a fingerprint *)
(* ================================================================== *)

Lemma toInt32_range z : (- 2 ^ 31 <= toInt32 z < 2 ^ 31)%Z.
Proof.
  unfold toInt32.
  pose proof (Z.mod_pos_bound (z + 2 ^ 31) (2 ^ 32) ltac:(lia)). lia.
Qed.

Lemma hashStep_range h c : (- 2 ^ 31 <= hashStep h c < 2 ^ 31)%Z.
Proof.
  unfold hashStep. rewrite Z.land_diag. apply toInt32_range.
Qed.

Lemma hashLoop_range str :
  forall h, (- 2 ^ 31 <= h < 2 ^ 31)%Z ->
            (- 2 ^ 31 <= hashLoop h str < 2 ^ 31)%Z.
Proof.
  induction str as [|c r IH]; intros h H; simpl; [exact H|].
  apply IH, hashStep_range.
Qed.

Lemma hex_acc_lower l :
  forall acc,
    (Npos acc * 16 ^ N.of_nat (Hexadecimal.nb_digits l)
     <= Npos (Pos.of_hex_uint_acc l acc))%N.
Proof.
  induction l; intros acc; [simpl; lia|..];
    cbn [Hexadecimal.nb_digits Pos.of_hex_uint_acc];
    rewrite Nat2N.inj_succ, N.pow_succ_r';
    match goal with
    | |- (_ <= Npos (Pos.of_hex_uint_acc _ ?a))%N => specialize (IHl a)
    end;
    apply N.le_trans with (2 := IHl);
    rewrite N.mul_assoc; apply N.mul_le_mono_r; lia.
Qed.

(** A number below 16^8 has at most eight hexadecimal digits. *)
Lemma hex_digits_bound n :
  (n < 16 ^ 8)%N -> Hexadecimal.nb_digits (N.to_hex_uint n) <= 8.
Proof.
  intros B.
  pose proof (HexadecimalN.Unsigned.of_to n) as O.
  destruct n as [|p]; [simpl; lia|].
  assert (U : Hexadecimal.unorm (N.to_hex_uint (Npos p))
              = N.to_hex_uint (Npos p)).
  { rewrite <- O at 2. symmetry. apply HexadecimalN.Unsigned.to_of. }
  remember (N.to_hex_uint (Npos p)) as d eqn:D.
  assert (L : forall l acc,
            N.of_hex_uint d = Npos (Pos.of_hex_uint_acc l acc) ->
            Hexadecimal.nb_digits l < 8).
  { intros l acc E. rewrite O in E.
    pose proof (hex_acc_lower l acc) as A. rewrite <- E in A.
    destruct (Nat.lt_ge_cases (Hexadecimal.nb_digits l) 8) as [|G];
      [assumption|].
    exfalso.
    assert (16 ^ 8 <= 16 ^ N.of_nat (Hexadecimal.nb_digits l))%N
      by (apply N.pow_le_mono_r; lia).
    assert (1 * 16 ^ N.of_nat (Hexadecimal.nb_digits l)
            <= N.pos acc * 16 ^ N.of_nat (Hexadecimal.nb_digits l))%N
      by (apply N.mul_le_mono_r; lia).
    lia. }
  destruct d; cbn [Hexadecimal.nb_digits];
    try (apply (L _ _ eq_refl)).
  - lia.
  - (* a leading zero: the digits are normalised, so this is "0" *)
    rewrite HexadecimalFacts.unorm_D0 in U.
    pose proof (HexadecimalFacts.nb_digits_unorm d) as NB.
    destruct d; try (rewrite U in NB; cbn [Hexadecimal.nb_digits] in NB;
                     specialize (NB ltac:(discriminate)); lia).
Qed.

Lemma length_hex_uint d :
  d <> Hexadecimal.Nil ->
  String.length (HexadecimalString.NilZero.string_of_uint d)
    = Hexadecimal.nb_digits d.
Proof.
  assert (E : forall u,
            String.length (HexadecimalString.NilEmpty.string_of_uint u)
              = Hexadecimal.nb_digits u)
    by (induction u; simpl; congruence).
  destruct d; intros N; try contradiction; apply E.
Qed.

Lemma hex_uint_digits d :
  JsString.forallb isHexDigit
    (HexadecimalString.NilZero.string_of_uint d) = true.
Proof.
  assert (E : forall u,
            JsString.forallb isHexDigit
              (HexadecimalString.NilEmpty.string_of_uint u) = true)
    by (induction u; simpl; auto).
  destruct d; try apply E. reflexivity.
Qed.

Lemma length_repeat0 n : String.length (JsString.repeat0 n) = n.
Proof. induction n; simpl; congruence. Qed.

Lemma length_append s t :
  String.length (s ++ t) = String.length s + String.length t.
Proof. induction s; simpl; congruence. Qed.

Lemma forallb_append P s t :
  JsString.forallb P (s ++ t)
    = JsString.forallb P s && JsString.forallb P t.
Proof.
  induction s as [|c r IH]; simpl; [reflexivity|].
  rewrite IH, andb_assoc. reflexivity.
Qed.

Lemma forallb_repeat0 n : JsString.forallb isHexDigit (JsString.repeat0 n) = true.
Proof. induction n; simpl; auto. Qed.

(** X3.  Whatever text is hashed, the fingerprint has exactly eight
    characters, each a digit or one of the letters a to f. *)
Theorem fingerprint_is_eight_hex_digits :
  forall str : string,
    String.length (hashString str) = 8 /\
    JsString.forallb isHexDigit (hashString str) = true.
Proof.
  intros str. unfold hashString, JsString.padStart0, JsString.hex.
  pose proof (hashLoop_range str 0%Z ltac:(lia)) as R.
  set (n := Z.to_N (Z.abs (hashLoop 0 str))).
  assert (B : (n < 16 ^ 8)%N).
  { unfold n. change (16 ^ 8)%N with (Z.to_N (2 ^ 32)).
    apply Z2N.inj_lt; lia. }
  pose proof (hex_digits_bound n B) as D.
  assert (NN : N.to_hex_uint n <> Hexadecimal.Nil).
  { destruct n; [discriminate|].
    apply HexadecimalPos.Unsigned.to_uint_nonnil. }
  split.
  - rewrite length_append, length_repeat0, length_hex_uint by exact NN.
    lia.
  - rewrite forallb_append, forallb_repeat0, hex_uint_digits. reflexivity.
Qed.

(* ================================================================== *)
(** * What is left of the answer after cleaning *)
(* ================================================================== *)

Section Cleaning.

Import AI.

Variable m : string -> option nat.
Hypothesis m_anchored : fenceAnchored m.
Hypothesis m_complete : fenceComplete m.

Let removeAll_cons c r :
  JsString.removeAll m 0 (String c r)
  = match m (String c r) with
    | Some (S k) => JsString.removeAll m k r
    | _ => String c (JsString.removeAll m 0 r)
    end.
Proof. reflexivity. Qed.

Let kept_when_no_backtick c r :
  Ascii.eqb "`" c = false ->
  JsString.removeAll m 0 (String c r)
  = String c (JsString.removeAll m 0 r).
Proof.
  intros E. rewrite removeAll_cons.
  rewrite (m_anchored (String c r)); [reflexivity|].
  cbn [JsString.startsWith fence]. rewrite E. reflexivity.
Qed.

Let one_backtick r :
  JsString.startsWith "`" r = false ->
  JsString.startsWith "`" (JsString.removeAll m 0 r) = false.
Proof.
  destruct r as [|y r2]; [reflexivity|].
  cbn [JsString.startsWith]. rewrite andb_true_r. intros E.
  rewrite (kept_when_no_backtick y r2 E).
  cbn [JsString.startsWith]. rewrite E. reflexivity.
Qed.

Let two_backticks r :
  JsString.startsWith "``" r = false ->
  JsString.startsWith "``" (JsString.removeAll m 0 r) = false.
Proof.
  destruct r as [|x r1]; [reflexivity|].
  cbn [JsString.startsWith]. intros E.
  assert (K : JsString.removeAll m 0 (String x r1)
              = String x (JsString.removeAll m 0 r1)).
  { rewrite removeAll_cons.
    rewrite (m_anchored (String x r1)); [reflexivity|].
    cbn [JsString.startsWith fence].
    destruct (Ascii.eqb "`" x); [|reflexivity].
    cbn [andb] in *.
    destruct r1 as [|y r2]; [reflexivity|].
    cbn [JsString.startsWith] in *.
    destruct (Ascii.eqb "`" y); [discriminate E | reflexivity]. }
  rewrite K. cbn [JsString.startsWith].
  destruct (Ascii.eqb "`" x); [|reflexivity].
  cbn [andb] in *. apply one_backtick. exact E.
Qed.

(** A character that is kept does not become the start of a marker. *)
Let kept_starts_no_fence c r :
  JsString.startsWith fence (String c r) = false ->
  JsString.startsWith fence (String c (JsString.removeAll m 0 r)) = false.
Proof.
  cbn [JsString.startsWith fence].
  destruct (Ascii.eqb "`" c); [|reflexivity].
  cbn [andb]. apply two_backticks.
Qed.

(** Removing a pattern that matches exactly at the markers leaves no
    marker. *)
Lemma removeAll_leaves_no_fence s :
  forall skip, hasFence (JsString.removeAll m skip s) = false.
Proof.
  induction s as [|c r IH]; intros skip; [destruct skip; reflexivity|].
  destruct skip as [|k]; [|exact (IH k)].
  rewrite removeAll_cons.
  destruct (JsString.startsWith fence (String c r)) eqn:F.
  - destruct (m_complete _ F) as [k E]. rewrite E. apply IH.
  - rewrite (m_anchored _ F).
    cbn [hasFence]. rewrite (kept_starts_no_fence c r F), (IH 0).
    reflexivity.
Qed.

End Cleaning.

Lemma matchFenceNl_complete : fenceComplete AI.matchFenceNl.
Proof.
  intros s H. unfold AI.matchFenceNl. rewrite H.
  destruct (JsString.startsWith (String newline EmptyString)
              (String.substring 3 1 s)); eexists; reflexivity.
Qed.

Lemma matchFenceJsonOrFence_complete : fenceComplete AI.matchFenceJsonOrFence.
Proof.
  intros s H. unfold AI.matchFenceJsonOrFence. rewrite H.
  destruct (JsString.startsWith AI.fenceJson s); eexists; reflexivity.
Qed.

Lemma hasFence_tail c r : AI.hasFence (String c r) = false -> AI.hasFence r = false.
Proof.
  cbn [AI.hasFence]. intros H. apply orb_false_elim in H as [_ H]. exact H.
Qed.

Lemma hasFence_trimStart s :
  AI.hasFence s = false -> AI.hasFence (JsString.trimStart s) = false.
Proof.
  induction s as [|c r IH]; [reflexivity|].
  intros H. cbn [JsString.trimStart].
  destruct (JsString.is_space c); [|exact H].
  apply IH, (hasFence_tail c r H).
Qed.

Lemma startsWith_trimEnd s :
  forall p, JsString.startsWith p (JsString.trimEnd s) = true ->
            JsString.startsWith p s = true.
Proof.
  induction s as [|c r IH]; intros p; [exact (fun H => H)|].
  cbn [JsString.trimEnd].
  destruct (JsString.is_space c && JsString.is_empty (JsString.trimEnd r)).
  - destruct p; [reflexivity | discriminate].
  - destruct p as [|a p]; [reflexivity|].
    cbn [JsString.startsWith]. intros H.
    apply andb_prop in H as [H1 H2]. rewrite H1, (IH p H2). reflexivity.
Qed.

Lemma startsWith_cons a p c r :
  JsString.startsWith (String a p) (String c r)
  = Ascii.eqb a c && JsString.startsWith p r.
Proof. reflexivity. Qed.

Lemma hasFence_trimEnd s :
  AI.hasFence s = false -> AI.hasFence (JsString.trimEnd s) = false.
Proof.
  induction s as [|c r IH]; [reflexivity|].
  intros H. cbn [AI.hasFence] in H. apply orb_false_elim in H as [H1 H2].
  cbn [JsString.trimEnd].
  destruct (JsString.is_space c && JsString.is_empty (JsString.trimEnd r));
    [reflexivity|].
  cbn [AI.hasFence]. rewrite (IH H2), orb_false_r.
  unfold AI.fence in *. rewrite startsWith_cons in *.
  destruct (Ascii.eqb "`" c); [|reflexivity].
  cbn [andb] in *.
  destruct (JsString.startsWith "``" (JsString.trimEnd r)) eqn:E;
    [|reflexivity].
  apply startsWith_trimEnd in E. congruence.
Qed.

Lemma hasFence_trim s :
  AI.hasFence s = false -> AI.hasFence (JsString.trim s) = false.
Proof.
  intros H. apply hasFence_trimEnd, hasFence_trimStart, H.
Qed.

(** X4.  Whatever the model sends, the text both revisions hand to
    [JSON.parse] holds no code-fence marker and has no white space around
    it, and cleaning it once more changes nothing. *)
Theorem cleaned_answer_has_no_fence :
  forall analysisText : string,
    (AI.hasFence (AI.cleanV1 analysisText) = false /\
     JsString.trim (AI.cleanV1 analysisText) = AI.cleanV1 analysisText /\
     AI.cleanV1 (AI.cleanV1 analysisText) = AI.cleanV1 analysisText)
    /\
    (AI.hasFence (AI.cleanV2 analysisText) = false /\
     JsString.trim (AI.cleanV2 analysisText) = AI.cleanV2 analysisText /\
     AI.cleanV2 (AI.cleanV2 analysisText) = AI.cleanV2 analysisText).
Proof.
  intros t.
  assert (F1 : AI.hasFence (AI.cleanV1 t) = false).
  { apply hasFence_trim, removeAll_leaves_no_fence.
    - exact matchFenceNl_anchored.
    - exact matchFenceNl_complete. }
  assert (F2 : AI.hasFence (AI.cleanV2 t) = false).
  { apply hasFence_trim, removeAll_leaves_no_fence.
    - exact matchFenceJsonOrFence_anchored.
    - exact matchFenceJsonOrFence_complete. }
  assert (T1 : JsString.trim (AI.cleanV1 t) = AI.cleanV1 t)
    by apply trim_idempotent.
  assert (T2 : JsString.trim (AI.cleanV2 t) = AI.cleanV2 t)
    by apply trim_idempotent.
  repeat split; try assumption.
  - rewrite (cleanV1_plain _ F1). exact T1.
  - rewrite (cleanV2_plain _ F2). exact T2.
Qed.

(* ================================================================== *)
(** * The two schemas *)
(* ================================================================== *)

(** X5.  The second revision's schema is the first one's plus two
    required properties.  What it accepts the first accepts, with the same
    status, issues, suggestions and counters; an object the first accepts
    is refused by the second exactly when [imageAnalysis] or
    [historyReference] is missing or neither a string nor [null].  Only
    the six listed keys are read: two objects that agree on them are
    treated alike, so no other key of the answer reaches the result. *)
Theorem second_schema_refines_first :
  (forall (j : json) (a : AnalysisResult),
     AI.analysisSchemaV2 j = Some a ->
     AI.analysisSchemaV1 j = Some (withoutExtras a))
  /\
  (forall (f : list (string * json)) (a : AnalysisResult),
     AI.analysisSchemaV1 (JObj f) = Some a ->
     AI.analysisSchemaV2 (JObj f) =
     match AI.zNullableString (AI.lookup "imageAnalysis" f),
           AI.zNullableString (AI.lookup "historyReference" f) with
     | Some ia, Some hr =>
         Some {| a_status := a_status a; a_issues := a_issues a;
                 a_suggestions := a_suggestions a;
                 a_dataSources := a_dataSources a;
                 a_imageAnalysis := Some ia;
                 a_historyReference := Some hr |}
     | _, _ => None
     end)
  /\
  (forall f g : list (string * json),
     (forall k, In k schemaKeys -> AI.lookup k f = AI.lookup k g) ->
     AI.analysisSchemaV2 (JObj f) = AI.analysisSchemaV2 (JObj g) /\
     AI.analysisSchemaV1 (JObj f) = AI.analysisSchemaV1 (JObj g)).
Proof.
  split; [|split].
  - intros j a. destruct j; try discriminate.
    unfold AI.analysisSchemaV2, AI.analysisSchemaV1, AI.optBind.
    destruct (AI.zStatus _); [|discriminate].
    destruct (AI.zArray AI.zIssue _); [|discriminate].
    destruct (AI.zArray AI.zSuggestion _); [|discriminate].
    destruct (AI.zDataSources _); [|discriminate].
    destruct (AI.zNullableString _); [|discriminate].
    destruct (AI.zNullableString _); [|discriminate].
    intros [= <-]. reflexivity.
  - intros f a.
    unfold AI.analysisSchemaV2, AI.analysisSchemaV1, AI.optBind.
    destruct (AI.zStatus _); [|discriminate].
    destruct (AI.zArray AI.zIssue _); [|discriminate].
    destruct (AI.zArray AI.zSuggestion _); [|discriminate].
    destruct (AI.zDataSources _); [|discriminate].
    intros [= <-]. simpl.
    destruct (AI.zNullableString (AI.lookup "imageAnalysis" f));
      [|reflexivity].
    destruct (AI.zNullableString (AI.lookup "historyReference" f));
      reflexivity.
  - intros f g H.
    unfold AI.analysisSchemaV2, AI.analysisSchemaV1.
    rewrite (H "status"), (H "issues"), (H "suggestions"),
      (H "dataSources"), (H "imageAnalysis"), (H "historyReference")
      by (simpl; auto 10).
    split; reflexivity.
Qed.

Lemma second_schema_refines_first_witness :
  AI.analysisSchemaV1 sampleAnswer = Some sampleAnalysis /\
  AI.analysisSchemaV2
    (JObj [("status", JStr "valid"); ("issues", JArr []);
           ("suggestions", JArr []);
           ("dataSources",
            JObj [("vectorDbEntries", JNum 0); ("searchQueries", JNum 0)])])
  = None.
Proof.
  split.
  - apply (proj1 second_schema_refines_first sampleAnswer
             {| a_status := warning;
                a_issues := a_issues sampleAnalysis;
                a_suggestions := a_suggestions sampleAnalysis;
                a_dataSources := a_dataSources sampleAnalysis;
                a_imageAnalysis := Some None;
                a_historyReference :=
                  Some (Some "First prescription on record.") |}).
    reflexivity.
  - rewrite (proj1 (proj2 second_schema_refines_first)
               [("status", JStr "valid"); ("issues", JArr []);
                ("suggestions", JArr []);
                ("dataSources",
                 JObj [("vectorDbEntries", JNum 0);
                       ("searchQueries", JNum 0)])]
               {| a_status := valid; a_issues := []; a_suggestions := [];
                  a_dataSources :=
                    {| vectorDbEntries := 0; searchQueries := 0 |};
                  a_imageAnalysis := None; a_historyReference := None |});
      reflexivity.
Defined.

(* ================================================================== *)
(** * The medicine table *)
(* ================================================================== *)

Section MedicineTable.

Import JsString Tools.

Lemma is_space_toLowerChar c : is_space (toLowerChar c) = is_space c.
Proof. destruct c as [[] [] [] [] [] [] [] []]; reflexivity. Qed.

Lemma toLowerChar_idempotent c : toLowerChar (toLowerChar c) = toLowerChar c.
Proof. destruct c as [[] [] [] [] [] [] [] []]; reflexivity. Qed.

Lemma toLowerCase_idempotent s : toLowerCase (toLowerCase s) = toLowerCase s.
Proof.
  induction s as [|c r IH]; [reflexivity|].
  cbn [toLowerCase]. now rewrite toLowerChar_idempotent, IH.
Qed.

Lemma toLowerCase_trimStart s :
  toLowerCase (trimStart s) = trimStart (toLowerCase s).
Proof.
  induction s as [|c r IH]; [reflexivity|].
  cbn [toLowerCase trimStart]. rewrite is_space_toLowerChar.
  destruct (is_space c); [exact IH|reflexivity].
Qed.

Lemma is_empty_toLowerCase s : is_empty (toLowerCase s) = is_empty s.
Proof. destruct s; reflexivity. Qed.

Lemma toLowerCase_trimEnd s :
  toLowerCase (trimEnd s) = trimEnd (toLowerCase s).
Proof.
  induction s as [|c r IH]; [reflexivity|].
  cbn [toLowerCase trimEnd]. rewrite is_space_toLowerChar, <- IH.
  rewrite is_empty_toLowerCase.
  destruct (is_space c && is_empty (trimEnd r)); reflexivity.
Qed.

Lemma toLowerCase_trim s : toLowerCase (trim s) = trim (toLowerCase s).
Proof.
  unfold trim. now rewrite toLowerCase_trimEnd, toLowerCase_trimStart.
Qed.

Lemma normalize_trim s : normalize (trim s) = normalize s.
Proof.
  unfold normalize. rewrite toLowerCase_trim. apply trim_idempotent.
Qed.

Lemma normalize_toLowerCase s : normalize (toLowerCase s) = normalize s.
Proof. unfold normalize. now rewrite toLowerCase_idempotent. Qed.

Lemma normalize_blank s : trim s = EmptyString -> normalize s = EmptyString.
Proof.
  intros H. unfold normalize. rewrite <- toLowerCase_trim, H. reflexivity.
Qed.

Lemma searchVectorDatabase_trim s :
  searchVectorDatabase (trim s) = searchVectorDatabase s.
Proof. unfold searchVectorDatabase. now rewrite normalize_trim. Qed.

Lemma includes_first (n key : string) :
  includes n key = true ->
  forall rest : list (string * Medicine) ,
  forall m : Medicine,
    option_map snd
      (List.find (fun entry => matches n (fst entry)) ((key, m) :: rest))
    = Some m.
Proof.
  intros H rest m. cbn [List.find fst]. unfold matches. rewrite H.
  reflexivity.
Qed.

Lemma searchVectorDatabase_fragment name :
  includes (normalize name) "lisinopril" = true ->
  findsLisinopril (searchVectorDatabase name).
Proof.
  intros H. unfold searchVectorDatabase, medicines.
  rewrite (includes_first _ _ H). eexists; split; reflexivity.
Qed.

Lemma includes_empty s : includes EmptyString s = true.
Proof. destruct s; reflexivity. Qed.

Lemma searchVectorDatabase_blank name :
  trim name = EmptyString -> findsLisinopril (searchVectorDatabase name).
Proof.
  intros H. apply searchVectorDatabase_fragment.
  rewrite (normalize_blank _ H). reflexivity.
Qed.

End MedicineTable.

Lemma find_first {A} (f : A -> bool) (l : list A) (x : A) :
  List.find f l = Some x <->
  exists before after,
    l = before ++ x :: after /\ f x = true /\
    forall y, In y before -> f y = false.
Proof.
  induction l as [|a l IH]; cbn [List.find].
  - split; [discriminate|].
    intros (before & after & E & _). destruct before; discriminate E.
  - destruct (f a) eqn:Fa.
    + split.
      * intros [= <-]. exists [], l. repeat split; [exact Fa|intros y []].
      * intros ([|b before] & after & E & Fx & N).
        -- injection E as -> _. reflexivity.
        -- injection E as -> _.
           rewrite (N b (or_introl eq_refl)) in Fa. discriminate Fa.
    + rewrite IH. split.
      * intros (before & after & -> & Fx & N).
        exists (a :: before), after. repeat split; [exact Fx|].
        intros y [<-|I]; [exact Fa|apply N, I].
      * intros ([|b before] & after & E & Fx & N).
        -- injection E as -> _. rewrite Fx in Fa. discriminate Fa.
        -- injection E as -> ->. exists before, after.
           repeat split; [exact Fx|]. intros y I. apply N. right. exact I.
Qed.

(** X6.  The medicine lookup ignores the letter case of the name and the
    white space around it.  It answers [null] exactly when no key of the
    table contains the normalised name or is contained in it, and
    otherwise with the entry of the first such key in the order of the
    table: every key in front of it fails the test.  A name that is a
    fragment of the first key, the empty name included, gets the
    Lisinopril entry. *)
Theorem medicine_lookup_normalises_the_name :
  forall medicineName : string,
    Tools.searchVectorDatabase (JsString.trim medicineName)
      = Tools.searchVectorDatabase medicineName /\
    Tools.searchVectorDatabase (Tools.toLowerCase medicineName)
      = Tools.searchVectorDatabase medicineName /\
    (Tools.searchVectorDatabase medicineName = None <->
     forall key m, In (key, m) Tools.medicines ->
       Tools.matches (Tools.normalize medicineName) key = false) /\
    (forall m, Tools.searchVectorDatabase medicineName = Some m <->
       exists key before after,
         Tools.medicines = before ++ (key, m) :: after /\
         Tools.matches (Tools.normalize medicineName) key = true /\
         forall entry, In entry before ->
           Tools.matches (Tools.normalize medicineName) (fst entry)
           = false) /\
    (Tools.includes (Tools.normalize medicineName) "lisinopril" = true ->
     findsLisinopril (Tools.searchVectorDatabase medicineName)).
Proof.
  intros name. split; [apply searchVectorDatabase_trim|].
  split.
  { unfold Tools.searchVectorDatabase. now rewrite normalize_toLowerCase. }
  split; [|split].
  - unfold Tools.searchVectorDatabase. split.
    + intros H key m I.
      destruct (find _ Tools.medicines) eqn:F; [discriminate|].
      exact (find_none _ _ F (key, m) I).
    + intros H.
      destruct (find _ Tools.medicines) as [[key m]|] eqn:F; [|reflexivity].
      apply find_some in F. destruct F as [I T]. cbn [fst] in T.
      rewrite (H key m I) in T. discriminate.
  - intros m. unfold Tools.searchVectorDatabase. split.
    + destruct (find _ Tools.medicines) as [[key m']|] eqn:F;
        [|discriminate].
      intros [= <-]. apply find_first in F.
      destruct F as (before & after & E & T & N).
      exists key, before, after. repeat split; assumption.
    + intros (key & before & after & E & T & N).
      assert (F : find (fun entry =>
                          Tools.matches (Tools.normalize name) (fst entry))
                    Tools.medicines = Some (key, m)).
      { apply find_first. exists before, after. repeat split; assumption. }
      rewrite F. reflexivity.
  - apply searchVectorDatabase_fragment.
Qed.

Lemma medicine_lookup_normalises_the_name_witness :
  findsLisinopril (Tools.searchVectorDatabase "  PRIL ") /\
  Tools.searchVectorDatabase "Aspirin" = None /\
  option_map Tools.m_name
    (Tools.searchVectorDatabase "metformin or lisinopril")
    = Some "Lisinopril".
Proof.
  split; [|split].
  - apply (proj2 (proj2 (proj2 (proj2
             (medicine_lookup_normalises_the_name "  PRIL "))))).
    reflexivity.
  - apply (proj2 (proj1 (proj2 (proj2
             (medicine_lookup_normalises_the_name "Aspirin"))))).
    intros key m [E|[E|[E|[]]]]; inversion E; reflexivity.
  - destruct (Tools.searchVectorDatabase "metformin or lisinopril")
      as [m|] eqn:S; [|vm_compute in S; discriminate S].
    apply (proj1 (proj1 (proj2 (proj2 (proj2
             (medicine_lookup_normalises_the_name
                "metformin or lisinopril")))) m)) in S.
    destruct S as (key & [|e before] & after & E & _ & N).
    + injection E as _ <-. reflexivity.
    + injection E as <- _. specialize (N _ (or_introl eq_refl)).
      vm_compute in N. discriminate N.
Defined.

Section MedicineData.

Import JsString Tools.

Lemma split_nonempty sep s : split sep s <> [].
Proof.
  destruct s as [|c r]; [discriminate|]. cbn [split].
  destruct (sep c); [discriminate|]. destruct (split sep r); discriminate.
Qed.

Lemma length_split sep s : length (split sep s) = S (countChars sep s).
Proof.
  induction s as [|c r IH]; [reflexivity|]. cbn [split countChars].
  destruct (sep c).
  - cbn [length]. now rewrite IH.
  - destruct (split sep r) eqn:E; [now apply split_nonempty in E|].
    cbn [length] in *. exact IH.
Qed.

Lemma medicineData_pieces p :
  medicineData p = map searchVectorDatabase (split isCommaOrNewline p).
Proof.
  unfold medicineData, medicationsOf. rewrite map_map.
  apply map_ext. intros piece. apply searchVectorDatabase_trim.
Qed.

End MedicineData.

(** X7.  The medicine data gathered for the model has one entry per piece
    of the prescription between commas and newlines, empty pieces
    included: one more entry than there are separators, never fewer than
    the medication names the graph adapter extracts from the same text.
    A piece of white space only is answered with the Lisinopril entry, so
    the empty prescription gathers exactly that entry. *)
Theorem medicine_data_has_an_entry_per_piece :
  forall prescription : string,
    Tools.medicineData prescription
      = map Tools.searchVectorDatabase
          (JsString.split isCommaOrNewline prescription) /\
    length (Tools.medicineData prescription)
      = S (countChars isCommaOrNewline prescription) /\
    length (extractMedicationsFromPrescription prescription)
      <= length (Tools.medicineData prescription) /\
    Forall2
      (fun piece found =>
         JsString.trim piece = EmptyString -> findsLisinopril found)
      (JsString.split isCommaOrNewline prescription)
      (Tools.medicineData prescription) /\
    (JsString.trim prescription = EmptyString ->
     countChars isCommaOrNewline prescription = 0 ->
     exists m, Tools.medicineData prescription = [Some m] /\
               Tools.m_name m = "Lisinopril").
Proof.
  intros p. rewrite medicineData_pieces.
  split; [reflexivity|].
  split; [now rewrite length_map, length_split|].
  split.
  { unfold extractMedicationsFromPrescription.
    rewrite !length_map.
    etransitivity; [apply filter_length_le|]. now rewrite length_map. }
  split.
  { induction (JsString.split isCommaOrNewline p) as [|piece l IH];
      constructor; [|exact IH].
    apply searchVectorDatabase_blank. }
  intros B Z.
  assert (L := length_split isCommaOrNewline p). rewrite Z in L.
  destruct (JsString.split isCommaOrNewline p) as [|piece [|? ?]] eqn:E;
    try discriminate.
  assert (piece = p) as ->.
  { clear B L. revert piece E Z.
    induction p as [|c r IH]; intros piece E Z.
    - now inversion E.
    - cbn [JsString.split countChars] in *.
      destruct (isCommaOrNewline c); [discriminate|].
      destruct (JsString.split isCommaOrNewline r) as [|h t] eqn:E';
        [now apply split_nonempty in E'|].
      inversion E; subst. f_equal. apply IH; [reflexivity|exact Z]. }
  destruct (searchVectorDatabase_blank p B) as [m [F N]].
  exists m. cbn [map]. now rewrite F.
Qed.

Lemma medicine_data_has_an_entry_per_piece_witness :
  exists m, Tools.medicineData EmptyString = [Some m] /\
            Tools.m_name m = "Lisinopril".
Proof.
  apply (proj2 (proj2 (proj2 (proj2
           (medicine_data_has_an_entry_per_piece EmptyString)))));
    reflexivity.
Defined.

(* ================================================================== *)
(** * The image part of the request *)
(* ================================================================== *)

Section ImagePart.

Import JsString Tools.

Lemma startsWith_drop pre s :
  startsWith pre s = true -> s = (pre ++ drop (String.length pre) s)%string.
Proof.
  revert s. induction pre as [|a p IH]; intros s H; [reflexivity|].
  destruct s as [|b r]; [discriminate|]. cbn [startsWith] in H.
  apply andb_prop in H. destruct H as [E H].
  apply Ascii.eqb_eq in E. subst b.
  cbn [String.length drop append]. f_equal. apply IH, H.
Qed.

Lemma append_associative (a b c : string) :
  ((a ++ b) ++ c = a ++ b ++ c)%string.
Proof.
  induction a as [|x a IH]; [reflexivity|]. cbn [append]. now rewrite IH.
Qed.

Lemma startsWith_append pre rest : startsWith pre (pre ++ rest) = true.
Proof.
  induction pre as [|a p IH]; [reflexivity|].
  cbn [append startsWith]. now rewrite Ascii.eqb_refl, IH.
Qed.

Lemma drop_append pre rest : drop (String.length pre) (pre ++ rest) = rest.
Proof. induction pre as [|a p IH]; [reflexivity|exact IH]. Qed.

Lemma matchImageType_header type payload :
  In type imageTypes ->
  matchImageType (dataUrlHeader type ++ payload) = Some type.
Proof.
  unfold imageTypes.
  intros [<-|[<-|[<-|[<-|[]]]]]; reflexivity.
Qed.

End ImagePart.

(** X8.  The header of a PNG, JPG, JPEG or WEBP data URL is cut off the
    image and its type becomes the MIME type: header and data put
    together give the image back.  Any other string, a data URL of
    another type included, is sent whole and labelled [image/jpeg].  No
    image, or the empty string, adds no part. *)
Theorem image_part_splits_the_data_url :
  (forall type payload : string,
     In type Tools.imageTypes ->
     Tools.inlineData (Tools.dataUrlHeader type ++ payload)
     = {| Tools.data := payload;
          Tools.mime_type := ("image/" ++ type)%string |})
  /\
  (forall prescriptionImage : string,
     let part := Tools.inlineData prescriptionImage in
     match Tools.matchImageType prescriptionImage with
     | Some type =>
         In type Tools.imageTypes /\
         Tools.mime_type part = ("image/" ++ type)%string /\
         prescriptionImage
         = ("data:" ++ Tools.mime_type part ++ ";base64," ++ Tools.data part)
             %string
     | None =>
         Tools.data part = prescriptionImage /\
         Tools.mime_type part = "image/jpeg"
     end)
  /\
  (forall prescriptionImage : option string,
     Tools.imagePart prescriptionImage = None <->
     prescriptionImage = None \/ prescriptionImage = Some EmptyString).
Proof.
  split; [|split].
  - intros type payload I. unfold Tools.inlineData.
    rewrite (matchImageType_header type payload I).
    now rewrite drop_append.
  - intros image part. subst part. unfold Tools.inlineData.
    destruct (Tools.matchImageType image) as [type|] eqn:E;
      [|split; reflexivity].
    unfold Tools.matchImageType in E. apply find_some in E.
    destruct E as [I H]. split; [exact I|]. split; [reflexivity|].
    cbn [Tools.mime_type Tools.data].
    rewrite (startsWith_drop _ _ H) at 1. unfold Tools.dataUrlHeader.
    generalize (Tools.drop
                  (String.length ("data:image/" ++ type ++ ";base64,"))
                  image).
    intros rest. cbn [append]. do 11 f_equal. apply append_associative.
  - intros [[|c r]|]; cbn [Tools.imagePart]; split;
      try discriminate; auto.
    + intros [E|E]; discriminate.
Qed.

Lemma image_part_splits_the_data_url_witness :
  Tools.inlineData "data:image/png;base64,iVBORw0KGgo="
  = {| Tools.data := "iVBORw0KGgo="; Tools.mime_type := "image/png" |}.
Proof.
  apply (proj1 image_part_splits_the_data_url "png" "iVBORw0KGgo=").
  simpl. auto.
Defined.

(* ================================================================== *)
(** * The states the server actions reach *)
(* ================================================================== *)

Section KeysOfObjects.

Context {A B : Type}.
Implicit Types (o : JsObj.t A) (p : JsObj.t B).

Lemma has_keys k o p :
  JsObj.keys o = JsObj.keys p -> JsObj.has k o = JsObj.has k p.
Proof.
  unfold JsObj.has. revert p.
  induction o as [|[k1 v1] o IH]; intros [|[k2 v2] p] E;
    try discriminate; [reflexivity|].
  injection E as -> E. simpl.
  destruct (String.eqb k k2); [reflexivity|]. apply IH, E.
Qed.

Lemma keys_insertIndex n k (a : A) (b : B) o p :
  JsObj.keys o = JsObj.keys p ->
  JsObj.keys (JsObj.insertIndex n k a o)
  = JsObj.keys (JsObj.insertIndex n k b p).
Proof.
  revert p.
  induction o as [|[k1 v1] o IH]; intros [|[k2 v2] p] E;
    try discriminate; [reflexivity|].
  injection E as -> E. cbn [JsObj.insertIndex].
  destruct (JsObj.arrayIndex k2) as [m|].
  - destruct (m <? n)%N; unfold JsObj.keys in *; cbn [map fst];
      f_equal; auto.
    f_equal. exact E.
  - unfold JsObj.keys in *; cbn [map fst]. do 2 f_equal. exact E.
Qed.

Lemma keys_set k (a : A) (b : B) o p :
  JsObj.keys o = JsObj.keys p ->
  JsObj.keys (JsObj.set k a o) = JsObj.keys (JsObj.set k b p).
Proof.
  intros E. unfold JsObj.set. rewrite <- (has_keys k o p E).
  destruct (JsObj.has k o).
  - now rewrite !keys_replace.
  - destruct (JsObj.arrayIndex k) as [n|].
    + apply keys_insertIndex, E.
    + unfold JsObj.keys in *. rewrite !map_app. now rewrite E.
Qed.

Lemma has_set_same k (a : A) o : JsObj.has k (JsObj.set k a o) = true.
Proof. unfold JsObj.has. now rewrite get_set_same. Qed.

Lemma get_of_key k o : In k (JsObj.keys o) -> JsObj.get k o <> None.
Proof.
  induction o as [|[k1 v1] o IH]; simpl; [tauto|].
  intros [->|I].
  - now rewrite String.eqb_refl.
  - destruct (String.eqb k k1); [discriminate|]. apply IH, I.
Qed.

End KeysOfObjects.

Lemma last_In {A} (l : list A) (d : A) : l <> [] -> In (List.last l d) l.
Proof.
  induction l as [|x [|y l] IH]; intros N; [congruence|left; reflexivity|].
  right. apply IH. discriminate.
Qed.

Lemma recorded_set_blockchainStatus_Recorded r :
  recorded (set_blockchainStatus "Recorded" r).
Proof. left. reflexivity. Qed.

Lemma recorded_set_blockchainStatus_Updated r :
  recorded (set_blockchainStatus "Updated" r).
Proof. right. reflexivity. Qed.

Lemma ledgerAgrees_sameCore k a b ledger :
  sameCore a b -> ledgerAgrees k a ledger -> ledgerAgrees k b ledger.
Proof.
  intros (_ & S & I & G) (rec & H1 & H2 & H3 & H4).
  exists rec. rewrite <- S, <- I, <- G. auto.
Qed.

Lemma ledgerAgrees_other k k' a rec ledger :
  k <> k' ->
  ledgerAgrees k a ledger -> ledgerAgrees k a (JsObj.set k' rec ledger).
Proof.
  intros N (rec0 & H1 & H2). exists rec0.
  rewrite get_set_other by exact N. auto.
Qed.

(** ** First revision *)

Lemma V1_analyze_fails w formData e s :
  V1.modelAnswer w = Throw e ->
  V1.analyzePrescription w formData s = (Throw AnalysisFailed, s).
Proof.
  intros A. unfold V1.analyzePrescription. run. rewrite A. reflexivity.
Qed.

Lemma V1_analyze_returns w formData analysis s :
  V1.modelAnswer w = Return analysis ->
  let aid := analysisId (V1.dateNow w) (V1.randomSuffix w) in
  let result := newResult aid formData analysis (V1.clock1 w) (V1.clock2 w) in
  V1.analyzePrescription w formData s =
  (Return tt,
   {| V1.resultsStore :=
        JsObj.set aid (set_blockchainStatus "Recorded" result)
          (JsObj.set aid result (V1.resultsStore s));
      V1.blockchainRecords :=
        JsObj.set aid (blockchainData result (generateHash result))
          (V1.blockchainRecords s) |}).
Proof.
  intros A aid result.
  unfold V1.analyzePrescription, V1.storeOnBlockchain, V1.mutateResult.
  run. rewrite A. simpl. fold aid. fold result.
  rewrite get_set_same. reflexivity.
Qed.

Lemma V1_results_keeps_state w s :
  snd (V1.getPrescriptionResults w s) = s.
Proof.
  unfold V1.getPrescriptionResults. run.
  destruct (JsObj.keys (V1.resultsStore s)); [reflexivity|].
  destruct (JsObj.get _ _); reflexivity.
Qed.

Lemma V1_update_unknown w k s :
  JsObj.get k (V1.resultsStore s) = None ->
  V1.updateBlockchainRecord w k s = (Throw UpdateFailed, s).
Proof.
  intros G. unfold V1.updateBlockchainRecord, V1.updateBlockchainRecord_try.
  run. rewrite G. reflexivity.
Qed.

Lemma V1_update_known w k s data old :
  JsObj.get k (V1.resultsStore s) = Some data ->
  JsObj.get k (V1.blockchainRecords s) = Some old ->
  V1.updateBlockchainRecord w k s =
  (Return tt,
   {| V1.resultsStore :=
        JsObj.set k
          (set_blockchainStatus "Updated"
             (set_lastUpdated (V1.clock2 w) data))
          (JsObj.set k (set_lastUpdated (V1.clock2 w) data)
             (V1.resultsStore s));
      V1.blockchainRecords :=
        JsObj.set k
          (updatedData old (V1.clock1 w) data (generateHash data))
          (V1.blockchainRecords s) |}).
Proof.
  intros G L.
  unfold V1.updateBlockchainRecord, V1.updateBlockchainRecord_try.
  unfold tryCatch, bind at 1, gets at 1. rewrite G.
  unfold bind at 1. rewrite (V1_updateOnBlockchain_present w k data s old L).
  unfold V1.mutateResult. run. rewrite G. simpl.
  rewrite get_set_same. reflexivity.
Qed.

Lemma consistent1_init : consistent1 V1.init.
Proof. split; [reflexivity|]. intros k r G. discriminate G. Qed.

Lemma consistent1_act a s : consistent1 s -> consistent1 (act1 a s).
Proof.
  intros [K I]. destruct a as [w formData|w|w k]; cbn [act1].
  - destruct (V1.modelAnswer w) as [analysis|e] eqn:A.
    2:{ rewrite (V1_analyze_fails w formData e s A). split; assumption. }
    rewrite (V1_analyze_returns w formData analysis s A). cbn [snd].
    set (aid := analysisId (V1.dateNow w) (V1.randomSuffix w)).
    set (result := newResult aid formData analysis (V1.clock1 w)
                     (V1.clock2 w)).
    split; cbn [V1.resultsStore V1.blockchainRecords].
    + rewrite keys_set_present by apply has_set_same.
      apply keys_set, K.
    + intros k r G. destruct (String.eqb_spec k aid) as [->|N].
      * rewrite get_set_same in G. injection G as <-.
        split; [reflexivity|].
        split; [apply recorded_set_blockchainStatus_Recorded|].
        eexists. rewrite get_set_same. split; [reflexivity|].
        repeat split.
      * rewrite !get_set_other in G by exact N.
        destruct (I k r G) as (H1 & H2 & H3).
        split; [exact H1|]. split; [exact H2|].
        apply ledgerAgrees_other; assumption.
  - rewrite V1_results_keeps_state. split; assumption.
  - destruct (JsObj.get k (V1.resultsStore s)) as [data|] eqn:G.
    2:{ rewrite (V1_update_unknown w k s G). split; assumption. }
    destruct (I k data G) as (H1 & H2 & old & L & H3 & H4 & H5).
    rewrite (V1_update_known w k s data old G L). cbn [snd].
    split; cbn [V1.resultsStore V1.blockchainRecords].
    + assert (P : JsObj.has k (V1.resultsStore s) = true)
        by (unfold JsObj.has; now rewrite G).
      assert (Q : JsObj.has k (V1.blockchainRecords s) = true)
        by (unfold JsObj.has; now rewrite L).
      rewrite keys_set_present by apply has_set_same.
      rewrite !keys_set_present by assumption. exact K.
    + intros k' r G'. destruct (String.eqb_spec k' k) as [->|N].
      * rewrite get_set_same in G'. injection G' as <-.
        split; [exact H1|].
        split; [apply recorded_set_blockchainStatus_Updated|].
        eexists. rewrite get_set_same. split; [reflexivity|].
        repeat split. exact H3.
      * rewrite !get_set_other in G' by exact N.
        destruct (I k' r G') as (J1 & J2 & J3).
        split; [exact J1|]. split; [exact J2|].
        apply ledgerAgrees_other; assumption.
Qed.

Lemma consistent1_fold l s :
  consistent1 s -> consistent1 (fold_left (fun s a => act1 a s) l s).
Proof.
  revert s. induction l as [|a l IH]; intros s C; [exact C|].
  apply IH, consistent1_act, C.
Qed.

Lemma consistent1_after l : consistent1 (after1 l).
Proof. apply consistent1_fold, consistent1_init. Qed.

Lemma V1_update_succeeds_iff w k s :
  consistent1 s ->
  (fst (V1.updateBlockchainRecord w k s) = Return tt <->
   JsObj.has k (V1.resultsStore s) = true).
Proof.
  intros [K I]. unfold JsObj.has.
  destruct (JsObj.get k (V1.resultsStore s)) as [data|] eqn:G.
  - destruct (I k data G) as (_ & _ & old & L & _).
    rewrite (V1_update_known w k s data old G L). split; reflexivity.
  - rewrite (V1_update_unknown w k s G). split; discriminate.
Qed.

Lemma V1_results_returns w s :
  exists r,
    V1.getPrescriptionResults w s = (Return r, s) /\
    match JsObj.keys (V1.resultsStore s) with
    | [] => r = mockResult (V1.clock1 w) (V1.clock2 w)
    | k :: ks =>
        JsObj.get (List.last (k :: ks) EmptyString) (V1.resultsStore s)
        = Some r
    end.
Proof.
  unfold V1.getPrescriptionResults. run.
  destruct (JsObj.keys (V1.resultsStore s)) as [|k ks] eqn:E.
  - eexists. split; reflexivity.
  - assert (N : JsObj.get (List.last (k :: ks) EmptyString)
                  (V1.resultsStore s) <> None).
    { apply get_of_key. rewrite E. apply last_In. discriminate. }
    destruct (JsObj.get _ (V1.resultsStore s)) as [r|]; [|congruence].
    exists r. split; reflexivity.
Qed.

(** X9.  First revision, server actions called one after the other from
    a fresh start, in any number and order and whatever the model
    answers, as long as no refresh is asked for an id that is a property
    name of [Object.prototype].  The results store and the ledger then
    have the same keys in the same order; each stored result sits under
    its own id, is marked "Recorded" or "Updated", never "Pending", and
    the ledger holds under that id a record with the result's id, status
    and counts.  A refresh of an id that is no such property name returns
    exactly when the id is in the store, and [getPrescriptionResults]
    always returns a result, which is marked "Recorded" or "Updated". *)
Theorem actions_keep_store_and_ledger_together :
  forall actions : list Action1,
    forallb plain1 actions = true ->
    let s := after1 actions in
    consistent1 s /\
    (forall w k,
       JsObj.inherited k = false ->
       (fst (V1.updateBlockchainRecord w k s) = Return tt <->
        JsObj.has k (V1.resultsStore s) = true)) /\
    (forall w, exists r,
       V1.getPrescriptionResults w s = (Return r, s) /\ recorded r).
Proof.
  intros actions _ s. assert (C := consistent1_after actions). fold s in C.
  split; [exact C|]. split.
  - intros w k _. apply V1_update_succeeds_iff, C.
  - intros w. destruct (V1_results_returns w s) as (r & E & H).
    exists r. split; [exact E|].
    destruct (JsObj.keys (V1.resultsStore s)) as [|k ks].
    + subst r. left. reflexivity.
    + destruct C as [_ I]. exact (proj1 (proj2 (I _ _ H))).
Qed.

(** A submission of Erin's, a refresh of her record, a refresh of an id
    nobody was given, and a look at the latest result. *)
Lemma actions_keep_store_and_ledger_together_witness :
  consistent1
    (after1 [Analyze1 (world1 1735725600000 "k3j9x2a") formErin;
             Update1 (world1 1735725603000 "aaaaaaa")
               "rx-1735725600000-k3j9x2a";
             Update1 (world1 1735725606000 "bbbbbbb") "rx-0-nobody";
             Results1 (world1 1735725609000 "ccccccc")]).
Proof.
  exact (proj1 (actions_keep_store_and_ledger_together
                  [Analyze1 (world1 1735725600000 "k3j9x2a") formErin;
                   Update1 (world1 1735725603000 "aaaaaaa")
                     "rx-1735725600000-k3j9x2a";
                   Update1 (world1 1735725606000 "bbbbbbb") "rx-0-nobody";
                   Results1 (world1 1735725609000 "ccccccc")]
                  eq_refl)).
Defined.

(** ** Second revision *)

Lemma V2_history_keeps_state w p s :
  exists r, V2.getPatientPrescriptionHistory w p s = (r, s).
Proof.
  unfold V2.getPatientPrescriptionHistory. run.
  destruct (V2.driver s) as [d|] eqn:D; run; rewrite ?D.
  - destruct (V2.historyQuery w (p_name p)); eexists; reflexivity.
  - eexists; reflexivity.
Qed.

Lemma V2_byHash_keeps_state w hash s :
  exists r, V2.getPrescriptionByHash w hash s = (r, s).
Proof.
  unfold V2.getPrescriptionByHash. run.
  destruct (V2.driver s) as [d|] eqn:D; run; rewrite ?D.
  - destruct (V2.hashQuery w hash) as [[|row rows]|e]; eexists; reflexivity.
  - eexists; reflexivity.
Qed.

Lemma sameStores_ensured w s : sameStores s (ensured w s).
Proof.
  destruct (ensured_frame w s) as (H1 & H2 & H3 & _).
  repeat split; assumption.
Qed.

Lemma V2_search_sameStores w hash s :
  sameStores s (snd (V2.searchPrescriptionByHash w hash s)).
Proof.
  unfold V2.searchPrescriptionByHash, V2.getPrescriptionFromHash.
  unfold tryCatch, bind at 1. rewrite ensure_returns.
  unfold bind at 1, gets at 1.
  destruct (JsObj.findValue _ _).
  - destruct (V2_byHash_keeps_state w hash (ensured w s)) as [[r|e] E];
      rewrite E; apply sameStores_ensured.
  - apply sameStores_ensured.
Qed.

Lemma V2_getPatientHistory_keeps_state w p s :
  snd (V2.getPatientHistory w p s) = s.
Proof.
  unfold V2.getPatientHistory, tryCatch.
  destruct (V2_history_keeps_state w p s) as [[r|e] E]; rewrite E;
    reflexivity.
Qed.

Lemma V2_results_keeps_state w s :
  snd (V2.getPrescriptionResults w s) = s.
Proof.
  unfold V2.getPrescriptionResults. run.
  destruct (JsObj.keys (V2.resultsStore s)); [reflexivity|].
  destruct (JsObj.get _ _); reflexivity.
Qed.

Lemma V2_analyze_cases w formData s :
  V2.analyzePrescription w formData s = (Throw AnalysisFailed, s) \/
  exists analysis s',
    let aid := analysisId (V2.dateNow w) (V2.randomSuffix w) in
    let result :=
      newResult aid formData analysis (V2.clock1 w) (V2.clock2 w) in
    V2.analyzePrescription w formData s = (Return tt, s') /\
    V2.resultsStore s'
      = JsObj.set aid (List.length (V2.heap s)) (V2.resultsStore s) /\
    V2.heap s' = V2.heap s ++ [set_blockchainStatus "Recorded" result] /\
    V2.blockchainRecords s'
      = JsObj.set aid (blockchainData result (generateHash result))
          (V2.blockchainRecords s).
Proof.
  destruct (V2_history_keeps_state w (V2.patientKey formData) s)
    as [[history|e] H].
  - destruct (V2.modelAnswer w history) as [analysis|e] eqn:A.
    + right. exists analysis.
      destruct (V2_submit_after_history w formData s history analysis H A)
        as (s' & E & H1 & H2 & H3).
      exists s'. auto.
    + left. unfold V2.analyzePrescription, tryCatch.
      unfold bind at 1. rewrite H.
      unfold bind at 1, await at 1. rewrite A. reflexivity.
  - left. unfold V2.analyzePrescription, tryCatch.
    unfold bind at 1. rewrite H. reflexivity.
Qed.

Lemma V2_update_unknown w k s :
  JsObj.get k (V2.resultsStore s) = None ->
  V2.updateBlockchainRecord w k s = (Throw UpdateFailed, s).
Proof.
  intros G. unfold V2.updateBlockchainRecord, V2.updateBlockchainRecord_try.
  run. rewrite G. reflexivity.
Qed.

Lemma V2_update_known w k s data old :
  JsObj.get k (V2.resultsStore s) = Some data ->
  JsObj.get k (V2.blockchainRecords s) = Some old ->
  exists s',
    V2.updateBlockchainRecord w k s = (Return tt, s') /\
    V2.resultsStore s' = V2.resultsStore s /\
    V2.heap s'
      = V2.updateAt data (set_blockchainStatus "Updated")
          (V2.updateAt data (set_lastUpdated (V2.clock2 w)) (V2.heap s)) /\
    V2.blockchainRecords s'
      = JsObj.set k
          (updatedData old (V2.clock1 w) (V2.deref (V2.heap s) data)
             (generateHash (V2.deref (V2.heap s) data)))
          (V2.blockchainRecords s).
Proof.
  intros G L.
  destruct (V2_updateOnBlockchain_present w k data s old L)
    as (s1 & U & Hh & Hr & Hl).
  unfold V2.updateBlockchainRecord, V2.updateBlockchainRecord_try.
  run. rewrite G, U. simpl.
  eexists. split; [reflexivity|]. simpl.
  rewrite Hh, Hr, Hl. auto.
Qed.

Lemma sameCore_refl a : sameCore a a.
Proof. repeat split. Qed.

Lemma sameCore_updated w h data ref :
  sameCore (V2.deref h ref)
    (V2.deref
       (V2.updateAt data (set_blockchainStatus "Updated")
          (V2.updateAt data (set_lastUpdated (V2.clock2 w)) h)) ref).
Proof.
  destruct (Nat.eq_dec ref data) as [->|N].
  - destruct (Nat.lt_ge_cases data (List.length h)) as [L|L].
    + rewrite deref_updateAt_same by (rewrite length_updateAt; exact L).
      rewrite deref_updateAt_same by exact L. repeat split.
    + unfold V2.deref.
      rewrite !nth_overflow by (rewrite ?length_updateAt; exact L).
      apply sameCore_refl.
  - rewrite !deref_updateAt_other by exact N. apply sameCore_refl.
Qed.

Lemma consistent2_init : consistent2 V2.init.
Proof. split; [reflexivity|]. intros k r G. discriminate G. Qed.

Lemma consistent2_sameStores s s' :
  sameStores s s' -> consistent2 s -> consistent2 s'.
Proof.
  intros (H1 & H2 & H3) [K I]. unfold consistent2.
  rewrite H1, H2, H3. split; assumption.
Qed.

Lemma consistent2_act a s : consistent2 s -> consistent2 (act2 a s).
Proof.
  intros C. destruct a as [w formData|w|w k|w hash|w p]; cbn [act2].
  - destruct (V2_analyze_cases w formData s)
      as [E|(analysis & s' & E & Hr & Hh & Hl)].
    { rewrite E. exact C. }
    cbv zeta in E, Hr, Hh, Hl. rewrite E. cbn [snd].
    destruct C as [K I].
    set (aid := analysisId (V2.dateNow w) (V2.randomSuffix w)) in *.
    set (result := newResult aid formData analysis (V2.clock1 w)
                     (V2.clock2 w)) in *.
    split; rewrite ?Hr, ?Hh, ?Hl.
    + apply keys_set, K.
    + intros k ref G. rewrite length_app. cbn [List.length].
      destruct (String.eqb_spec k aid) as [->|N].
      * rewrite get_set_same in G. injection G as <-.
        rewrite deref_alloc.
        split; [lia|]. split; [reflexivity|].
        split; [apply recorded_set_blockchainStatus_Recorded|].
        eexists. rewrite get_set_same. split; [reflexivity|].
        repeat split.
      * rewrite get_set_other in G by exact N.
        destruct (I k ref G) as (H0 & H1 & H2 & H3).
        assert (D : V2.deref (V2.heap s ++
                               [set_blockchainStatus "Recorded" result]) ref
                    = V2.deref (V2.heap s) ref)
          by (unfold V2.deref; apply app_nth1; exact H0).
        rewrite D.
        split; [lia|]. split; [exact H1|]. split; [exact H2|].
        apply ledgerAgrees_other; assumption.
  - rewrite V2_results_keeps_state. exact C.
  - destruct (JsObj.get k (V2.resultsStore s)) as [data|] eqn:G.
    2:{ rewrite (V2_update_unknown w k s G). exact C. }
    destruct C as [K I].
    destruct (I k data G) as (H0 & H1 & H2 & old & L & H3 & H4 & H5).
    destruct (V2_update_known w k s data old G L)
      as (s' & E & Hr & Hh & Hl).
    rewrite E. cbn [snd]. split; rewrite Hr, Hl.
    + assert (Q : JsObj.has k (V2.blockchainRecords s) = true)
        by (unfold JsObj.has; now rewrite L).
      rewrite keys_set_present by assumption. exact K.
    + intros k' ref G'. rewrite Hh, !length_updateAt.
      destruct (I k' ref G') as (J0 & J1 & J2 & J3).
      assert (SC := sameCore_updated w (V2.heap s) data ref).
      split; [exact J0|].
      split; [destruct SC as (<- & _); exact J1|].
      split.
      * destruct (Nat.eq_dec ref data) as [->|N].
        -- rewrite deref_updateAt_same
             by (rewrite length_updateAt; exact H0).
           apply recorded_set_blockchainStatus_Updated.
        -- rewrite !deref_updateAt_other by exact N. exact J2.
      * apply (ledgerAgrees_sameCore _ _ _ _ SC).
        destruct (String.eqb_spec k' k) as [->|N].
        -- assert (ref = data) as -> by congruence.
           eexists. rewrite get_set_same. split; [reflexivity|].
           repeat split. exact H3.
        -- apply ledgerAgrees_other; assumption.
  - apply (consistent2_sameStores s); [apply V2_search_sameStores|exact C].
  - rewrite V2_getPatientHistory_keeps_state. exact C.
Qed.

Lemma consistent2_fold l s :
  consistent2 s -> consistent2 (fold_left (fun s a => act2 a s) l s).
Proof.
  revert s. induction l as [|a l IH]; intros s C; [exact C|].
  apply IH, consistent2_act, C.
Qed.

Lemma consistent2_after l : consistent2 (after2 l).
Proof. apply consistent2_fold, consistent2_init. Qed.

Lemma V2_update_succeeds_iff w k s :
  consistent2 s ->
  (fst (V2.updateBlockchainRecord w k s) = Return tt <->
   JsObj.has k (V2.resultsStore s) = true).
Proof.
  intros [K I]. unfold JsObj.has.
  destruct (JsObj.get k (V2.resultsStore s)) as [data|] eqn:G.
  - destruct (I k data G) as (_ & _ & _ & old & L & _).
    destruct (V2_update_known w k s data old G L) as (s' & E & _).
    rewrite E. split; reflexivity.
  - rewrite (V2_update_unknown w k s G). split; discriminate.
Qed.

Lemma V2_results_returns w s :
  exists r,
    V2.getPrescriptionResults w s = (Return r, s) /\
    match JsObj.keys (V2.resultsStore s) with
    | [] => r = mockResult (V2.clock1 w) (V2.clock2 w)
    | k :: ks =>
        exists ref,
          JsObj.get (List.last (k :: ks) EmptyString) (V2.resultsStore s)
          = Some ref /\ r = V2.deref (V2.heap s) ref
    end.
Proof.
  unfold V2.getPrescriptionResults. run.
  destruct (JsObj.keys (V2.resultsStore s)) as [|k ks] eqn:E.
  - eexists. split; reflexivity.
  - assert (N : JsObj.get (List.last (k :: ks) EmptyString)
                  (V2.resultsStore s) <> None).
    { apply get_of_key. rewrite E. apply last_In. discriminate. }
    destruct (JsObj.get _ (V2.resultsStore s)) as [r|]; [|congruence].
    eexists. split; [reflexivity|]. exists r. split; reflexivity.
Qed.

(** X10.  The same in the second revision, where the actions include the
    fingerprint search and the patient history and the graph database may
    be connected, out of reach or absent at each call; again no refresh
    is asked for a property name of [Object.prototype].  The results
    store and the ledger have the same keys in the same order; each
    stored reference points to a result that carries the key as its id,
    is marked "Recorded" or "Updated", and has a ledger record with its
    id, status and counts.  A refresh of an id that is no such property
    name returns exactly when the id is in the store, and
    [getPrescriptionResults] always returns a result marked "Recorded"
    or "Updated". *)
Theorem actions_keep_store_and_ledger_together_with_graph :
  forall actions : list Action2,
    forallb plain2 actions = true ->
    let s := after2 actions in
    consistent2 s /\
    (forall w k,
       JsObj.inherited k = false ->
       (fst (V2.updateBlockchainRecord w k s) = Return tt <->
        JsObj.has k (V2.resultsStore s) = true)) /\
    (forall w, exists r,
       V2.getPrescriptionResults w s = (Return r, s) /\ recorded r).
Proof.
  intros actions _ s. assert (C := consistent2_after actions). fold s in C.
  split; [exact C|]. split.
  - intros w k _. apply V2_update_succeeds_iff, C.
  - intros w. destruct (V2_results_returns w s) as (r & E & H).
    exists r. split; [exact E|].
    destruct (JsObj.keys (V2.resultsStore s)) as [|k ks].
    + subst r. left. reflexivity.
    + destruct H as (ref & G & ->). destruct C as [_ I].
      exact (proj1 (proj2 (proj2 (I _ _ G)))).
Qed.

Lemma actions_keep_store_and_ledger_together_with_graph_witness :
  consistent2
    (after2 [Analyze2
               (world2Answering 1735725600000 "k3j9x2a" "2025-01-01T10:00:00.000Z")
               formErin;
             Update2
               (world2Answering 1735725603000 "aaaaaaa" "2025-01-01T10:00:03.000Z")
               "rx-1735725600000-k3j9x2a";
             Search2
               (world2Answering 1735725606000 "bbbbbbb" "2025-01-01T10:00:06.000Z")
               "0badcafe";
             Update2
               (world2Answering 1735725609000 "ccccccc" "2025-01-01T10:00:09.000Z")
               "rx-0-nobody"]).
Proof.
  exact (proj1 (actions_keep_store_and_ledger_together_with_graph
                  [Analyze2
                     (world2Answering 1735725600000 "k3j9x2a"
                        "2025-01-01T10:00:00.000Z")
                     formErin;
                   Update2
                     (world2Answering 1735725603000 "aaaaaaa"
                        "2025-01-01T10:00:03.000Z")
                     "rx-1735725600000-k3j9x2a";
                   Search2
                     (world2Answering 1735725606000 "bbbbbbb"
                        "2025-01-01T10:00:06.000Z")
                     "0badcafe";
                   Update2
                     (world2Answering 1735725609000 "ccccccc"
                        "2025-01-01T10:00:09.000Z")
                     "rx-0-nobody"]
                  eq_refl)).
Defined.

(* ================================================================== *)
(** * Fingerprints without a graph database *)
(* ================================================================== *)

Lemma ensured_degraded w s :
  staysDegraded w s ->
  ensured w s = V2.with_neo4jInitialized true s.
Proof.
  intros [D [I|C]]; unfold ensured, V2.ensureNeo4jInitialized, V2.initNeo4j;
    run.
  - rewrite I. destruct s; simpl in *. now subst.
  - rewrite C. destruct (V2.neo4jInitialized s) eqn:I; [|reflexivity].
    destruct s; simpl in *. now subst.
Qed.

Lemma V2_submit_degraded w formData s analysis :
  staysDegraded w s ->
  V2.modelAnswer w
    (map (fun data => V2.deref (V2.heap s) (fst data))
       (JsObj.values (V2.mockGraphData s))) = Return analysis ->
  let aid := analysisId (V2.dateNow w) (V2.randomSuffix w) in
  let result :=
    newResult aid formData analysis (V2.clock1 w) (V2.clock2 w) in
  V2.analyzePrescription w formData s =
  (Return tt,
   {| V2.heap := V2.heap s ++ [set_blockchainStatus "Recorded" result];
      V2.resultsStore :=
        JsObj.set aid (List.length (V2.heap s)) (V2.resultsStore s);
      V2.blockchainRecords :=
        JsObj.set aid (blockchainData result (generateHash result))
          (V2.blockchainRecords s);
      V2.neo4jInitialized := true;
      V2.driver := None;
      V2.mockGraphData :=
        JsObj.set (generateHash result)
          (List.length (V2.heap s), V2.patientInfoOf formData)
          (V2.mockGraphData s) |}).
Proof.
  intros SD A aid result. assert (D := proj1 SD).
  unfold V2.analyzePrescription, tryCatch.
  unfold bind at 1.
  rewrite (V2_history_fallback w (V2.patientKey formData) s D).
  unfold bind at 1, await at 1. rewrite A.
  unfold bind at 1, V2.alloc at 1.
  unfold bind at 1, modify at 1.
  fold aid. fold result.
  unfold bind at 1. unfold V2.storeOnBlockchain.
  unfold bind at 1. rewrite ensure_returns.
  rewrite ensured_degraded.
  2:{ destruct SD as [D' H]. split; [exact D'|exact H]. }
  unfold V2.storePrescriptionInGraph. run. rewrite D. simpl.
  rewrite deref_alloc. change (id result) with aid.
  rewrite get_set_same.
  unfold V2.with_heap, V2.with_mockGraphData, V2.with_blockchainRecords,
    V2.with_neo4jInitialized, V2.with_resultsStore.
  cbn [V2.heap V2.resultsStore V2.blockchainRecords V2.neo4jInitialized
       V2.driver V2.mockGraphData].
  rewrite updateAt_alloc, D. reflexivity.
Qed.

Lemma V2_search_degraded w s hash :
  V2.driver s = None -> V2.neo4jInitialized s = true ->
  V2.searchPrescriptionByHash w hash s =
  (Return
     match JsObj.findValue (fun r => String.eqb (r_hash r) hash)
             (V2.blockchainRecords s) with
     | Some _ =>
         match JsObj.get hash (V2.mockGraphData s) with
         | Some (result, _) => Some (V2.deref (V2.heap s) result)
         | None => None
         end
     | None => None
     end, s).
Proof.
  intros D I.
  unfold V2.searchPrescriptionByHash, V2.getPrescriptionFromHash,
    V2.ensureNeo4jInitialized, V2.getPrescriptionByHash.
  run. rewrite I. simpl.
  destruct (JsObj.findValue _ _); [|reflexivity].
  rewrite D. reflexivity.
Qed.

Lemma V2_update_degraded w k s data old :
  V2.driver s = None -> V2.neo4jInitialized s = true ->
  JsObj.get k (V2.resultsStore s) = Some data ->
  JsObj.get k (V2.blockchainRecords s) = Some old ->
  let d := V2.deref (V2.heap s) data in
  V2.updateBlockchainRecord w k s =
  (Return tt,
   {| V2.heap :=
        V2.updateAt data (set_blockchainStatus "Updated")
          (V2.updateAt data (set_lastUpdated (V2.clock2 w)) (V2.heap s));
      V2.resultsStore := V2.resultsStore s;
      V2.blockchainRecords :=
        JsObj.set k (updatedData old (V2.clock1 w) d (generateHash d))
          (V2.blockchainRecords s);
      V2.neo4jInitialized := true;
      V2.driver := None;
      V2.mockGraphData :=
        match JsObj.get (generateHash d) (V2.mockGraphData s) with
        | Some (_, patientInfo) =>
            JsObj.set (generateHash d) (data, patientInfo)
              (V2.mockGraphData s)
        | None => V2.mockGraphData s
        end |}).
Proof.
  intros D I G L d.
  unfold V2.updateBlockchainRecord, V2.updateBlockchainRecord_try,
    V2.updateOnBlockchain, V2.ensureNeo4jInitialized,
    V2.updatePrescriptionInGraph.
  run. rewrite G, I. simpl. rewrite L. simpl. rewrite D. simpl.
  fold d.
  destruct (JsObj.get (generateHash d) (V2.mockGraphData s)) as [[r p]|];
    simpl; unfold V2.with_heap, V2.with_mockGraphData,
             V2.with_blockchainRecords; simpl; rewrite ?D, ?I; reflexivity.
Qed.

Lemma get_In_values {V} k (v : V) o :
  JsObj.get k o = Some v -> In v (JsObj.values o).
Proof.
  induction o as [|[k' v'] o IH]; simpl; [discriminate|].
  destruct (String.eqb k k'); [intros [= ->]; now left|].
  intros G. right. apply IH, G.
Qed.

Lemma findValue_of_get {V} (p : V -> bool) k (v : V) o :
  JsObj.get k o = Some v -> p v = true -> JsObj.findValue p o <> None.
Proof.
  intros G P F. unfold JsObj.findValue in F.
  rewrite (find_none _ _ F v (get_In_values k v o G)) in P. discriminate P.
Qed.

(** X11.  What [storeOnBlockchain] writes, [getBlockchainRecord] reads
    back: after a store, the lookup of the result's id returns the record
    built from the result (its id, time stamp, status, fingerprint and
    counts), whatever the ledger held before, a record under the same id
    included; the records under other ids are as they were.  Both
    revisions. *)
Theorem ledger_store_then_get :
  (forall (s : V1.State) (data : PrescriptionResult),
     let s' := snd (V1.storeOnBlockchain data s) in
     fst (V1.storeOnBlockchain data s) = Return (id data) /\
     V1.getBlockchainRecord (id data) s'
       = (Return (blockchainData data (generateHash data)), s') /\
     forall k, k <> id data ->
       V1.getBlockchainRecord k s' = (fst (V1.getBlockchainRecord k s), s'))
  /\
  (forall (w w' : V2.World) (s : V2.State) (data : V2.Ref)
          (patientInfo : PatientInfo),
     let d := V2.deref (V2.heap s) data in
     let s' := snd (V2.storeOnBlockchain w data patientInfo s) in
     fst (V2.storeOnBlockchain w data patientInfo s) = Return (id d) /\
     fst (V2.getBlockchainRecord w' (id d) s')
       = Return (blockchainData d (generateHash d)) /\
     forall k, k <> id d ->
       fst (V2.getBlockchainRecord w' k s')
       = fst (V2.getBlockchainRecord w' k s)).
Proof.
  split.
  - intros s data s'. subst s'.
    unfold V1.storeOnBlockchain, V1.getBlockchainRecord. run.
    rewrite get_set_same. repeat split.
    intros k N. rewrite get_set_other by exact N.
    destruct (JsObj.get k (V1.blockchainRecords s)); reflexivity.
  - intros w w' s data p d s'.
    destruct (V2_storeOnBlockchain_returns w data p s)
      as (s1 & E & _ & _ & L).
    cbv zeta in E, L. fold d in E, L. subst s'. rewrite E. cbn [fst snd].
    assert (F : forall k st,
               fst (V2.getBlockchainRecord w' k st)
               = match JsObj.get k (V2.blockchainRecords st) with
                 | Some r => Return r
                 | None => Throw RecordNotFoundOnBlockchain
                 end).
    { intros k st. unfold V2.getBlockchainRecord.
      unfold bind at 1. rewrite ensure_returns.
      destruct (ensured_frame w' st) as (_ & _ & L' & _).
      run. rewrite L'.
      destruct (JsObj.get k (V2.blockchainRecords st)); reflexivity. }
    split; [reflexivity|]. rewrite !F, L. split.
    + now rewrite get_set_same.
    + intros k N. rewrite F, L. now rewrite get_set_other by exact N.
Qed.

(** X12.  Without a graph database, a submission can be found again by
    its fingerprint.  When [driver] is null and stays so, and the model
    answers, [analyzePrescription] returns, the ledger record under the
    new id carries the fingerprint of the result as it was built, and
    [searchPrescriptionByHash] with that fingerprint returns the stored
    result.  The result it returns is the shared object, already marked
    "Recorded", while the fingerprint was taken when it still said
    "Pending". *)
Theorem degraded_submission_is_found_by_its_fingerprint :
  forall (w w' : V2.World) (formData : FormData) (s : V2.State)
         (analysis : AnalysisResult),
    staysDegraded w s ->
    V2.modelAnswer w
      (map (fun data => V2.deref (V2.heap s) (fst data))
         (JsObj.values (V2.mockGraphData s))) = Return analysis ->
    let aid := analysisId (V2.dateNow w) (V2.randomSuffix w) in
    let result :=
      newResult aid formData analysis (V2.clock1 w) (V2.clock2 w) in
    exists s',
      V2.analyzePrescription w formData s = (Return tt, s') /\
      option_map r_hash (JsObj.get aid (V2.blockchainRecords s'))
        = Some (generateHash result) /\
      blockchainStatus result = "Pending" /\
      V2.searchPrescriptionByHash w' (generateHash result) s'
        = (Return (Some (set_blockchainStatus "Recorded" result)), s').
Proof.
  intros w w' formData s analysis SD A aid result.
  eexists. split; [apply (V2_submit_degraded w formData s analysis SD A)|].
  fold aid. fold result.
  cbn [V2.blockchainRecords]. rewrite get_set_same.
  split; [reflexivity|]. split; [reflexivity|].
  rewrite V2_search_degraded by reflexivity.
  cbn [V2.blockchainRecords V2.mockGraphData V2.heap].
  destruct (JsObj.findValue _ _) eqn:F.
  - rewrite get_set_same, deref_alloc. reflexivity.
  - exfalso. revert F.
    apply (findValue_of_get _ aid (blockchainData result (generateHash result))).
    + apply get_set_same.
    + apply String.eqb_refl.
Qed.

Lemma degraded_submission_is_found_by_its_fingerprint_witness :
  exists r,
    fst (V2.searchPrescriptionByHash
           (world2At 1735725700000 "aaaaaaa" "2025-01-01T10:01:40.000Z")
           (generateHash r) afterAlice2)
    = Return (Some (set_blockchainStatus "Recorded" r)).
Proof.
  destruct (degraded_submission_is_found_by_its_fingerprint
              (world2At 1735725600000 "k3j9x2a" "2025-01-01T10:00:00.000Z")
              (world2At 1735725700000 "aaaaaaa" "2025-01-01T10:01:40.000Z")
              formAlice V2.init sampleAnalysis)
    as (s' & E & _ & _ & S).
  - split; [reflexivity|right; reflexivity].
  - reflexivity.
  - eexists. unfold afterAlice2. rewrite E. cbn [snd]. rewrite S.
    reflexivity.
Defined.

(** X13.  Without a graph database, a refresh makes the prescription
    unfindable by its fingerprint.  The ledger record of the refreshed id
    gets the fingerprint of the result as it is now, but the fall-back
    dictionary, keyed by fingerprint, is changed only where it already
    has that key; where it has not, it stays as it is, and
    [searchPrescriptionByHash] with the fingerprint the ledger now shows
    returns [null]. *)
Theorem degraded_refresh_loses_the_fingerprint :
  forall (w w' : V2.World) (s : V2.State) (k : string) (data : V2.Ref)
         (old : LedgerRecord),
    V2.driver s = None -> V2.neo4jInitialized s = true ->
    JsObj.get k (V2.resultsStore s) = Some data ->
    JsObj.get k (V2.blockchainRecords s) = Some old ->
    let hash := generateHash (V2.deref (V2.heap s) data) in
    JsObj.get hash (V2.mockGraphData s) = None ->
    exists s',
      V2.updateBlockchainRecord w k s = (Return tt, s') /\
      option_map r_hash (JsObj.get k (V2.blockchainRecords s')) = Some hash /\
      V2.mockGraphData s' = V2.mockGraphData s /\
      V2.searchPrescriptionByHash w' hash s' = (Return None, s').
Proof.
  intros w w' s k data old D I G L hash M.
  eexists. split; [apply (V2_update_degraded w k s data old D I G L)|].
  fold hash. rewrite M.
  cbn [V2.blockchainRecords V2.mockGraphData]. rewrite get_set_same.
  split; [reflexivity|]. split; [reflexivity|].
  rewrite V2_search_degraded by reflexivity.
  cbn [V2.blockchainRecords V2.mockGraphData V2.heap]. rewrite M.
  destruct (JsObj.findValue _ _); reflexivity.
Qed.

Lemma degraded_refresh_loses_the_fingerprint_witness :
  exists s',
    V2.updateBlockchainRecord
      (world2At 1735725700000 "aaaaaaa" "2025-01-01T10:01:40.000Z")
      aliceId afterAlice2 = (Return tt, s') /\
    V2.searchPrescriptionByHash
      (world2At 1735725800000 "bbbbbbb" "2025-01-01T10:03:20.000Z")
      (generateHash (V2.deref (V2.heap afterAlice2) 0)) s'
    = (Return None, s').
Proof.
  destruct (degraded_refresh_loses_the_fingerprint
              (world2At 1735725700000 "aaaaaaa" "2025-01-01T10:01:40.000Z")
              (world2At 1735725800000 "bbbbbbb" "2025-01-01T10:03:20.000Z")
              afterAlice2 aliceId 0
              (blockchainData
                 (newResult aliceId formAlice sampleAnalysis
                    "2025-01-01T10:00:00.000Z" "2025-01-01T10:00:00.000Z")
                 (generateHash
                    (newResult aliceId formAlice sampleAnalysis
                       "2025-01-01T10:00:00.000Z"
                       "2025-01-01T10:00:00.000Z"))))
    as (s' & E & _ & _ & S).
  - vm_compute; reflexivity.
  - vm_compute; reflexivity.
  - vm_compute; reflexivity.
  - vm_compute; reflexivity.
  - vm_compute; reflexivity.
  - exists s'. split; [exact E|exact S].
Defined.

(** After Alice's record is refreshed, neither the fingerprint the
    ledger showed before nor the one it shows now finds it, although the
    first one did before the refresh. *)
Example refreshed_record_is_found_by_neither_fingerprint :
  let w := world2At 1735725700000 "aaaaaaa" "2025-01-01T10:01:40.000Z" in
  let s' := snd (V2.updateBlockchainRecord w aliceId afterAlice2) in
  option_map r_hash (JsObj.get aliceId (V2.blockchainRecords afterAlice2))
    = Some "1b2772a7" /\
  option_map r_hash (JsObj.get aliceId (V2.blockchainRecords s'))
    = Some "380e4c92" /\
  fst (V2.searchPrescriptionByHash w "1b2772a7" afterAlice2)
    = Return (Some (V2.deref (V2.heap afterAlice2) 0)) /\
  fst (V2.searchPrescriptionByHash w "1b2772a7" s') = Return None /\
  fst (V2.searchPrescriptionByHash w "380e4c92" s') = Return None.
Proof.
  vm_compute. repeat split.
Qed.

(* ================================================================== *)
(** * The pages *)
(* ================================================================== *)




Lemma V2_search_returns w hash s :
  succeeded (fst (V2.searchPrescriptionByHash w hash s)) = true.
Proof.
  unfold V2.searchPrescriptionByHash, tryCatch.
  destruct (V2.getPrescriptionFromHash w hash s) as [[v|e] s'];
    reflexivity.
Qed.

Lemma V2_search_unknown w hash s :
  (forall r, In r (JsObj.values (V2.blockchainRecords s)) ->
             r_hash r <> hash) ->
  V2.searchPrescriptionByHash w hash s = (Return None, ensured w s).
Proof.
  intros H. destruct (ensured_frame w s) as (_ & _ & L & _).
  unfold V2.searchPrescriptionByHash, V2.getPrescriptionFromHash, tryCatch.
  unfold bind at 1. rewrite ensure_returns.
  unfold bind, gets. unfold JsObj.findValue. rewrite L.
  rewrite find_absent; [reflexivity|].
  intros r Hr. apply String.eqb_neq. apply H. exact Hr.
Qed.

(** X15.  The fingerprint search page.  Input of white space only is
    answered with "Please enter a valid blockchain hash" and the server
    is not asked.  White space around the input does not matter.  A
    fingerprint that no ledger record carries is answered with "No
    prescription record found with this hash".  The page shows a result
    or one of these two messages, never the text of another error. *)
Theorem hash_search_page_answers :
  forall (w : V2.World) (s : V2.State) (searchHash : string),
    let search := Dashboard.handleSearch (V2.searchPrescriptionByHash w) in
    (JsString.trim searchHash = EmptyString ->
     search searchHash s = (Dashboard.ShowError Dashboard.enterHash, s)) /\
    search (JsString.trim searchHash) s = search searchHash s /\
    ((forall r, In r (JsObj.values (V2.blockchainRecords s)) ->
                r_hash r <> JsString.trim searchHash) ->
     JsString.trim searchHash <> EmptyString ->
     fst (search searchHash s) = Dashboard.ShowError Dashboard.notFound) /\
    match fst (search searchHash s) with
    | Dashboard.ShowResult _ => True
    | Dashboard.ShowError error =>
        error = Dashboard.enterHash \/ error = Dashboard.notFound
    end.
Proof.
  intros w s searchHash search. subst search.
  unfold Dashboard.handleSearch. rewrite trim_idempotent.
  split; [|split; [reflexivity|split]].
  - intros ->. reflexivity.
  - intros H N.
    destruct (JsString.trim searchHash) as [|c t] eqn:T; [congruence|].
    cbn [JsString.is_empty].
    rewrite (V2_search_unknown w (String c t) s H). reflexivity.
  - destruct (JsString.is_empty (JsString.trim searchHash));
      [left; reflexivity|].
    assert (Sx := V2_search_returns w (JsString.trim searchHash) s).
    destruct (V2.searchPrescriptionByHash w (JsString.trim searchHash) s)
      as [[[r|]|e] s']; cbn; auto. discriminate Sx.
Qed.

Lemma hash_search_page_answers_witness :
  fst (Dashboard.handleSearch
         (V2.searchPrescriptionByHash
            (world2At 1735725700000 "aaaaaaa" "2025-01-01T10:01:40.000Z"))
         "  0badcafe " afterAlice2)
  = Dashboard.ShowError Dashboard.notFound.
Proof.
  pose proof (hash_search_page_answers
              (world2At 1735725700000 "aaaaaaa" "2025-01-01T10:01:40.000Z")
              afterAlice2 "  0badcafe ") as H.
  cbv zeta in H. destruct H as (_ & _ & H & _).
  apply H; clear H.
  - intros r H. vm_compute in H. destruct H as [<-|[]].
    vm_compute. intros X. discriminate X.
  - vm_compute. intros X. discriminate X.
Defined.

Section RegistrationForm.

Import Register.

Lemma readDigits_from radix a s :
  (1 <= radix)%N ->
  exists v, readDigits radix (Some a) s = Some v /\ (a <= v)%N.
Proof.
  intros R. revert a. induction s as [|c r IH]; intros a.
  - exists a. split; [reflexivity|lia].
  - cbn [readDigits]. destruct (digitValue radix c) as [d|].
    + destruct (IH (a * radix + d)%N) as (v & E & L).
      exists v. split; [exact E|]. nia.
    + exists a. split; [reflexivity|lia].
Qed.

Lemma nonzero_digit_facts c :
  JsString.is_digit c = true -> c <> "0"%char ->
  JsString.is_space c = false /\
  Ascii.eqb c "-" = false /\ Ascii.eqb c "+" = false /\
  Ascii.eqb "0" c = false /\
  exists d, digitValue 10 c = Some d /\ (1 <= d)%N.
Proof.
  intros D N.
  destruct c as [[] [] [] [] [] [] [] []]; vm_compute in D;
    try discriminate D; try (exfalso; apply N; reflexivity);
    (repeat split; try reflexivity; eexists; split;
     [vm_compute; reflexivity|vm_compute; discriminate]).
Qed.

Lemma ageIsPositive_digit c rest :
  JsString.is_digit c = true -> c <> "0"%char ->
  ageIsPositive (String c rest) = true.
Proof.
  intros D N.
  destruct (nonzero_digit_facts c D N) as (S & M & P & Z & d & V & L).
  unfold ageIsPositive, parseInt.
  cbn [JsString.trimStart]. rewrite S, M, P.
  cbn [JsString.startsWith]. rewrite Z. cbn [andb orb].
  cbn [readDigits]. rewrite V.
  destruct (readDigits_from 10 d rest ltac:(lia)) as (v & E & L').
  rewrite E. apply Z.ltb_lt. lia.
Qed.

Lemma ageIsPositive_minus rest : ageIsPositive (String "-" rest) = false.
Proof.
  unfold ageIsPositive, parseInt.
  change (JsString.trimStart (String "-" rest)) with (String "-" rest).
  cbv iota beta. rewrite Ascii.eqb_refl. cbv iota beta zeta.
  destruct (JsString.startsWith "0x" rest || JsString.startsWith "0X" rest);
    cbv iota beta zeta;
    match goal with
    | |- context [readDigits ?r None ?t] => destruct (readDigits r None t)
    end; try reflexivity; apply Z.ltb_ge; lia.
Qed.

End RegistrationForm.

(** X16.  What the registration form lets through.  Values the first
    revision's form accepts the second accepts, with or without an image;
    without an image the two ask for the same; with an image the second
    asks for name, age and gender only, so the prescription text may be
    empty.  The age check passes every text that starts, after leading
    white space, with a digit other than zero, whatever follows, and
    refuses the empty text and every text that starts with a minus
    sign. *)
Theorem registration_form_checks :
  (forall (values : FormData) (hasImage : bool),
     Register.formSchemaV1 values = true ->
     Register.formSchemaV2 values hasImage = true) /\
  (forall values : FormData,
     Register.formSchemaV2 values false = Register.formSchemaV1 values) /\
  (forall values : FormData,
     Register.formSchemaV2 values true
     = Register.minLength 2 (f_name values)
       && Register.ageIsPositive (f_age values)
       && Register.minLength 1 (f_gender values)) /\
  (forall val : string,
     Register.ageIsPositive (JsString.trimStart val)
     = Register.ageIsPositive val) /\
  (forall (c : ascii) (rest : string),
     JsString.is_digit c = true -> c <> "0"%char ->
     Register.ageIsPositive (String c rest) = true) /\
  (forall rest : string,
     Register.ageIsPositive (String "-" rest) = false) /\
  Register.ageIsPositive EmptyString = false.
Proof.
  split; [|split; [|split; [|split; [|split; [|split]]]]].
  - intros values hasImage.
    unfold Register.formSchemaV1, Register.formSchemaV2.
    destruct (Register.minLength 2 _), (Register.ageIsPositive _),
      (Register.minLength 1 _), (Register.minLength 10 (f_symptoms _)),
      (Register.minLength 3 _), (Register.minLength 10 (f_prescription _)),
      hasImage; intros H; try discriminate H; reflexivity.
  - intros values. unfold Register.formSchemaV1, Register.formSchemaV2.
    cbn [negb].
    destruct (Register.minLength 2 _), (Register.ageIsPositive _),
      (Register.minLength 1 _), (Register.minLength 10 (f_symptoms _)),
      (Register.minLength 3 _), (Register.minLength 10 (f_prescription _));
      reflexivity.
  - intros values. unfold Register.formSchemaV2. cbn [negb].
    now rewrite andb_true_r.
  - intros val. unfold Register.ageIsPositive, Register.parseInt.
    rewrite (trimStart_fixed (JsString.trimStart val))
      by apply trimStart_noLeadingSpace.
    reflexivity.
  - apply ageIsPositive_digit.
  - apply ageIsPositive_minus.
  - reflexivity.
Qed.

Lemma registration_form_checks_witness :
  Register.ageIsPositive "35 years" = true /\
  Register.formSchemaV2
    {| f_name := "Alice"; f_age := "54"; f_gender := "female";
       f_medications := "Lisinopril";
       f_symptoms := "thirst and tiredness";
       f_prescription := "Lisinopril 10mg, Metformin 500mg" |} true = true.
Proof.
  split.
  - apply (proj1 (proj2 (proj2 (proj2 (proj2 registration_form_checks))))).
    + reflexivity.
    + discriminate.
  - apply (proj1 registration_form_checks). reflexivity.
Defined.

(** X17.  Submitting the form.  The page goes to the dashboard exactly
    when the values were accepted, the form data could be written to the
    session storage and the analysis returned.  Whenever it stays on the
    form, the server's state is what it was before: a failed submission
    leaves nothing behind in the results store, the ledger or the
    fall-back dictionary, and nothing of the error is shown.  Both
    revisions. *)
Theorem submit_navigates_only_after_success :
  (forall (accepted : bool) (setItem : Result unit) (w : V1.World)
          (values : FormData) (s : V1.State),
     let out :=
       Register.handleSubmit accepted setItem (V1.analyzePrescription w)
         values s in
     (fst out = Register.ToDashboard <->
      accepted = true /\ succeeded setItem = true /\
      succeeded (V1.modelAnswer w) = true) /\
     (fst out = Register.Stays -> snd out = s))
  /\
  (forall (accepted : bool) (setItem : Result unit) (w : V2.World)
          (values : FormData) (s : V2.State),
     let out :=
       Register.handleSubmit accepted setItem (V2.analyzePrescription w)
         values s in
     (fst out = Register.ToDashboard <->
      accepted = true /\ succeeded setItem = true /\
      succeeded (fst (V2.analyzePrescription w values s)) = true) /\
     (fst out = Register.Stays -> snd out = s)).
Proof.
  split.
  - intros accepted setItem w values s out. subst out.
    unfold Register.handleSubmit, Register.onSubmit.
    destruct accepted.
    2:{ cbn [fst snd]. split; [split|reflexivity];
          [discriminate|intros (H & _); discriminate H]. }
    destruct setItem as [u|e].
    2:{ cbn [fst snd succeeded]. split; [split|reflexivity];
          [discriminate|intros (_ & H & _); discriminate H]. }
    destruct (V1.modelAnswer w) as [analysis|e] eqn:A.
    + rewrite (V1_analyze_returns w values analysis s A).
      cbn [fst snd succeeded]. split; [split; auto|discriminate].
    + rewrite (V1_analyze_fails w values e s A).
      cbn [fst snd succeeded]. split; [split|reflexivity];
        [discriminate|intros (_ & _ & H); discriminate H].
  - intros accepted setItem w values s out. subst out.
    unfold Register.handleSubmit, Register.onSubmit.
    destruct accepted.
    2:{ cbn [fst snd]. split; [split|reflexivity];
          [discriminate|intros (H & _); discriminate H]. }
    destruct setItem as [u|e].
    2:{ cbn [fst snd succeeded]. split; [split|reflexivity];
          [discriminate|intros (_ & H & _); discriminate H]. }
    destruct (V2_analyze_cases w values s)
      as [E|(analysis & s' & E & _)]; cbv zeta in E; rewrite E;
      cbn [fst snd succeeded].
    + split; [split|reflexivity];
        [discriminate|intros (_ & _ & H); discriminate H].
    + split; [split; auto|discriminate].
Qed.
